(** * etcd-play: the node lifecycle and the cluster registry of package [proc]

    A shallow embedding of [proc/node_web_local.go], of the remote node
    client, of [proc/proc_cluster.go] and of the cache of the web
    backend, the properties of the specification that are stated about
    them, and further properties of the code.

    Conventions of the embedding.
    - [time.Time] and [time.Duration] are integers counting nanoseconds;
      [Time.Sub] saturates at the bounds of a 64-bit [Duration] as the Go
      library does.
    - Every effect of the program on its surroundings goes through the
      [World]: the clock, the mutex of the cluster, the messages sent on
      channels, the lines given to [log.Printf], and the calls made to the
      operating system and to the agents together with the results these
      calls get.
    - A call that waits for ever (on the mutex, on a wait group, on a
      channel nobody sends on) has the outcome [Blocks].
    - Goroutines that run side by side (the workers of [Shutdown], the
      probes of [Status]) take their turns in an order that the caller of
      the embedding supplies, as does every [range] over a map.
    - [fmt.Sprintf] and [fmt.Errorf] results are kept as constructors that
      carry the arguments of the format string; where the format is made
      at run time ([NodeWebLocal.Write]) the embedding makes the format
      and takes [fmt.Sprintf] as an argument.
    - No statement of the lifecycle methods panics on the values of the
      embedding, so their deferred [recover] has nothing to catch. The
      one index that can be out of range, in [NodeWebLocal.Write], and
      the one pointer that can be nil, in [NodeWebLocal.Endpoint], have
      an outcome of their own. *)

From Stdlib Require Import ZArith Ascii String List Bool Lia.
From stdpp Require Import base option list gmap strings sorting pretty.

Local Open Scope string_scope.
Local Open Scope Z_scope.

(** ** Time *)

Definition Time := Z.
Definition Duration := Z.

Definition minDuration : Duration := - 2 ^ 63.
Definition maxDuration : Duration := 2 ^ 63 - 1.

(** [t.Sub(u)]: the difference, or the largest (smallest) [Duration] when
    the difference does not fit. *)
Definition Sub (t u : Time) : Duration :=
  if t - u <? minDuration then minDuration
  else if maxDuration <? t - u then maxDuration
  else t - u.

(** [time.Time{}], the value of a timestamp that was never set. *)
Definition zeroTime : Time := 0.

(** ** Errors, stream messages and log lines *)

(** One constructor per [fmt.Errorf] of the program; [ErrExternal] is an
    error handed back by the operating system, an agent or a library. *)
Inductive error : Type :=
  | ErrAlreadyRunning (name : string)
      (* "%s is already running or requested to restart" *)
  | ErrRestartedSameNode (sub limit : Duration)
      (* "Somebody restarted the same node (only %v ago)! Retry in %v!" *)
  | ErrTerminatedNode (subt limit : Duration)
      (* "Somebody terminated the node (only %v ago)! Retry in %v!" *)
  | ErrAlreadyTerminated (name : string)
      (* "%s is already terminated or requested to terminate" *)
  | ErrTerminatedSameNode (sub limit : Duration)
      (* "Somebody terminated the same node (only %v ago)! Retry in %v!" *)
  | ErrRestartedNode (subt limit : Duration)
      (* "Somebody restarted the node (only %v ago)! Retry in %v!" *)
  | ErrAlreadyActive (name : string)
      (* "%s is already active" *)
  | ErrTerminated (name : string)
      (* "%s is already terminated" *)
  | ErrNotExist (name : string)
      (* "%s does not exist" *)
  | ErrAgentEndpointsSize (agents flags : nat)
      (* "agent endpoints must be the same size of flags (%d != %d)" *)
  | ErrNoAgentEndpoints
      (* "no agent endpoints found" *)
  | ErrNotImplemented (opt : Z)
      (* "NodeType %v is not implemented" *)
  | ErrNoWrite
      (* "%v does not implement Write" *)
  | ErrTimedOut
      (* "timed out" *)
  | ErrExternal (msg : string).

(** What is sent on the shared stream and on the named streams. *)
Inductive Msg : Type :=
  | MsgStart (name : string)                   (* "Start %s\n" *)
  | MsgRestart (name : string)                 (* "Restart %s\n" *)
  | MsgTerminate (name : string) (pid : Z)     (* "Terminate %s [PID: %d]\n" *)
  | MsgClean (name dataDir : string)           (* "Clean %s (%s)\n" *)
  | MsgText (msg : string).

(** What is given to [log.Printf]. *)
Inductive LogLine : Type :=
  | LogTerminate (name : string) (err : error) (* "Terminate(%s): error (%v)" *)
  | LogClean (name : string) (err : error).    (* "Clean(%s): error (%v)" *)

(** The error classes of the specification. *)
Definition TooSoon (e : error) : Prop :=
  match e with
  | ErrRestartedSameNode _ _ | ErrTerminatedNode _ _
  | ErrTerminatedSameNode _ _ | ErrRestartedNode _ _ => True
  | _ => False
  end.

Definition AlreadyActive (e : error) : Prop :=
  match e with
  | ErrAlreadyRunning _ | ErrAlreadyActive _ => True
  | _ => False
  end.



(** ** Configuration of a member *)

(** The fields of [Flags] that package [proc] reads or writes. The map
    [ListenClientURLs] is held as the list of its keys. Go leaves the
    order of a [range] over the map open: [NodeWebLocal.Endpoint] takes
    the order as an argument, and the two methods [StatusEndpoint] take
    the order of the list. *)
Module Flags.
Record t : Type := mk {
  Name : string;
  DataDir : string;
  ListenClientURLs : list string;
  InitialClusterState : string;
  ExperimentalgRPCAddr : string
}.

Definition set_InitialClusterState (s : string) (f : t) : t :=
  mk (Name f) (DataDir f) (ListenClientURLs f) s (ExperimentalgRPCAddr f).
End Flags.

(** ** Channels *)

(** A channel made by [make(chan string, n)]: its identity and its
    capacity. *)
Record chan : Type := mkChan { chan_id : nat; chan_cap : nat }.

Global Instance chan_eq_dec : EqDecision chan.
Proof. solve_decision. Defined.

(** ** Calls that leave the program *)

(** [exec.Cmd], as far as [Start] and [Restart] fill it in: the argument
    vector, and whether standard output and error go to the node or to
    [ioutil.Discard]. *)
Record Cmd : Type := mkCmd { cmd_args : list string; cmd_toNode : bool }.

(** [client.Agent], made by [client.NewAgent] from an endpoint. *)
Record Agent : Type := mkAgent { agent_endpoint : string }.

Inductive SysCall : Type :=
  | SysCmdStart (c : Cmd)                          (* cmd.Start() *)
  | SysKill (pid : Z)                              (* syscall.Kill(pid, SIGTERM) *)
  | SysRemoveAll (dir : string)                    (* os.RemoveAll(dir) *)
  | SysNewAgent (endpoint : string)                (* client.NewAgent(endpoint) *)
  | SysAgentStart (a : Agent) (args : list string) (* Agent.Start(args...) *)
  | SysAgentRestart (a : Agent)                    (* Agent.Restart() *)
  | SysAgentStop (a : Agent)                       (* Agent.Stop() *)
  | SysAgentCleanup (a : Agent)                    (* Agent.Cleanup() *)
  | SysTerminalWrite (name msg : string).          (* fmt.Fprintln(terminal, msg) *)

(** ** The world *)

(** An error that comes from outside is known by its text only ([inr] of a
    sum, [Some] of an option); the program sees it as [ErrExternal]. *)
Record World : Type := mkWorld {
  (* what the surroundings answer; never changed by the program *)
  env_SHELL : string;                               (* os.Getenv("SHELL") *)
  Flags_String : Flags.t -> string + string;        (* Flags.String() *)
  Flags_StringSlice : Flags.t -> list string + string; (* Flags.StringSlice() *)
  Flags_Combine : bool -> list Flags.t -> list Flags.t * option string;
                            (* CombineFlags(remote, fs...): the flags as it
                               leaves them, and its error *)
  clock : nat -> Time;            (* what the n-th call of time.Now() reads *)
  sys_err : nat -> option string; (* the error of the n-th outside call *)
  sys_pid : nat -> Z;             (* the process id the n-th outside call yields *)
  (* what the program has done so far *)
  ticks : nat;                    (* calls of time.Now() *)
  mu : bool;                      (* the mutex of the cluster is held *)
  trace : list SysCall;           (* outside calls, oldest first *)
  sent : list (chan * Msg);       (* channel sends, oldest first *)
  logged : list LogLine;          (* log.Printf lines, oldest first *)
  chans : nat                     (* channels made *)
}.

Definition set_ticks (n : nat) (w : World) : World :=
  mkWorld (env_SHELL w) (Flags_String w) (Flags_StringSlice w) (Flags_Combine w)
    (clock w) (sys_err w) (sys_pid w)
    n (mu w) (trace w) (sent w) (logged w) (chans w).

Definition set_mu (b : bool) (w : World) : World :=
  mkWorld (env_SHELL w) (Flags_String w) (Flags_StringSlice w) (Flags_Combine w)
    (clock w) (sys_err w) (sys_pid w)
    (ticks w) b (trace w) (sent w) (logged w) (chans w).

Definition set_trace (t : list SysCall) (w : World) : World :=
  mkWorld (env_SHELL w) (Flags_String w) (Flags_StringSlice w) (Flags_Combine w)
    (clock w) (sys_err w) (sys_pid w)
    (ticks w) (mu w) t (sent w) (logged w) (chans w).

Definition set_sent (s : list (chan * Msg)) (w : World) : World :=
  mkWorld (env_SHELL w) (Flags_String w) (Flags_StringSlice w) (Flags_Combine w)
    (clock w) (sys_err w) (sys_pid w)
    (ticks w) (mu w) (trace w) s (logged w) (chans w).

Definition set_logged (l : list LogLine) (w : World) : World :=
  mkWorld (env_SHELL w) (Flags_String w) (Flags_StringSlice w) (Flags_Combine w)
    (clock w) (sys_err w) (sys_pid w)
    (ticks w) (mu w) (trace w) (sent w) l (chans w).

Definition set_chans (n : nat) (w : World) : World :=
  mkWorld (env_SHELL w) (Flags_String w) (Flags_StringSlice w) (Flags_Combine w)
    (clock w) (sys_err w) (sys_pid w)
    (ticks w) (mu w) (trace w) (sent w) (logged w) n.

(** ** Computations *)

Inductive Outcome (A : Type) : Type :=
  | Returns (a : A) (w : World)
  | Blocks.
Arguments Returns {A} a w.
Arguments Blocks {A}.

Definition M (A : Type) : Type := World -> Outcome A.

Definition ret {A} (a : A) : M A := fun w => Returns a w.

Definition bind {A B} (c : M A) (k : A -> M B) : M B :=
  fun w => match c w with
           | Returns a w' => k a w'
           | Blocks => Blocks
           end.

Notation "'let*' x ':=' c 'in' k" := (bind c (fun x => k))
  (at level 10, x pattern, c at level 100, k at level 200).
Notation "c ';;;' k" := (bind c (fun _ => k))
  (at level 100, k at level 200, right associativity).

(** [mu.Lock()] waits for ever when the mutex is held: there is one thread
    of control between two calls of the interface, so nobody is left to
    release it. *)
Definition Lock : M unit :=
  fun w => if mu w then Blocks else Returns tt (set_mu true w).

Definition Unlock : M unit :=
  fun w => Returns tt (set_mu false w).

Definition time_Now : M Time :=
  fun w => Returns (clock w (ticks w)) (set_ticks (S (ticks w)) w).

Definition os_Getenv_SHELL : M string :=
  fun w => Returns (env_SHELL w) w.

(** [ch <- m]. The streams are buffered (5000) and drained by the
    presentation layer; a send is recorded and goes on. *)
Definition send (ch : chan) (m : Msg) : M unit :=
  fun w => Returns tt (set_sent (sent w ++ [(ch, m)]) w).

Definition log_Printf (l : LogLine) : M unit :=
  fun w => Returns tt (set_logged (logged w ++ [l]) w).

(** [make(chan string, cap)] *)
Definition make_chan (cap : nat) : M chan :=
  fun w => Returns (mkChan (chans w) cap) (set_chans (S (chans w)) w).

(** An outside call: recorded, and answered by the world. *)
Definition syscall (c : SysCall) : M (option error) :=
  fun w => Returns (ErrExternal <$> sys_err w (length (trace w)))
                   (set_trace (trace w ++ [c]) w).

(** An outside call that also yields a process id. *)
Definition syscall_pid (c : SysCall) : M (Z + error) :=
  fun w => Returns (match sys_err w (length (trace w)) with
                    | Some e => inr (ErrExternal e)
                    | None => inl (sys_pid w (length (trace w)))
                    end)
                   (set_trace (trace w ++ [c]) w).

Definition external {A} (r : A + string) : A + error :=
  match r with
  | inl a => inl a
  | inr msg => inr (ErrExternal msg)
  end.

Definition flags_String (f : Flags.t) : M (string + error) :=
  fun w => Returns (external (Flags_String w f)) w.

Definition flags_StringSlice (f : Flags.t) : M (list string + error) :=
  fun w => Returns (external (Flags_StringSlice w f)) w.

Definition CombineFlags (remote : bool) (fs : list Flags.t)
    : M (list Flags.t * option error) :=
  fun w => Returns ((Flags_Combine w remote fs).1,
                    ErrExternal <$> (Flags_Combine w remote fs).2) w.

(** The first key [range] yields, or [""] for an empty map. *)
Definition first_key (urls : list string) : string :=
  match urls with
  | [] => ""
  | k :: _ => k
  end.

(** ** The colours and the layout of the process output *)

(** The values of [color.Attribute] that the two tables of
    [proc_cluster.go] name. *)
Inductive Attribute : Type := FgRed | FgGreen | FgYellow | FgBlue | FgMagenta.

Definition colorsTerminal : list Attribute :=
  [FgRed; FgGreen; FgYellow; FgBlue; FgMagenta].

Definition colorsToHTML (a : Attribute) : string :=
  match a with
  | FgRed => "#ff0000"
  | FgGreen => "#008000"
  | FgYellow => "#ff9933"
  | FgBlue => "#0000ff"
  | FgMagenta => "#ff00ff"
  end.

(** [l[i]] for an index of type [int]; nothing is the panic of an index
    out of range. *)
Definition index {A : Type} (l : list A) (i : Z) : option A :=
  if i <? 0 then None else l !! Z.to_nat i.

Definition newline : ascii := "010"%char.
Definition quote : ascii := "034"%char.

(** [fmt.Sprintf("%d", n)]: the decimal digits of [n], behind a [-] when
    [n] is negative. *)
Definition Sprintf_d (n : Z) : string := pretty n.

(** ** NodeWebLocal *)

Module NodeWebLocal.
(** [pmu] points to the mutex of the owning cluster, [mu] of the world;
    [pmaxProcNameLength] and [colorIdx] only serve the layout of the
    process output. *)
Record t : Type := mk {
  pmaxProcNameLength : Z;
  colorIdx : Z;
  liveLog : bool;
  sharedStream : chan;
  ProgramPath : string;
  Flags : Flags.t;
  cmd : option Cmd;
  PID : Z;
  active : bool;
  limitInterval : Duration;
  lastTerminated : Time;
  lastRestarted : Time
}.

Definition set_Flags (f : Flags.t) (nd : t) : t :=
  mk (pmaxProcNameLength nd) (colorIdx nd) (liveLog nd) (sharedStream nd)
     (ProgramPath nd) f (cmd nd) (PID nd) (active nd)
     (limitInterval nd) (lastTerminated nd) (lastRestarted nd).

Definition set_lastTerminated (x : Time) (nd : t) : t :=
  mk (pmaxProcNameLength nd) (colorIdx nd) (liveLog nd) (sharedStream nd)
     (ProgramPath nd) (Flags nd) (cmd nd) (PID nd) (active nd)
     (limitInterval nd) x (lastRestarted nd).

(** [nd.cmd = cmd; nd.PID = pid; nd.active = true] *)
Definition started (c : Cmd) (pid : Z) (nd : t) : t :=
  mk (pmaxProcNameLength nd) (colorIdx nd) (liveLog nd) (sharedStream nd)
     (ProgramPath nd) (Flags nd) (Some c) pid true
     (limitInterval nd) (lastTerminated nd) (lastRestarted nd).

(** [nd.cmd = cmd; nd.PID = pid; nd.lastRestarted = now; nd.active = true] *)
Definition restarted (c : Cmd) (pid : Z) (now : Time) (nd : t) : t :=
  mk (pmaxProcNameLength nd) (colorIdx nd) (liveLog nd) (sharedStream nd)
     (ProgramPath nd) (Flags nd) (Some c) pid true
     (limitInterval nd) (lastTerminated nd) now.

(** [nd.lastTerminated = now; nd.active = false] *)
Definition terminated (now : Time) (nd : t) : t :=
  mk (pmaxProcNameLength nd) (colorIdx nd) (liveLog nd) (sharedStream nd)
     (ProgramPath nd) (Flags nd) (cmd nd) (PID nd) false
     (limitInterval nd) now (lastRestarted nd).

(** [for k := range nd.Flags.ListenClientURLs { es = k; break }]: the
    first key that the range visits, or [""] for an empty map. [ks] is
    the order in which this run of the range visits the keys; it may
    differ from one call to the next. *)
Fixpoint range_first_key (ks urls : list string) : string :=
  match ks with
  | [] => ""
  | k :: ks => if decide (k ∈ urls) then k else range_first_key ks urls
  end.

(** [Endpoint]. [url_Parse s] is the field [Host] of the URL that
    [url.Parse(s)] returns, or nothing when it returns an error. The
    method drops that error and reads [s.Host] from the pointer it got,
    which is nil then: nothing is the panic of the nil pointer. *)
Definition Endpoint (url_Parse : string -> option string) (ks : list string) (nd : t)
    : option string :=
  let es := range_first_key ks (Flags.ListenClientURLs (Flags nd)) in
  url_Parse es.

Definition StatusEndpoint (nd : t) : string :=
  first_key (Flags.ListenClientURLs (Flags nd)).

Definition IsActive (nd : t) : M bool :=
  Lock ;;;
  let active := active nd in
  Unlock ;;;
  ret active.

Definition shell_of (s : string) : string :=
  if (String.length s =? 0)%nat then "sh" else s.

(** [Start] and [Restart] end by starting a goroutine that waits for the
    process to exit and then sends one more line on the shared stream; it
    touches no field of the node and is left out. *)
Definition Start (nd : t) : M (option error * t) :=
  Lock ;;;
  let active := active nd in
  Unlock ;;;
  if active then ret (Some (ErrAlreadyRunning (Flags.Name (Flags nd))), nd) else
  let* shell := os_Getenv_SHELL in
  let shell := shell_of shell in
  Lock ;;;
  let* r := flags_String (Flags nd) in
  match r with
  | inr err => ret (Some err, nd)        (* returns with the mutex held *)
  | inl flagString =>
    let args := [shell; "-c"; ProgramPath nd ++ " " ++ flagString] in
    Unlock ;;;
    let cmd := mkCmd args (liveLog nd) in
    send (sharedStream nd) (MsgStart (Flags.Name (Flags nd))) ;;;
    let* r := syscall_pid (SysCmdStart cmd) in
    match r with
    | inr err => ret (Some err, nd)
    | inl pid =>
      Lock ;;;
      let nd := started cmd pid nd in
      Unlock ;;;
      ret (None, nd)
    end
  end.

Definition Restart (nd : t) : M (option error * t) :=
  Lock ;;;
  let active := active nd in
  let lastTerminated := lastTerminated nd in
  let lastRestarted := lastRestarted nd in
  Unlock ;;;
  if active then ret (Some (ErrAlreadyRunning (Flags.Name (Flags nd))), nd) else
  let* now := time_Now in
  let sub := Sub now lastRestarted in
  if sub <? limitInterval nd
  then ret (Some (ErrRestartedSameNode sub (limitInterval nd)), nd) else
  let* now := time_Now in
  let subt := Sub now lastTerminated in
  if subt <? limitInterval nd
  then ret (Some (ErrTerminatedNode subt (limitInterval nd)), nd) else
  let* shell := os_Getenv_SHELL in
  let shell := shell_of shell in
  Lock ;;;
  let nd := set_Flags (Flags.set_InitialClusterState "existing" (Flags nd)) nd in
  let* r := flags_String (Flags nd) in
  match r with
  | inr err => ret (Some err, nd)        (* returns with the mutex held *)
  | inl flagString =>
    let args := [shell; "-c"; ProgramPath nd ++ " " ++ flagString] in
    Unlock ;;;
    let cmd := mkCmd args true in
    send (sharedStream nd) (MsgRestart (Flags.Name (Flags nd))) ;;;
    let* r := syscall_pid (SysCmdStart cmd) in
    match r with
    | inr err => ret (Some err, nd)
    | inl pid =>
      Lock ;;;
      let* now := time_Now in
      let nd := restarted cmd pid now nd in
      Unlock ;;;
      ret (None, nd)
    end
  end.

Definition Terminate (nd : t) : M (option error * t) :=
  Lock ;;;
  let active := active nd in
  let lastTerminated := lastTerminated nd in
  let lastRestarted := lastRestarted nd in
  Unlock ;;;
  if negb active
  then ret (Some (ErrAlreadyTerminated (Flags.Name (Flags nd))), nd) else
  let* now := time_Now in
  let sub := Sub now lastTerminated in
  if sub <? limitInterval nd
  then ret (Some (ErrTerminatedSameNode sub (limitInterval nd)), nd) else
  let* now := time_Now in
  let subt := Sub now lastRestarted in
  if subt <? limitInterval nd
  then ret (Some (ErrRestartedNode subt (limitInterval nd)), nd) else
  send (sharedStream nd) (MsgTerminate (Flags.Name (Flags nd)) (PID nd)) ;;;
  let* err := syscall (SysKill (PID nd)) in
  match err with
  | Some err => ret (Some err, nd)
  | None =>
    Lock ;;;
    let* now := time_Now in
    let nd := terminated now nd in
    Unlock ;;;
    ret (None, nd)
  end.

Definition Clean (nd : t) : M (option error * t) :=
  Lock ;;;
  let* now := time_Now in
  let nd := set_lastTerminated now nd in
  let active := active nd in
  Unlock ;;;
  if active then ret (Some (ErrAlreadyRunning (Flags.Name (Flags nd))), nd) else
  send (sharedStream nd)
       (MsgClean (Flags.Name (Flags nd)) (Flags.DataDir (Flags nd))) ;;;
  let* err := syscall (SysRemoveAll (Flags.DataDir (Flags nd))) in
  match err with
  | Some err => ret (Some err, nd)
  | None => ret (None, nd)
  end.

(** What the calls of [buf.ReadBytes('\n')] return one after the other
    before the call that returns [io.EOF]: the lines of the buffer, each
    with its newline. [line] holds the bytes read since the last newline;
    those left in it at the end of the buffer come back together with
    [io.EOF]. *)
Fixpoint ReadBytes_lines (buf line : string) : list string :=
  match buf with
  | EmptyString => []
  | String c buf =>
    if Ascii.eqb c newline then (line ++ String c EmptyString) :: ReadBytes_lines buf EmptyString
    else ReadBytes_lines buf (line ++ String c EmptyString)
  end.

(** The format that the loop of [Write] builds with the colour [a]: the
    width is printed into it with [%d], between [%] and [s]. *)
Definition Write_format (nd : t) (a : Attribute) : string :=
  let format := "%" ++ Sprintf_d (pmaxProcNameLength nd) ++ "s | " in
  ("<b><font color=" ++ String quote (colorsToHTML a ++ String quote ">"))
  ++ format ++ "</font>" ++ "%s</b>".

(** The loop of [Write] over the lines; [false] is the panic of
    [colorsTerminal[nd.colorIdx]]. [sprintf format name line] is what
    [fmt.Sprintf(format, name, line)] returns for a string and a slice of
    bytes: package [fmt] is taken as it is. *)
Fixpoint Write_lines (sprintf : string -> string -> string -> string)
    (nd : t) (lines : list string) : M bool :=
  match lines with
  | [] => ret true
  | line :: lines =>
    if (1 <? String.length line)%nat then
      match index colorsTerminal (colorIdx nd) with
      | None => ret false
      | Some a =>
        send (sharedStream nd)
             (MsgText (sprintf (Write_format nd a) (Flags.Name (Flags nd)) line)) ;;;
        Write_lines sprintf nd lines
      end
    else Write_lines sprintf nd lines
  end.

(** [Write], the [io.Writer] that the process of the node writes its
    output to: [len(p)] and a nil error, or nothing when the call
    panics. [ReadBytes] of a [bytes.Buffer] has no other error than
    [io.EOF], so the counter [wrote] is never returned. *)
Definition Write (sprintf : string -> string -> string -> string)
    (nd : t) (p : string) : M (option (Z * option error)) :=
  let* ok := Write_lines sprintf nd (ReadBytes_lines p EmptyString) in
  if ok then ret (Some (Z.of_nat (String.length p), None)) else ret None.
End NodeWebLocal.

(** ** NodeWebRemoteClient *)

Module NodeWebRemoteClient.
(** The struct has its own mutex [mu]; every method releases it on every
    path, so it is not part of the state. The declaration of the struct
    lists no [limitInterval]; the literal in [NewCluster] fills one in,
    so the record has it. No method of the client reads it. *)
Record t : Type := mk {
  Flags : Flags.t;
  Agent : Agent;
  active : bool;
  limitInterval : Duration
}.

Definition set_active (b : bool) (nd : t) : t :=
  mk (Flags nd) (Agent nd) b (limitInterval nd).

Definition Endpoint (nd : t) : string :=
  Flags.ExperimentalgRPCAddr (Flags nd).

Definition StatusEndpoint (nd : t) : string :=
  first_key (Flags.ListenClientURLs (Flags nd)).

Definition IsActive (nd : t) : M bool :=
  ret (active nd).

Definition Start (nd : t) : M (option error * t) :=
  let active := active nd in
  if active then ret (Some (ErrAlreadyActive (Flags.Name (Flags nd))), nd) else
  let* r := flags_StringSlice (Flags nd) in
  match r with
  | inr err => ret (Some err, nd)
  | inl flagSlice =>
    let* r := syscall_pid (SysAgentStart (Agent nd) flagSlice) in
    match r with
    | inr err => ret (Some err, nd)
    | inl _ => ret (None, set_active true nd)
    end
  end.

Definition Restart (nd : t) : M (option error * t) :=
  let active := active nd in
  if active then ret (Some (ErrAlreadyActive (Flags.Name (Flags nd))), nd) else
  let* r := syscall_pid (SysAgentRestart (Agent nd)) in
  match r with
  | inr err => ret (Some err, nd)
  | inl _ => ret (None, set_active true nd)
  end.

Definition Terminate (nd : t) : M (option error * t) :=
  let active := active nd in
  if negb active then ret (Some (ErrTerminated (Flags.Name (Flags nd))), nd) else
  let* err := syscall (SysAgentStop (Agent nd)) in
  match err with
  | Some err => ret (Some err, nd)
  | None => ret (None, set_active false nd)
  end.

Definition Clean (nd : t) : M (option error * t) :=
  let* err := syscall (SysAgentCleanup (Agent nd)) in
  match err with
  | Some err => ret (Some err, nd)
  | None => ret (None, nd)
  end.
End NodeWebRemoteClient.

(** ** NodeTerminal *)

(** The terminal node is declared outside the files at hand; its fields are
    those of the literal in [NewCluster] ([w] is [os.Stdout]). *)
Module NodeTerminal.
Record t : Type := mk {
  pmaxProcNameLength : Z;
  colorIdx : Z;
  ProgramPath : string;
  Flags : Flags.t;
  cmd : option Cmd;
  PID : Z;
  active : bool
}.
End NodeTerminal.

(** ** The interface Node *)

(** What a type switch on a [Node] finds. *)
Inductive DynType : Type :=
  | IsNodeTerminal (vt : NodeTerminal.t)
  | IsNodeWebLocal (vt : NodeWebLocal.t)
  | IsNodeWebRemoteClient (vt : NodeWebRemoteClient.t)
  | IsOther.

(** What a call gives to a caller that does not look at the world after
    it: the value, or nothing when the call waits for ever. *)
Definition answer {A} (c : M A) (w : World) : option A :=
  match c w with
  | Returns a _ => Some a
  | Blocks => None
  end.

(** A question put to the world: the world stays as it is. *)
Definition ask {A} (q : World -> option A) : M A :=
  fun w => match q w with
           | Some a => Returns a w
           | None => Blocks
           end.

Module Node.
(** [IsActive] is a question: it gives the flag, or nothing when it has
    to wait for the mutex; see [NodeWebLocal_IsActive_world]. *)
Class ops (N : Type) : Type := {
  Endpoint : N -> string;
  StatusEndpoint : N -> string;
  IsActive : N -> World -> option bool;
  Start : N -> M (option error * N);
  Restart : N -> M (option error * N);
  Terminate : N -> M (option error * N);
  Clean : N -> M (option error * N);
  typeOf : N -> DynType
}.
End Node.

(** The interface of the embedding has [Endpoint] as a function of the
    node. [NodeWebLocal.Endpoint] is one when the map of the client URLs
    has at most one key and that key parses; [endpoint] gives what the
    method returns then. *)
Definition NodeWebLocal_ops (endpoint : NodeWebLocal.t -> string)
    : Node.ops NodeWebLocal.t := {|
  Node.Endpoint := endpoint;
  Node.StatusEndpoint := NodeWebLocal.StatusEndpoint;
  Node.IsActive := fun nd => answer (NodeWebLocal.IsActive nd);
  Node.Start := NodeWebLocal.Start;
  Node.Restart := NodeWebLocal.Restart;
  Node.Terminate := NodeWebLocal.Terminate;
  Node.Clean := NodeWebLocal.Clean;
  Node.typeOf := IsNodeWebLocal
|}.

Definition NodeWebRemoteClient_ops : Node.ops NodeWebRemoteClient.t := {|
  Node.Endpoint := NodeWebRemoteClient.Endpoint;
  Node.StatusEndpoint := NodeWebRemoteClient.StatusEndpoint;
  Node.IsActive := fun nd => answer (NodeWebRemoteClient.IsActive nd);
  Node.Start := NodeWebRemoteClient.Start;
  Node.Restart := NodeWebRemoteClient.Restart;
  Node.Terminate := NodeWebRemoteClient.Terminate;
  Node.Clean := NodeWebRemoteClient.Clean;
  Node.typeOf := IsNodeWebRemoteClient
|}.

(** The nodes that [NewCluster] makes. *)
Inductive node : Type :=
  | OfTerminal (nd : NodeTerminal.t)
  | OfWebLocal (nd : NodeWebLocal.t)
  | OfWebRemote (nd : NodeWebRemoteClient.t).

(** Runs a method of a variant and wraps the node it leaves. *)
Definition lift_node {A B} (f : A -> B) (c : M (option error * A)) : M (option error * B) :=
  let* r := c in ret (r.1, f r.2).

(** The methods of [node], given those of the terminal node, and
    [endpoint] as in [NodeWebLocal_ops]. *)
Definition node_ops (endpoint : NodeWebLocal.t -> string)
    (T : Node.ops NodeTerminal.t) : Node.ops node := {|
  Node.Endpoint := fun nd =>
    match nd with
    | OfTerminal nd => Node.Endpoint nd
    | OfWebLocal nd => endpoint nd
    | OfWebRemote nd => NodeWebRemoteClient.Endpoint nd
    end;
  Node.StatusEndpoint := fun nd =>
    match nd with
    | OfTerminal nd => Node.StatusEndpoint nd
    | OfWebLocal nd => NodeWebLocal.StatusEndpoint nd
    | OfWebRemote nd => NodeWebRemoteClient.StatusEndpoint nd
    end;
  Node.IsActive := fun nd =>
    match nd with
    | OfTerminal nd => Node.IsActive nd
    | OfWebLocal nd => answer (NodeWebLocal.IsActive nd)
    | OfWebRemote nd => answer (NodeWebRemoteClient.IsActive nd)
    end;
  Node.Start := fun nd =>
    match nd with
    | OfTerminal nd => lift_node OfTerminal (Node.Start nd)
    | OfWebLocal nd => lift_node OfWebLocal (NodeWebLocal.Start nd)
    | OfWebRemote nd => lift_node OfWebRemote (NodeWebRemoteClient.Start nd)
    end;
  Node.Restart := fun nd =>
    match nd with
    | OfTerminal nd => lift_node OfTerminal (Node.Restart nd)
    | OfWebLocal nd => lift_node OfWebLocal (NodeWebLocal.Restart nd)
    | OfWebRemote nd => lift_node OfWebRemote (NodeWebRemoteClient.Restart nd)
    end;
  Node.Terminate := fun nd =>
    match nd with
    | OfTerminal nd => lift_node OfTerminal (Node.Terminate nd)
    | OfWebLocal nd => lift_node OfWebLocal (NodeWebLocal.Terminate nd)
    | OfWebRemote nd => lift_node OfWebRemote (NodeWebRemoteClient.Terminate nd)
    end;
  Node.Clean := fun nd =>
    match nd with
    | OfTerminal nd => lift_node OfTerminal (Node.Clean nd)
    | OfWebLocal nd => lift_node OfWebLocal (NodeWebLocal.Clean nd)
    | OfWebRemote nd => lift_node OfWebRemote (NodeWebRemoteClient.Clean nd)
    end;
  Node.typeOf := fun nd =>
    match nd with
    | OfTerminal nd => IsNodeTerminal nd
    | OfWebLocal nd => IsNodeWebLocal nd
    | OfWebRemote nd => IsNodeWebRemoteClient nd
    end
|}.

(** ** sort.Strings *)

(** Go compares strings byte by byte; so does [String.leb]. *)
Definition string_le (a b : string) : Prop := String.leb a b = true.

Global Instance string_le_dec : RelDecision string_le.
Proof. intros a b. unfold string_le. apply _. Defined.

(** [sort.Strings]. The order is total and antisymmetric, so the sorted
    list does not depend on the sorting method. *)
Definition sort_Strings (l : list string) : list string :=
  merge_sort string_le l.

(** ** ServerStatus and the status probe *)

Record ServerStatus : Type := mkStatus {
  st_Name : string;
  st_ID : string;
  st_Endpoint : string;
  st_State : string;
  st_NumberOfKeys : Z;
  st_Hash : Z
}.

Definition emptyStat : ServerStatus :=
  mkStatus "" "unknown" "unknown" "unreachable" 0 0.

(** [stat := emptyStat; stat.Name = name; stat.Endpoint = endpoint] *)
Definition statOf (name endpoint : string) : ServerStatus :=
  mkStatus name (st_ID emptyStat) endpoint (st_State emptyStat)
           (st_NumberOfKeys emptyStat) (st_Hash emptyStat).

(** A member as [MemberList] reports it; [mb_ID] is the identifier already
    printed with ["%x"]. *)
Record Member : Type := mkMember {
  mb_Name : string;
  mb_ID : string;
  mb_IsLeader : bool
}.

(** How one of the three guarded requests of a probe ends: the 5 second
    timer fires first, the request fails, or it is done. *)
Inductive Stage (A : Type) : Type :=
  | StageTimeout
  | StageError (msg : string)
  | StageDone (a : A).
Arguments StageTimeout {A}.
Arguments StageError {A} msg.
Arguments StageDone {A} a.

(** A line that [scanner.Scan()] yields from the metrics page (the scanner
    ends at a line that does not fit its buffer of 64 KiB): its text, and
    [int(fv)] for the value that [strconv.ParseFloat] reads after the
    first blank (0 when there is no such value). *)
Record MetricLine : Type := mkLine { ln_txt : string; ln_value : Z }.

(** What the network answers to the probe of one node. *)
Record Probe : Type := mkProbe {
  pr_dial : option string;                 (* grpc.Dial: its error *)
  pr_members : Stage (list Member);        (* MemberList *)
  pr_hash : Stage Z;                       (* Hash *)
  pr_metrics : Stage (list MetricLine)     (* GET v2Endpoint/metrics *)
}.

Definition HasPrefix_hash (txt : string) : bool :=
  match txt with
  | String c _ => Ascii.eqb c "#"%char
  | EmptyString => false
  end.

(** [strings.SplitN(txt, " ", 2)[0]] *)
Fixpoint first_field (txt : string) : string :=
  match txt with
  | EmptyString => EmptyString
  | String c rest =>
    if Ascii.eqb c " "%char then EmptyString else String c (first_field rest)
  end.

(** The loop over [mbs.Members]. *)
Fixpoint scan_members (name : string) (mbs : list Member) (stat : ServerStatus)
    : ServerStatus :=
  match mbs with
  | [] => stat
  | mb :: mbs =>
    if String.eqb (mb_Name mb) name
    then mkStatus (st_Name stat) (mb_ID mb) (st_Endpoint stat)
                  (if mb_IsLeader mb then "Leader" else "Follower")
                  (st_NumberOfKeys stat) (st_Hash stat)
    else scan_members name mbs stat
  end.

(** The loop over the lines of the metrics page. *)
Fixpoint scan_metrics (lines : list MetricLine) (stat : ServerStatus)
    : ServerStatus :=
  match lines with
  | [] => stat
  | l :: lines =>
    if HasPrefix_hash (ln_txt l) then scan_metrics lines stat
    else if String.eqb (first_field (ln_txt l)) "etcd_storage_keys_total"
    then mkStatus (st_Name stat) (st_ID stat) (st_Endpoint stat) (st_State stat)
                  (ln_value l) (st_Hash stat)
    else scan_metrics lines stat
  end.

(** [getStatus]: the one value the probe sends, on [rs] ([inl]) or on
    [errc] ([inr]). *)
Definition getStatus (name grpcEndpoint v2Endpoint : string) (p : Probe)
    : ServerStatus + error :=
  match pr_dial p with
  | Some msg => inr (ErrExternal msg)
  | None =>
    let stat := statOf name grpcEndpoint in
    match pr_members p with
    | StageTimeout => inr ErrTimedOut
    | StageError msg => inr (ErrExternal msg)
    | StageDone mbs =>
      let stat := scan_members name mbs stat in
      match pr_hash p with
      | StageTimeout => inr ErrTimedOut
      | StageError msg => inr (ErrExternal msg)
      | StageDone h =>
        let stat := mkStatus (st_Name stat) (st_ID stat) (st_Endpoint stat)
                             (st_State stat) (st_NumberOfKeys stat) h in
        match pr_metrics p with
        | StageTimeout => inr ErrTimedOut
        | StageError msg => inr (ErrExternal msg)
        | StageDone lines => inl (scan_metrics lines stat)
        end
      end
    end
  end.

(** ** The client of the store *)

(** What the store answers through a client made for [endpoints]:
    [kv_dial] is the error of [clientv3.New], [kv_Put] and [kv_Delete]
    are the error of the request, and [kv_Get] is the key-value pairs of
    the response, or the error. *)
Record Store : Type := mkStore {
  kv_dial : list string -> option string;
  kv_Put : list string -> string -> string -> option string;
  kv_Get : list string -> string -> list (string * string) + string;
  kv_Delete : list string -> string -> option string
}.

(** What [fmt] prints for the verbs that the embedding does not spell
    out: [%q] of a string and of a list of strings, [%v] of a
    [Duration]. *)
Record Printer : Type := mkPrinter {
  print_q : string -> string;
  print_qs : list string -> string;
  print_v : Duration -> string
}.

(** [for n := range m { name = n; break }]: the first key that the range
    visits, or [name] as it was for an empty map. *)
Fixpoint range_first {V : Type} (ks : list string) (m : gmap string V) (name : string)
    : string :=
  match ks with
  | [] => name
  | n :: ks => if decide (is_Some (m !! n)) then n else range_first ks m name
  end.

(** ** defaultCluster *)

(** Where the worker that [Shutdown] starts for a node stands. *)
Inductive WorkerPC : Type := AtTerminate | AtClean | WorkerDone.

Global Instance WorkerPC_eq_dec : EqDecision WorkerPC.
Proof. solve_decision. Defined.

Module defaultCluster.
(** The mutex [mu] of the struct is [mu] of the world. *)
Record t (N : Type) : Type := mk {
  sharedStream : chan;
  idToStream : gmap string chan;
  nameToNode : gmap string N
}.
Arguments mk {N} _ _ _.
Arguments sharedStream {N} _.
Arguments idToStream {N} _.
Arguments nameToNode {N} _.

Section methods.
Context {N : Type} `{Node.ops N}.

Definition set_idToStream (m : gmap string chan) (c : t N) : t N :=
  mk (sharedStream c) m (nameToNode c).

(** The nodes are held by reference: what a method leaves of a node is
    what the map holds afterwards. *)
Definition set_node (name : string) (nd : N) (c : t N) : t N :=
  mk (sharedStream c) (idToStream c) (<[name := nd]> (nameToNode c)).

(** A receiver that may be [nil]. *)
Definition SharedStream (c : option (t N)) : option chan :=
  match c with
  | None => None
  | Some c => Some (sharedStream c)
  end.

Definition Stream (c : option (t N)) (streamID : string)
    : M (option chan * option (t N)) :=
  match c with
  | None => ret (None, None)
  | Some c =>
    Lock ;;;
    match idToStream c !! streamID with
    | Some v => Unlock ;;; ret (Some v, Some c)
    | None =>
      let* ch := make_chan 5000 in
      let c := set_idToStream (<[streamID := ch]> (idToStream c)) c in
      Unlock ;;;
      ret (Some ch, Some c)
    end
  end.

(** [ch <- msg] on a channel that may be [nil]: a send on a [nil]
    channel never ends. *)
Definition send_on (ch : option chan) (m : Msg) : M unit :=
  match ch with
  | Some ch => send ch m
  | None => fun _ => Blocks
  end.

(** [for _, streamID := range streamIDs { c.Stream(streamID) <- msg }] *)
Fixpoint Write_streams (streamIDs : list string) (msg : string) (c : t N)
    : M (t N) :=
  match streamIDs with
  | [] => ret c
  | streamID :: streamIDs =>
    let* r := Stream (Some c) streamID in
    let c := default c r.2 in
    send_on r.1 (MsgText msg) ;;;
    Write_streams streamIDs msg c
  end.

Definition Write (c : t N) (name msg : string) (streamIDs : list string)
    : M (option error * t N) :=
  Lock ;;;
  let r := nameToNode c !! name in
  Unlock ;;;
  match r with
  | None => ret (Some (ErrNotExist name), c)
  | Some nd =>
    match Node.typeOf nd with
    | IsNodeTerminal vt =>
      syscall (SysTerminalWrite (Flags.Name (NodeTerminal.Flags vt)) msg) ;;;
      ret (None, c)
    | IsNodeWebLocal vt =>
      if (length streamIDs =? 0)%nat
      then send (NodeWebLocal.sharedStream vt) (MsgText msg) ;;; ret (None, c)
      else let* c := Write_streams streamIDs msg c in ret (None, c)
    | IsNodeWebRemoteClient vt =>
      if (0 <? length streamIDs)%nat
      then let* c := Write_streams streamIDs msg c in ret (None, c)
      else ret (None, c)
    | IsOther => ret (Some ErrNoWrite, c)
    end
  end.

(** The four methods that look a node up and hand the call on. *)
Definition by_name (f : N -> M (option error * N)) (c : t N) (name : string)
    : M (option error * t N) :=
  Lock ;;;
  let r := nameToNode c !! name in
  Unlock ;;;
  match r with
  | None => ret (Some (ErrNotExist name), c)
  | Some nd => let* r := f nd in ret (r.1, set_node name r.2 c)
  end.

Definition Start := by_name Node.Start.
Definition Restart := by_name Node.Restart.
Definition Terminate := by_name Node.Terminate.
Definition Clean := by_name Node.Clean.

(** The first loop of [Revive]; [ks] is the order in which [range]
    visits the names. *)
Fixpoint Revive_active (c : t N) (ks : list string) : M bool :=
  match ks with
  | [] => ret false
  | k :: ks =>
    match nameToNode c !! k with
    | None => Revive_active c ks
    | Some nd =>
      let* a := ask (Node.IsActive nd) in
      if a then ret true else Revive_active c ks
    end
  end.

(** The second loop of [Revive]. *)
Fixpoint Revive_restart (ks : list string) (c : t N) : M (option error * t N) :=
  match ks with
  | [] => ret (None, c)
  | k :: ks =>
    match nameToNode c !! k with
    | None => Revive_restart ks c
    | Some nd =>
      let* r := Node.Restart nd in
      let c := set_node k r.2 c in
      match r.1 with
      | Some err => ret (Some err, c)
      | None => Revive_restart ks c
      end
    end
  end.

Definition Revive (c : t N) (ks1 ks2 : list string) : M (option error * t N) :=
  let* a := Revive_active c ks1 in
  if a then ret (None, c) else Revive_restart ks2 c.

(** One step of the worker that [Shutdown] starts for [name]: a whole call
    of [Terminate] or of [Clean]. The workers act on different nodes; a
    finer interleaving would only change which readings of the clock and
    which places in the stream and in the log their calls get. *)
Definition worker_step (name : string) (pcs : gmap string WorkerPC) (c : t N)
    : M (gmap string WorkerPC * t N) :=
  match pcs !! name, nameToNode c !! name with
  | Some AtTerminate, Some nd =>
    let* r := Node.Terminate nd in
    match r.1 with
    | Some err => log_Printf (LogTerminate name err)
    | None => ret tt
    end ;;;
    ret (<[name := AtClean]> pcs, set_node name r.2 c)
  | Some AtClean, Some nd =>
    let* r := Node.Clean nd in
    match r.1 with
    | Some err => log_Printf (LogClean name err)
    | None => ret tt
    end ;;;
    ret (<[name := WorkerDone]> pcs, set_node name r.2 c)   (* wg.Done() *)
  | _, _ => ret (pcs, c)
  end.

(** The workers run as the schedule [sched] picks them: each entry lets
    the worker of that name take its next step. *)
Fixpoint run_workers (sched : list string) (pcs : gmap string WorkerPC) (c : t N)
    : M (gmap string WorkerPC * t N) :=
  match sched with
  | [] => ret (pcs, c)
  | name :: sched =>
    let* r := worker_step name pcs c in
    run_workers sched r.1 r.2
  end.

Definition all_done (pcs : gmap string WorkerPC) : bool :=
  bool_decide (map_Forall (fun _ pc => pc = WorkerDone) pcs).

(** [wg.Wait()]: goes on when every worker is done, waits for ever
    otherwise. *)
Definition wg_Wait (pcs : gmap string WorkerPC) : M unit :=
  fun w => if all_done pcs then Returns tt w else Blocks.

Definition Shutdown (c : t N) (sched : list string) : M (option error * t N) :=
  if (size (nameToNode c) =? 0)%nat then ret (None, c) else
  let pcs := (fun _ => AtTerminate) <$> nameToNode c in
  let* r := run_workers sched pcs c in
  wg_Wait r.1 ;;;
  ret (None, r.2).

(** The loop of [Endpoints]; [ks] is the order in which [range] visits
    the names. *)
Fixpoint Endpoints_range (c : t N) (ks : list string)
    (endpoints : list string) (nameToGRPCEndpoint : gmap string string)
    : M (list string * gmap string string) :=
  match ks with
  | [] => ret (endpoints, nameToGRPCEndpoint)
  | n :: ks =>
    match nameToNode c !! n with
    | None => Endpoints_range c ks endpoints nameToGRPCEndpoint
    | Some nd =>
      let* cond :=
        if String.eqb (Node.Endpoint nd) "" then ret false
        else ask (Node.IsActive nd) in
      let endpoints :=
        if cond then (endpoints ++ [Node.Endpoint nd])%list else endpoints in
      Endpoints_range c ks endpoints (<[n := Node.Endpoint nd]> nameToGRPCEndpoint)
    end
  end.

Definition Endpoints (c : t N) (ks : list string)
    : M (list string * gmap string string) :=
  let* r := Endpoints_range c ks [] ∅ in
  ret (sort_Strings r.1, r.2).

(** The receiving loop of [Status]. [arrival] lists the names in the
    order in which their probes send; [pending] holds the probes that
    have not sent yet. *)
Fixpoint Status_receive (total : nat)
    (signal : string -> ServerStatus + error)
    (arrival : list string) (pending : gset string) (cn : nat)
    (nameToStatus : gmap string ServerStatus) (err : option error)
    : M (gmap string ServerStatus * option error) :=
  if (cn =? total)%nat then ret (nameToStatus, err) else
  match arrival with
  | [] => fun _ => Blocks
  | k :: arrival =>
    if decide (k ∈ pending) then
      match signal k with
      | inl s =>
        Status_receive total signal arrival (pending ∖ {[k]}) (S cn)
                       (<[st_Name s := s]> nameToStatus) err
      | inr e =>
        Status_receive total signal arrival (pending ∖ {[k]}) (S cn)
                       nameToStatus (Some e)
      end
    else Status_receive total signal arrival pending cn nameToStatus err
  end.

(** The last loop of [Status]: a placeholder for every name without a
    status. *)
Definition Status_fill (nameToEndpoint : gmap string string)
    (nameToStatus : gmap string ServerStatus) : gmap string ServerStatus :=
  nameToStatus ∪ map_imap (fun name endpoint => Some (statOf name endpoint))
                          nameToEndpoint.

(** [probes] is what the network answers for each name. *)
Definition Status (c : t N) (ks : list string) (probes : string -> Probe)
    (arrival : list string) : M (gmap string ServerStatus * option error) :=
  let* r := Endpoints c ks in
  let nameToEndpoint := r.2 in
  let nameToV2Endpoint := Node.StatusEndpoint <$> nameToNode c in
  let signal name :=
    getStatus name (default "" (nameToEndpoint !! name))
              (default "" (nameToV2Endpoint !! name)) (probes name) in
  let* r := Status_receive (size nameToEndpoint) signal arrival
                           (dom nameToEndpoint) 0 ∅ None in
  ret (Status_fill nameToEndpoint r.1, r.2).

(** [Put], [Get] and [Delete]. [ks] is the order of the range in
    [Endpoints] and [ks'] the order of the range over [nameToEndpoint].
    The deferred [cli.Close()] and the [cancel] of the context leave the
    cluster and the world as they are; the errors of [Write] are not
    looked at. *)
Definition Put (fmt : Printer) (store : Store) (c : t N) (ks ks' : list string)
    (name key value : string) (streamIDs : list string) : M (option error * t N) :=
  let* r := Endpoints c ks in
  let nameToEndpoint := r.2 in
  let name := if String.eqb name "" then range_first ks' nameToEndpoint name else name in
  match nameToEndpoint !! name with
  | None => ret (Some (ErrNotExist name), c)
  | Some v =>
    let endpoints := [v] in
    match kv_dial store endpoints with
    | Some msg => ret (Some (ErrExternal msg), c)
    | None =>
      let* st := time_Now in
      let* r := Write c name ("[PUT] Started! (endpoints: " ++ print_qs fmt endpoints ++ ")")
                      streamIDs in
      let c := r.2 in
      match kv_Put store endpoints key value with
      | Some msg => ret (Some (ErrExternal msg), c)
      | None =>
        let* now := time_Now in
        let* r := Write c name
                        ("[PUT] " ++ print_q fmt key ++ " : " ++ print_q fmt value
                         ++ " / Took " ++ print_v fmt (Sub now st)
                         ++ " (endpoints: " ++ print_qs fmt endpoints ++ ")")
                        streamIDs in
        ret (None, r.2)
      end
    end
  end.

(** The loop of [Get] over [resp.Kvs]. *)
Fixpoint Get_range (fmt : Printer) (name : string) (streamIDs : list string)
    (kvs : list (string * string)) (vs : list string) (c : t N)
    : M (list string * t N) :=
  match kvs with
  | [] => ret (vs, c)
  | ev :: kvs =>
    let vs := (vs ++ [ev.2])%list in
    let* r := Write c name ("[GET] " ++ print_q fmt ev.1 ++ " : " ++ print_q fmt ev.2)
                    streamIDs in
    Get_range fmt name streamIDs kvs vs r.2
  end.

(** A nil slice and an empty one are both the empty list. *)
Definition Get (fmt : Printer) (store : Store) (c : t N) (ks ks' : list string)
    (name key : string) (streamIDs : list string)
    : M (list string * option error * t N) :=
  let* r := Endpoints c ks in
  let nameToEndpoint := r.2 in
  let name := if String.eqb name "" then range_first ks' nameToEndpoint name else name in
  match nameToEndpoint !! name with
  | None => ret ([], Some (ErrNotExist name), c)
  | Some v =>
    let endpoints := [v] in
    match kv_dial store endpoints with
    | Some msg => ret ([], Some (ErrExternal msg), c)
    | None =>
      let* st := time_Now in
      let* r := Write c name ("[GET] Started! (endpoints: " ++ print_qs fmt endpoints ++ ")")
                      streamIDs in
      let c := r.2 in
      match kv_Get store endpoints key with
      | inr msg => ret ([], Some (ErrExternal msg), c)
      | inl kvs =>
        let* r :=
          if (0 <? length kvs)%nat then Get_range fmt name streamIDs kvs [] c
          else
            let* r := Write c name ("[GET] " ++ print_q fmt key ++ " does not exist!")
                            streamIDs in
            ret ([], r.2) in
        let vs := r.1 in
        let c := r.2 in
        let* now := time_Now in
        let* r := Write c name
                        ("[GET] Done! Took " ++ print_v fmt (Sub now st)
                         ++ " (endpoints: " ++ print_qs fmt endpoints ++ ")")
                        streamIDs in
        ret (sort_Strings vs, None, r.2)
      end
    end
  end.

Definition Delete (fmt : Printer) (store : Store) (c : t N) (ks ks' : list string)
    (name key : string) (streamIDs : list string) : M (option error * t N) :=
  let* r := Endpoints c ks in
  let nameToEndpoint := r.2 in
  let name := if String.eqb name "" then range_first ks' nameToEndpoint name else name in
  match nameToEndpoint !! name with
  | None => ret (Some (ErrNotExist name), c)
  | Some v =>
    let endpoints := [v] in
    match kv_dial store endpoints with
    | Some msg => ret (Some (ErrExternal msg), c)
    | None =>
      let* st := time_Now in
      let* r := Write c name
                      ("[DELETE] Started! (endpoints: " ++ print_qs fmt endpoints ++ ")")
                      streamIDs in
      let c := r.2 in
      match kv_Delete store endpoints key with
      | Some msg => ret (Some (ErrExternal msg), c)
      | None =>
        let* now := time_Now in
        let* r := Write c name
                        ("[DELETE] Done! Took " ++ print_v fmt (Sub now st)
                         ++ " (endpoints: " ++ print_qs fmt endpoints ++ ")")
                        streamIDs in
        ret (None, r.2)
      end
    end
  end.
End methods.
End defaultCluster.

(** ** NewCluster *)

(** [NodeType] is an [int]; the three named values. *)
Definition NodeType := Z.
Definition Terminal : NodeType := 0.
Definition WebLocal : NodeType := 1.
Definition WebRemote : NodeType := 2.

Record op : Type := mkOp {
  op_liveLog : bool;
  op_limitInterval : Duration;
  op_agentEndpoints : list string
}.

Definition OpOption := op -> op.

Definition WithLiveLog : OpOption :=
  fun o => mkOp true (op_limitInterval o) (op_agentEndpoints o).

Definition WithLimitInterval (d : Duration) : OpOption :=
  fun o => mkOp (op_liveLog o) d (op_agentEndpoints o).

Definition WithAgentEndpoints (eps : list string) : OpOption :=
  fun o => mkOp (op_liveLog o) (op_limitInterval o) eps.

Definition op_apply (o : op) (opts : list OpOption) : op :=
  fold_left (fun o opt => opt o) opts o.

(** [len(colorsTerminal)] *)
Definition len_colorsTerminal : Z := 5.

(** Every node made by one call holds a pointer to the same variable
    [maxProcNameLength]; [share_max] gives each the value the variable has
    when the loop is over. *)
Definition share_max (m : Z) (nd : node) : node :=
  match nd with
  | OfTerminal nd =>
    OfTerminal (NodeTerminal.mk m (NodeTerminal.colorIdx nd)
      (NodeTerminal.ProgramPath nd) (NodeTerminal.Flags nd)
      (NodeTerminal.cmd nd) (NodeTerminal.PID nd) (NodeTerminal.active nd))
  | OfWebLocal nd =>
    OfWebLocal (NodeWebLocal.mk m (NodeWebLocal.colorIdx nd)
      (NodeWebLocal.liveLog nd) (NodeWebLocal.sharedStream nd)
      (NodeWebLocal.ProgramPath nd) (NodeWebLocal.Flags nd)
      (NodeWebLocal.cmd nd) (NodeWebLocal.PID nd) (NodeWebLocal.active nd)
      (NodeWebLocal.limitInterval nd) (NodeWebLocal.lastTerminated nd)
      (NodeWebLocal.lastRestarted nd))
  | OfWebRemote nd => OfWebRemote nd
  end.

(** The loop [for i, f := range fs] of [NewCluster]; [inl] is the error of
    an early return. *)
Fixpoint NewCluster_range (opt : NodeType) (programPath : string) (o : op)
    (bufferedStream : chan) (fs : list Flags.t) (i : nat)
    (maxProcNameLength colorIdx : Z) (nameToNode : gmap string node)
    : M (error + (gmap string node * Z)) :=
  match fs with
  | [] => ret (inr (nameToNode, maxProcNameLength))
  | f :: fs =>
    let colorIdx := if len_colorsTerminal <=? colorIdx then 0 else colorIdx in
    let name := Flags.Name f in
    let maxProcNameLength :=
      if maxProcNameLength <? Z.of_nat (String.length name)
      then Z.of_nat (String.length name) else maxProcNameLength in
    let* ni :=
      if opt =? Terminal then
        ret (inr (OfTerminal
          (NodeTerminal.mk maxProcNameLength colorIdx programPath f None 0 false)))
      else if opt =? WebLocal then
        ret (inr (OfWebLocal
          (NodeWebLocal.mk maxProcNameLength colorIdx (op_liveLog o) bufferedStream
             programPath f None 0 false (op_limitInterval o) zeroTime zeroTime)))
      else if opt =? WebRemote then
        if (length (op_agentEndpoints o) =? 0)%nat then ret (inl ErrNoAgentEndpoints)
        else
          let endpoint := nth i (op_agentEndpoints o) "" in
          let* err := syscall (SysNewAgent endpoint) in
          match err with
          | Some err => ret (inl err)
          | None =>
            ret (inr (OfWebRemote
              (NodeWebRemoteClient.mk f (mkAgent endpoint) false (op_limitInterval o))))
          end
      else ret (inl (ErrNotImplemented opt)) in
    match ni with
    | inl err => ret (inl err)
    | inr ni =>
      NewCluster_range opt programPath o bufferedStream fs (S i)
        maxProcNameLength (colorIdx + 1) (<[name := ni]> nameToNode)
    end
  end.

Definition NewCluster (opt : NodeType) (programPath : string) (fs : list Flags.t)
    (opts : list OpOption) : M (option (defaultCluster.t node) * option error) :=
  if (length fs =? 0)%nat then ret (None, None) else
  let o := op_apply (mkOp false 0 []) opts in
  if (0 <? length (op_agentEndpoints o))%nat && (opt =? WebRemote)
     && negb (length (op_agentEndpoints o) =? length fs)%nat
  then ret (None, Some (ErrAgentEndpointsSize (length (op_agentEndpoints o)) (length fs)))
  else
  let* r := CombineFlags (opt =? WebRemote) fs in
  match r.2 with
  | Some err => ret (None, Some err)
  | None =>
    let fs := r.1 in
    let* bufferedStream := make_chan 5000 in
    let* r := NewCluster_range opt programPath o bufferedStream fs 0 0 0 ∅ in
    match r with
    | inl err => ret (None, Some err)
    | inr (nameToNode, maxProcNameLength) =>
      ret (Some (defaultCluster.mk bufferedStream ∅
                   (share_max maxProcNameLength <$> nameToNode)), None)
    end
  end.


(** ** The cache of the web backend *)

(** [n++] on an [int] of 64 bits. *)
Definition maxInt : Z := 2 ^ 63 - 1.
Definition minInt : Z := - 2 ^ 63.

Definition int_incr (n : Z) : Z := if n =? maxInt then minInt else n + 1.

(** [time.Second], in nanoseconds. *)
Definition Second : Duration := 1000000000.

Module userData.
(** The fields of the struct but [upgrader], the pointer to the upgrader
    of the websocket. *)
Record t : Type := mk {
  startTime : Time;
  lastRequestTime : Time;
  requestCount : Z;
  selectedNodeName : string;
  selectedOperation : string;
  lastKey : string;
  lastValue : string;
  keyHistory : list string
}.

Definition set_lastRequestTime (x : Time) (v : t) : t :=
  mk (startTime v) x (requestCount v) (selectedNodeName v) (selectedOperation v)
     (lastKey v) (lastValue v) (keyHistory v).

Definition set_requestCount (n : Z) (v : t) : t :=
  mk (startTime v) (lastRequestTime v) n (selectedNodeName v) (selectedOperation v)
     (lastKey v) (lastValue v) (keyHistory v).
End userData.

Module cache.
(** [cluster] is an interface value that may be [nil]. The mutex [mu] of
    the struct is taken and released within each of the methods below, on
    every path: it is not part of the state. The users are held by
    pointer: what a method leaves of a user is what the map holds
    afterwards. *)
Record t (C : Type) : Type := mk {
  cluster : option C;
  users : gmap string userData.t
}.
Arguments mk {C} _ _.
Arguments cluster {C} _.
Arguments users {C} _.

Section methods.
Context {C : Type}.

Definition set_user (userID : string) (v : userData.t) (s : t C) : t C :=
  mk (cluster s) (<[userID := v]> (users s)).

Definition clusterActive (s : t C) : bool :=
  match cluster s with
  | Some _ => true
  | None => false
  end.

Definition okToRequest (s : t C) (userID : string) : M (bool * t C) :=
  match users s !! userID with
  | None => ret (false, s)
  | Some v =>
    let v := userData.set_requestCount (int_incr (userData.requestCount v)) v in
    let* v :=
      if userData.requestCount v =? 1
      then let* now := time_Now in ret (userData.set_lastRequestTime now v)
      else ret v in
    if userData.requestCount v <? 5 then ret (true, set_user userID v s) else
    let* now := time_Now in
    let sub := Sub now (userData.lastRequestTime v) in
    if sub >? Second then
      let* now := time_Now in
      let v := userData.set_lastRequestTime now v in
      let v := userData.set_requestCount 0 v in
      ret (true, set_user userID v s)
    else ret (false, set_user userID v s)
  end.

(** The handler that [withCache] makes from [h], for a request of the
    user [userID] (the result of [getUserID]): the user is entered if the
    cache does not know it, and the request is handed on. *)
Definition withCache {A : Type} (h : string -> t C -> M (A * t C))
    (userID : string) (s : t C) : M (A * t C) :=
  let* s :=
    match users s !! userID with
    | Some _ => ret s
    | None =>
      let* now := time_Now in
      ret (set_user userID
             (userData.mk now zeroTime 0 "" "" "" "" ["TYPE_YOUR_KEY"; "sample_key"]) s)
    end in
  h userID s.

(** The requests of one user, one call of [okToRequest] after the other;
    the answers come back in the order of the calls. *)
Fixpoint requests (n : nat) (userID : string) (s : t C) : M (list bool * t C) :=
  match n with
  | O => ret ([], s)
  | S n =>
    let* r := okToRequest s userID in
    let* rs := requests n userID r.2 in
    ret (r.1 :: rs.1, rs.2)
  end.
End methods.
End cache.

(** ** Sequences of calls on a cluster *)

(** The methods of [Node] that take no argument and return an error. *)
Inductive NodeMethod : Type := MStart | MRestart | MTerminate | MClean.

(** A call on the cluster, with the order of every [range] over the nodes,
    the schedule of the workers and the answers of the network that the
    call meets. [CallNode] is a method of a registered node called on the
    node itself, as the workers of [Bootstrap] call [nd.Start()]. The
    methods [Put], [Get], [Delete], [Stress], [WatchPut] and [Leader] act
    on the cluster through [Endpoints] and [Write] only, and [Bootstrap]
    through [nd.Start()] and [Shutdown]: what they do to the cluster is a
    sequence of the calls below. *)
Inductive Call : Type :=
  | CallWrite (name msg : string) (streamIDs : list string)
  | CallSharedStream
  | CallStream (streamID : string)
  | CallStart (name : string)
  | CallRestart (name : string)
  | CallRevive (ks1 ks2 : list string)
  | CallTerminate (name : string)
  | CallClean (name : string)
  | CallShutdown (sched : list string)
  | CallEndpoints (ks : list string)
  | CallStatus (ks : list string) (probes : string -> Probe) (arrival : list string)
  | CallNode (m : NodeMethod) (name : string).

Section calls.
Context {N : Type} `{Node.ops N}.

Definition node_method (m : NodeMethod) : N -> M (option error * N) :=
  match m with
  | MStart => Node.Start
  | MRestart => Node.Restart
  | MTerminate => Node.Terminate
  | MClean => Node.Clean
  end.

(** Runs a call and gives the cluster as the call leaves it. *)
Definition run_call (q : Call) (c : defaultCluster.t N) : M (defaultCluster.t N) :=
  match q with
  | CallWrite name msg streamIDs =>
    let* r := defaultCluster.Write c name msg streamIDs in ret r.2
  | CallSharedStream => ret c
  | CallStream streamID =>
    let* r := defaultCluster.Stream (Some c) streamID in ret (default c r.2)
  | CallStart name => let* r := defaultCluster.Start c name in ret r.2
  | CallRestart name => let* r := defaultCluster.Restart c name in ret r.2
  | CallRevive ks1 ks2 => let* r := defaultCluster.Revive c ks1 ks2 in ret r.2
  | CallTerminate name => let* r := defaultCluster.Terminate c name in ret r.2
  | CallClean name => let* r := defaultCluster.Clean c name in ret r.2
  | CallShutdown sched => let* r := defaultCluster.Shutdown c sched in ret r.2
  | CallEndpoints ks => defaultCluster.Endpoints c ks ;;; ret c
  | CallStatus ks probes arrival => defaultCluster.Status c ks probes arrival ;;; ret c
  | CallNode m name =>
    match defaultCluster.nameToNode c !! name with
    | None => ret c
    | Some nd =>
      let* r := node_method m nd in ret (defaultCluster.set_node name r.2 c)
    end
  end.

Fixpoint run_calls (qs : list Call) (c : defaultCluster.t N) : M (defaultCluster.t N) :=
  match qs with
  | [] => ret c
  | q :: qs => let* c := run_call q c in run_calls qs c
  end.
End calls.

(** ** Notions used in the statements *)

(** [ks] is an order in which [range] may visit the keys of [m]: every key
    once. *)
Definition RangeOrder {V : Type} (ks : list string) (m : gmap string V) : Prop :=
  ks ≡ₚ (map_to_list m).*1.

(** The call returns when the mutex of the cluster is free, and leaves it
    free. *)
Definition returns_free {A : Type} (c : M A) : Prop :=
  forall w, mu w = false -> exists a w', c w = Returns a w' /\ mu w' = false.

(** How often the schedule lets the worker of [k] take a step. *)
Definition steps_of (k : string) (sched : list string) : nat :=
  length (filter (fun k' => k' = k) sched).

(** The schedule lets the worker of every registered node take its two
    steps. *)
Definition complete_schedule {V : Type} (sched : list string) (m : gmap string V) : Prop :=
  Forall (fun k => (2 <= steps_of k sched)%nat) (map_to_list m).*1.

(** The string has no newline. *)
Fixpoint no_newline (s : string) : bool :=
  match s with
  | EmptyString => true
  | String c s => negb (Ascii.eqb c newline) && no_newline s
  end.

(** The strings of the list, one after the other. *)
Definition join (ls : list string) : string := fold_right String.append EmptyString ls.

(** Where a worker stands after one more step, and after [n] more. *)
Definition next_pc (pc : WorkerPC) : WorkerPC :=
  match pc with
  | AtTerminate => AtClean
  | AtClean | WorkerDone => WorkerDone
  end.

Fixpoint advance (n : nat) (pc : WorkerPC) : WorkerPC :=
  match n with
  | O => pc
  | S n => advance n (next_pc pc)
  end.

(** The world after [if err != nil { log.Printf(...) }]: one more line in
    the log when the call returned an error. *)
Definition logged_if_failed (line : error -> LogLine) (r : option error) (w : World)
    : World :=
  match r with
  | Some err => set_logged (logged w ++ [line err]) w
  | None => w
  end.

Section notions.
Context {N : Type} `{Node.ops N}.

(** The nodes named by [ks] are restarted one after the other, from the
    cluster [c] in the world [w], and every restart succeeds. *)
Inductive restarted_in_turn
  : list string -> defaultCluster.t N -> World -> defaultCluster.t N -> World -> Prop :=
  | restarted_nil c w : restarted_in_turn [] c w c w
  | restarted_cons k ks c w nd nd' w1 c' w' :
      defaultCluster.nameToNode c !! k = Some nd ->
      Node.Restart nd w = Returns (None, nd') w1 ->
      restarted_in_turn ks (defaultCluster.set_node k nd' c) w1 c' w' ->
      restarted_in_turn (k :: ks) c w c' w'.

(** The workers of [Shutdown] take their steps in the order of the
    schedule, from the cluster [c] in the world [w]. The worker of a node
    first calls [Terminate] on the node, and then [Clean] on the node as
    [Terminate] left it; after either call it writes a line to the log
    if the call returned an error, and goes on in any case. An entry of
    the schedule for a worker that is done, or for a name without a
    worker, changes nothing. *)
Inductive workers_ran
  : list string -> gmap string WorkerPC -> defaultCluster.t N -> World ->
    gmap string WorkerPC -> defaultCluster.t N -> World -> Prop :=
  | ran_nil pcs c w : workers_ran [] pcs c w pcs c w
  | ran_Terminate name sched pcs c w nd r nd' w1 pcs' c' w' :
      pcs !! name = Some AtTerminate ->
      defaultCluster.nameToNode c !! name = Some nd ->
      Node.Terminate nd w = Returns (r, nd') w1 ->
      workers_ran sched (<[name := AtClean]> pcs) (defaultCluster.set_node name nd' c)
                  (logged_if_failed (LogTerminate name) r w1) pcs' c' w' ->
      workers_ran (name :: sched) pcs c w pcs' c' w'
  | ran_Clean name sched pcs c w nd r nd' w1 pcs' c' w' :
      pcs !! name = Some AtClean ->
      defaultCluster.nameToNode c !! name = Some nd ->
      Node.Clean nd w = Returns (r, nd') w1 ->
      workers_ran sched (<[name := WorkerDone]> pcs) (defaultCluster.set_node name nd' c)
                  (logged_if_failed (LogClean name) r w1) pcs' c' w' ->
      workers_ran (name :: sched) pcs c w pcs' c' w'
  | ran_idle name sched pcs c w pcs' c' w' :
      pcs !! name = Some WorkerDone \/ pcs !! name = None ->
      workers_ran sched pcs c w pcs' c' w' ->
      workers_ran (name :: sched) pcs c w pcs' c' w'.

(** What [Endpoints] lists for a node: its endpoint, when that is not
    empty and the node answers that it is active. *)
Definition listed (w : World) (nd : N) : option string :=
  if String.eqb (Node.Endpoint nd) "" then None
  else match Node.IsActive nd w with
       | Some true => Some (Node.Endpoint nd)
       | _ => None
       end.

(** The endpoints of the active nodes, as the claim has them: the endpoint
    of every node that answers that it is active. *)
Definition endpoints_of_active (w : World) (nd : N) : option string :=
  match Node.IsActive nd w with
  | Some true => Some (Node.Endpoint nd)
  | _ => None
  end.

(** What no call changes: the names under which nodes are registered and
    the shared stream. *)
Definition same_registry (c c' : defaultCluster.t N) : Prop :=
  dom (defaultCluster.nameToNode c') = dom (defaultCluster.nameToNode c)
  /\ defaultCluster.sharedStream c' = defaultCluster.sharedStream c.

(** What the probe of the node [nd] registered as [k] sends. *)
Definition probe_sends (probes : string -> Probe) (k : string) (nd : N)
    : ServerStatus + error :=
  getStatus k (Node.Endpoint nd) (Node.StatusEndpoint nd) (probes k).

(** The error that the probe of [k] sends, if it sends one. *)
Definition probe_error (probes : string -> Probe) (nodes : gmap string N) (k : string)
    : option error :=
  nodes !! k ≫= fun nd =>
    match probe_sends probes k nd with
    | inr e => Some e
    | inl _ => None
    end.
End notions.

(** * Examples to run the definitions on *)

Module Ex.
(** A world in which every outside call succeeds, the mutex is free and
    the [n]-th reading of the clock is [n * step + t0]. *)
Definition world (t0 step : Z) : World := {|
  env_SHELL := "/bin/sh";
  Flags_String := fun f => inl ("--name " ++ Flags.Name f);
  Flags_StringSlice := fun f => inl ["--name"; Flags.Name f];
  Flags_Combine := fun _ fs => (fs, None);
  clock := fun n => Z.of_nat n * step + t0;
  sys_err := fun _ => None;
  sys_pid := fun n => Z.of_nat n + 4000;
  ticks := 0;
  mu := false;
  trace := [];
  sent := [];
  logged := [];
  chans := 1
|}.

(** A world in which every outside call fails. *)
Definition failing_world : World := {|
  env_SHELL := "/bin/sh";
  Flags_String := fun f => inl ("--name " ++ Flags.Name f);
  Flags_StringSlice := fun f => inl ["--name"; Flags.Name f];
  Flags_Combine := fun _ fs => (fs, None);
  clock := fun n => Z.of_nat n + 1000;
  sys_err := fun _ => Some "refused";
  sys_pid := fun n => Z.of_nat n + 4000;
  ticks := 0;
  mu := false;
  trace := [];
  sent := [];
  logged := [];
  chans := 1
|}.

(** A world in which [Flags.String()] fails. *)
Definition flagless_world : World := {|
  env_SHELL := "/bin/sh";
  Flags_String := fun f => inr "unknown flag type";
  Flags_StringSlice := fun f => inr "unknown flag type";
  Flags_Combine := fun _ fs => (fs, None);
  clock := fun n => Z.of_nat n + 1000;
  sys_err := fun _ => None;
  sys_pid := fun n => Z.of_nat n + 4000;
  ticks := 0;
  mu := false;
  trace := [];
  sent := [];
  logged := [];
  chans := 1
|}.

(** A world whose clock gives the readings of the list [ts], one after the
    other, and in which every outside call succeeds. *)
Definition world_at (ts : list Time) : World := {|
  env_SHELL := "";
  Flags_String := fun f => inl ("--name " ++ Flags.Name f);
  Flags_StringSlice := fun f => inl ["--name"; Flags.Name f];
  Flags_Combine := fun _ fs => (fs, None);
  clock := fun n => nth n ts 0;
  sys_err := fun _ => None;
  sys_pid := fun n => Z.of_nat n + 4000;
  ticks := 0;
  mu := false;
  trace := [];
  sent := [];
  logged := [];
  chans := 1
|}.

Definition flags (name endpoint : string) : Flags.t :=
  Flags.mk name ("/tmp/" ++ name ++ ".etcd") ["http://" ++ endpoint] "new" endpoint.

Definition stream : chan := mkChan 0 5000.

(** 100ms, in nanoseconds. *)
Definition ms100 : Duration := 100000000.

(** [url.Parse(s).Host] for the addresses of the examples: what follows
    ["http://"]. *)
Definition host (s : string) : string := String.substring 7 (String.length s - 7) s.

(** [Endpoint()] of the local nodes of the examples, which have one
    client URL each. *)
Definition endpoint (nd : NodeWebLocal.t) : string :=
  host (first_key (Flags.ListenClientURLs (NodeWebLocal.Flags nd))).

(** [url.Parse] for the examples: an address that begins with a colon
    has no scheme and is refused. *)
Definition url_Parse (s : string) : option string :=
  match s with
  | String ":" _ => None
  | _ => Some (host s)
  end.

(** A local node with cool-down 100ms that was restarted at [r] and
    terminated at [t]. *)
Definition local (name endpoint : string) (active : bool) (t r : Time)
    : NodeWebLocal.t :=
  NodeWebLocal.mk 1 0 false stream "etcd" (flags name endpoint) None 4242 active
                  ms100 t r.

Definition remote (name endpoint : string) (active : bool) : NodeWebRemoteClient.t :=
  NodeWebRemoteClient.mk (flags name endpoint) (mkAgent endpoint) active ms100.

(** Three remote nodes: [a] and [c] run, [b] does not. *)
Definition remote_cluster : defaultCluster.t NodeWebRemoteClient.t :=
  defaultCluster.mk stream ∅
    (<["a" := remote "a" "10.0.0.1:2379" true]>
       (<["b" := remote "b" "10.0.0.2:2379" false]>
          (<["c" := remote "c" "10.0.0.3:2379" true]> ∅))).

(** Three remote nodes, none of which runs. *)
Definition remote_cluster_down : defaultCluster.t NodeWebRemoteClient.t :=
  defaultCluster.mk stream ∅
    (<["a" := remote "a" "10.0.0.1:2379" false]>
       (<["b" := remote "b" "10.0.0.2:2379" false]>
          (<["c" := remote "c" "10.0.0.3:2379" false]> ∅))).

(** Two local nodes that run, restarted and terminated long ago. *)
Definition local_cluster : defaultCluster.t NodeWebLocal.t :=
  defaultCluster.mk stream ∅
    (<["a" := local "a" "localhost:2379" true 0 0]>
       (<["b" := local "b" "localhost:2479" true 0 0]> ∅)).

(** Calls the methods [ms] on a local node one after the other; gives the
    errors they return and the node they leave, or nothing when a call
    waits for ever. *)
Fixpoint run_local (ms : list NodeMethod) (nd : NodeWebLocal.t) (w : World)
    : option (list (option error) * NodeWebLocal.t) :=
  match ms with
  | [] => Some ([], nd)
  | m :: ms =>
    match match m with
          | MStart => NodeWebLocal.Start nd w
          | MRestart => NodeWebLocal.Restart nd w
          | MTerminate => NodeWebLocal.Terminate nd w
          | MClean => NodeWebLocal.Clean nd w
          end with
    | Returns r w' =>
      match run_local ms r.2 w' with
      | Some (errs, nd') => Some (r.1 :: errs, nd')
      | None => None
      end
    | Blocks => None
    end
  end.

(** The same for a remote node; it also gives the outside calls made by
    the end, and how often the clock was read. *)
Fixpoint run_remote (ms : list NodeMethod) (nd : NodeWebRemoteClient.t) (w : World)
    : option (list (option error) * NodeWebRemoteClient.t * list SysCall * nat) :=
  match ms with
  | [] => Some ([], nd, trace w, ticks w)
  | m :: ms =>
    match match m with
          | MStart => NodeWebRemoteClient.Start nd w
          | MRestart => NodeWebRemoteClient.Restart nd w
          | MTerminate => NodeWebRemoteClient.Terminate nd w
          | MClean => NodeWebRemoteClient.Clean nd w
          end with
    | Returns r w' =>
      match run_remote ms r.2 w' with
      | Some (errs, nd', calls, readings) => Some (r.1 :: errs, nd', calls, readings)
      | None => None
      end
    | Blocks => None
    end
  end.

(** One remote node that runs and has no gRPC address. *)
Definition mute_cluster : defaultCluster.t NodeWebRemoteClient.t :=
  defaultCluster.mk stream ∅ (<["a" := remote "a" "" true]> ∅).

(** The probe of [a] is answered, the one of [b] cannot connect, every
    other one runs into the timer. *)
Definition probes (k : string) : Probe :=
  if String.eqb k "a" then
    mkProbe None (StageDone [mkMember "b" "2" false; mkMember "a" "1" true])
            (StageDone 42)
            (StageDone [mkLine "# keys" 0; mkLine "etcd_storage_keys_total 7" 7])
  else if String.eqb k "b" then
    mkProbe (Some "connection refused") StageTimeout StageTimeout StageTimeout
  else
    mkProbe None StageTimeout StageTimeout StageTimeout.

(** What a process writes in one piece: a line, an empty line and the
    beginning of a third. *)
Definition output : string :=
  "ready" ++ String newline (String newline "part").

(** A store that holds two keys, answers every request, and is reached
    through every list of endpoints. *)
Definition store : Store := {|
  kv_dial := fun _ => None;
  kv_Put := fun _ _ _ => None;
  kv_Get := fun _ _ => inl [("k2", "pear"); ("k1", "apple")];
  kv_Delete := fun _ _ => None
|}.

(** A stand-in for [fmt.Sprintf] with two arguments: the format, the
    name and the line, with bars between them. *)
Definition sprintf (format name line : string) : string :=
  format ++ "|" ++ name ++ "|" ++ line.

(** A printer that puts [<] and [>] around what [%q] quotes and prints
    every duration as [d]. *)
Definition printer : Printer := {|
  print_q := fun s => "<" ++ s ++ ">";
  print_qs := fun l => "[" ++ String.concat " " l ++ "]";
  print_v := fun _ => "d"
|}.

(** A cache without a cluster, with the user [u] who has made [n]
    requests since the window was opened at [t]. *)
Definition cache_of (n : Z) (t : Time) : cache.t unit :=
  cache.mk None (<["u" := userData.mk 0 t n "" "" "" "" []]> ∅).
End Ex.
(** * Properties *)

(** ** The monad and the world *)

Lemma unlock_lock_free (w : World) : mu w = false -> set_mu false (set_mu true w) = w.
Proof. destruct w; simpl; intros ->; reflexivity. Qed.

(** Unfolds the primitive actions of the monad. *)
Ltac unfold_M :=
  unfold bind, ret, Lock, Unlock, time_Now, os_Getenv_SHELL, send, log_Printf,
    make_chan, syscall, syscall_pid, flags_String, flags_StringSlice, CombineFlags,
    external, ask, answer
    in *.

(** ** The endpoint of a local node *)

(** [Endpoint] of a local node with one client URL does not depend on the
    range: it is the host of that URL, and the panic when the URL does
    not parse. *)
Lemma NodeWebLocal_Endpoint_one_key (url_Parse : string -> option string)
    (ks : list string) (nd : NodeWebLocal.t) (k : string) :
  Flags.ListenClientURLs (NodeWebLocal.Flags nd) = [k] ->
  ks ≡ₚ [k] ->
  NodeWebLocal.Endpoint url_Parse ks nd = url_Parse k.
Proof.
  intros Hurls Hks. apply Permutation_singleton_r in Hks as ->.
  unfold NodeWebLocal.Endpoint. rewrite Hurls. cbn [NodeWebLocal.range_first_key].
  rewrite decide_True by (apply list_elem_of_singleton; reflexivity). reflexivity.
Qed.

(** With two client URLs the answer changes with the order of the range. *)
Example Endpoint_follows_the_range :
  let nd := NodeWebLocal.set_Flags
              (Flags.mk "a" "/tmp/a.etcd" ["http://localhost:2379"; "http://10.0.0.1:2379"]
                        "new" "")
              (Ex.local "a" "localhost:2379" false 0 0) in
  NodeWebLocal.Endpoint Ex.url_Parse ["http://localhost:2379"; "http://10.0.0.1:2379"] nd
  = Some "localhost:2379"
  /\ NodeWebLocal.Endpoint Ex.url_Parse ["http://10.0.0.1:2379"; "http://localhost:2379"] nd
     = Some "10.0.0.1:2379".
Proof. split; vm_compute; reflexivity. Qed.

(** A client URL that does not parse: [Endpoint] panics. *)
Example Endpoint_panics :
  NodeWebLocal.Endpoint Ex.url_Parse [":2379"]
    (NodeWebLocal.set_Flags (Flags.mk "a" "/tmp/a.etcd" [":2379"] "new" "")
                            (Ex.local "a" "localhost:2379" false 0 0))
  = None.
Proof. vm_compute. reflexivity. Qed.

(** ** The mutex *)

(** [IsActive] of a local node takes the mutex and gives it back: with the
    mutex free it returns the flag and leaves the world as it was. *)
Lemma NodeWebLocal_IsActive_world (nd : NodeWebLocal.t) (w : World) :
  mu w = false ->
  NodeWebLocal.IsActive nd w = Returns (NodeWebLocal.active nd) w.
Proof.
  intros Hmu. unfold NodeWebLocal.IsActive. unfold_M.
  rewrite Hmu. simpl. now rewrite unlock_lock_free.
Qed.

Lemma NodeWebLocal_IsActive_held (nd : NodeWebLocal.t) (w : World) :
  mu w = true -> NodeWebLocal.IsActive nd w = Blocks.
Proof.
  intros Hmu. unfold NodeWebLocal.IsActive. unfold_M. now rewrite Hmu.
Qed.

(** ** Start on a running node *)

Lemma NodeWebLocal_Start_active (nd : NodeWebLocal.t) (w : World) :
  NodeWebLocal.active nd = true -> mu w = false ->
  NodeWebLocal.Start nd w
  = Returns (Some (ErrAlreadyRunning (Flags.Name (NodeWebLocal.Flags nd))), nd) w.
Proof.
  intros Ha Hmu. unfold NodeWebLocal.Start. unfold_M.
  rewrite Hmu, Ha. simpl. now rewrite unlock_lock_free.
Qed.

Lemma NodeWebRemoteClient_Start_active (nd : NodeWebRemoteClient.t) (w : World) :
  NodeWebRemoteClient.active nd = true ->
  NodeWebRemoteClient.Start nd w
  = Returns (Some (ErrAlreadyActive (Flags.Name (NodeWebRemoteClient.Flags nd))), nd) w.
Proof.
  intros Ha. unfold NodeWebRemoteClient.Start. now rewrite Ha.
Qed.

(** C8. A [Start] on a node that is already active fails with an
    AlreadyActive error and leaves the node as it was (so the flag stays
    set and the process handle, the process id and the timestamps keep
    their values); nothing is sent, launched or asked of the agent. This
    holds for the local node, when the mutex of the cluster is free, and
    for the remote node. *)
Theorem Start_on_active_node_fails_unchanged :
  (forall (nd : NodeWebLocal.t) (w : World),
      NodeWebLocal.active nd = true -> mu w = false ->
      exists e, NodeWebLocal.Start nd w = Returns (Some e, nd) w /\ AlreadyActive e)
  /\
  (forall (nd : NodeWebRemoteClient.t) (w : World),
      NodeWebRemoteClient.active nd = true ->
      exists e, NodeWebRemoteClient.Start nd w = Returns (Some e, nd) w
                /\ AlreadyActive e).
Proof.
  split.
  - intros nd w Ha Hmu. eexists. split.
    + now apply NodeWebLocal_Start_active.
    + exact I.
  - intros nd w Ha. eexists. split.
    + now apply NodeWebRemoteClient_Start_active.
    + exact I.
Qed.

Lemma Start_on_active_node_fails_unchanged_witness :
  (exists e, NodeWebLocal.Start (Ex.local "a" "localhost:2379" true 0 0) (Ex.world 1000 1)
             = Returns (Some e, Ex.local "a" "localhost:2379" true 0 0) (Ex.world 1000 1)
             /\ AlreadyActive e)
  /\
  (exists e, NodeWebRemoteClient.Start (Ex.remote "a" "localhost:2379" true) (Ex.world 1000 1)
             = Returns (Some e, Ex.remote "a" "localhost:2379" true) (Ex.world 1000 1)
             /\ AlreadyActive e).
Proof.
  split.
  - apply (proj1 Start_on_active_node_fails_unchanged); reflexivity.
  - apply (proj2 Start_on_active_node_fails_unchanged); reflexivity.
Defined.

(** ** The cool-down of the local node *)

(** Opens the world, so that the primitive actions compute. *)
Ltac open_world w :=
  destruct w as [w_shell w_fstr w_fslice w_fcomb w_clk w_serr w_spid w_tk w_m w_tr w_sn w_lg w_ch];
  unfold_M; simpl in *; subst.

(** In the statements below [clock w (ticks w)] is the first reading that
    the call takes from the clock and [clock w (S (ticks w))] the second. *)
Lemma Restart_too_soon_after_restart (nd : NodeWebLocal.t) (w : World) :
  mu w = false ->
  NodeWebLocal.active nd = false ->
  Sub (clock w (ticks w)) (NodeWebLocal.lastRestarted nd) < NodeWebLocal.limitInterval nd ->
  NodeWebLocal.Restart nd w
  = Returns (Some (ErrRestartedSameNode
                     (Sub (clock w (ticks w)) (NodeWebLocal.lastRestarted nd))
                     (NodeWebLocal.limitInterval nd)), nd)
            (set_ticks (S (ticks w)) w).
Proof.
  intros Hmu Ha Hlt. apply Z.ltb_lt in Hlt.
  unfold NodeWebLocal.Restart. open_world w.
  rewrite Ha. simpl. now rewrite Hlt.
Qed.

Lemma Restart_too_soon_after_terminate (nd : NodeWebLocal.t) (w : World) :
  mu w = false ->
  NodeWebLocal.active nd = false ->
  NodeWebLocal.limitInterval nd <= Sub (clock w (ticks w)) (NodeWebLocal.lastRestarted nd) ->
  Sub (clock w (S (ticks w))) (NodeWebLocal.lastTerminated nd) < NodeWebLocal.limitInterval nd ->
  NodeWebLocal.Restart nd w
  = Returns (Some (ErrTerminatedNode
                     (Sub (clock w (S (ticks w))) (NodeWebLocal.lastTerminated nd))
                     (NodeWebLocal.limitInterval nd)), nd)
            (set_ticks (S (S (ticks w))) w).
Proof.
  intros Hmu Ha Hge Hlt. apply Z.ltb_ge in Hge. apply Z.ltb_lt in Hlt.
  unfold NodeWebLocal.Restart. open_world w.
  rewrite Ha. simpl. rewrite Hge. simpl. now rewrite Hlt.
Qed.

Lemma Restart_cooled_down (nd : NodeWebLocal.t) (w : World) :
  mu w = false ->
  NodeWebLocal.active nd = false ->
  NodeWebLocal.limitInterval nd <= Sub (clock w (ticks w)) (NodeWebLocal.lastRestarted nd) ->
  NodeWebLocal.limitInterval nd <= Sub (clock w (S (ticks w))) (NodeWebLocal.lastTerminated nd) ->
  exists r w', NodeWebLocal.Restart nd w = Returns r w'
               /\ forall e, r.1 = Some e -> ~ TooSoon e.
Proof.
  intros Hmu Ha Hge1 Hge2. apply Z.ltb_ge in Hge1, Hge2.
  unfold NodeWebLocal.Restart. open_world w.
  rewrite Ha. simpl. rewrite Hge1. simpl. rewrite Hge2. simpl.
  destruct (w_fstr _) as [flagString|msg]; simpl.
  - destruct (w_serr _) as [msg|]; simpl; do 2 eexists; (split; [reflexivity|]);
      simpl; intros e [= <-]; exact id.
  - do 2 eexists; split; [reflexivity|]. simpl. intros e [= <-]. exact id.
Qed.

Lemma Terminate_too_soon_after_terminate (nd : NodeWebLocal.t) (w : World) :
  mu w = false ->
  NodeWebLocal.active nd = true ->
  Sub (clock w (ticks w)) (NodeWebLocal.lastTerminated nd) < NodeWebLocal.limitInterval nd ->
  NodeWebLocal.Terminate nd w
  = Returns (Some (ErrTerminatedSameNode
                     (Sub (clock w (ticks w)) (NodeWebLocal.lastTerminated nd))
                     (NodeWebLocal.limitInterval nd)), nd)
            (set_ticks (S (ticks w)) w).
Proof.
  intros Hmu Ha Hlt. apply Z.ltb_lt in Hlt.
  unfold NodeWebLocal.Terminate. open_world w.
  rewrite Ha. simpl. now rewrite Hlt.
Qed.

Lemma Terminate_too_soon_after_restart (nd : NodeWebLocal.t) (w : World) :
  mu w = false ->
  NodeWebLocal.active nd = true ->
  NodeWebLocal.limitInterval nd <= Sub (clock w (ticks w)) (NodeWebLocal.lastTerminated nd) ->
  Sub (clock w (S (ticks w))) (NodeWebLocal.lastRestarted nd) < NodeWebLocal.limitInterval nd ->
  NodeWebLocal.Terminate nd w
  = Returns (Some (ErrRestartedNode
                     (Sub (clock w (S (ticks w))) (NodeWebLocal.lastRestarted nd))
                     (NodeWebLocal.limitInterval nd)), nd)
            (set_ticks (S (S (ticks w))) w).
Proof.
  intros Hmu Ha Hge Hlt. apply Z.ltb_ge in Hge. apply Z.ltb_lt in Hlt.
  unfold NodeWebLocal.Terminate. open_world w.
  rewrite Ha. simpl. rewrite Hge. simpl. now rewrite Hlt.
Qed.

Lemma Terminate_cooled_down (nd : NodeWebLocal.t) (w : World) :
  mu w = false ->
  NodeWebLocal.active nd = true ->
  NodeWebLocal.limitInterval nd <= Sub (clock w (ticks w)) (NodeWebLocal.lastTerminated nd) ->
  NodeWebLocal.limitInterval nd <= Sub (clock w (S (ticks w))) (NodeWebLocal.lastRestarted nd) ->
  exists r w', NodeWebLocal.Terminate nd w = Returns r w'
               /\ forall e, r.1 = Some e -> ~ TooSoon e.
Proof.
  intros Hmu Ha Hge1 Hge2. apply Z.ltb_ge in Hge1, Hge2.
  unfold NodeWebLocal.Terminate. open_world w.
  rewrite Ha. simpl. rewrite Hge1. simpl. rewrite Hge2. simpl.
  destruct (w_serr _) as [msg|]; simpl; do 2 eexists; (split; [reflexivity|]);
    simpl; intros e [= <-]; exact id.
Qed.

(** ** The remote node *)

Lemma NodeWebRemoteClient_Restart_inactive (nd : NodeWebRemoteClient.t) (w : World) :
  NodeWebRemoteClient.active nd = false ->
  NodeWebRemoteClient.Restart nd w
  = Returns (match sys_err w (length (trace w)) with
             | Some msg => (Some (ErrExternal msg), nd)
             | None => (None, NodeWebRemoteClient.set_active true nd)
             end)
            (set_trace (trace w ++ [SysAgentRestart (NodeWebRemoteClient.Agent nd)]) w).
Proof.
  intros Ha. unfold NodeWebRemoteClient.Restart. unfold_M. rewrite Ha.
  destruct (sys_err w _); reflexivity.
Qed.

Lemma NodeWebRemoteClient_Terminate_active (nd : NodeWebRemoteClient.t) (w : World) :
  NodeWebRemoteClient.active nd = true ->
  NodeWebRemoteClient.Terminate nd w
  = Returns (match sys_err w (length (trace w)) with
             | Some msg => (Some (ErrExternal msg), nd)
             | None => (None, NodeWebRemoteClient.set_active false nd)
             end)
            (set_trace (trace w ++ [SysAgentStop (NodeWebRemoteClient.Agent nd)]) w).
Proof.
  intros Ha. unfold NodeWebRemoteClient.Terminate. unfold_M. rewrite Ha. simpl.
  destruct (sys_err w _); reflexivity.
Qed.

(** X23. The cool-down of the local node, with the mutex of the cluster
    free and [D = limitInterval]. A [Restart] on an inactive node fails
    with a TooSoon error that names the elapsed time and [D] when less
    than [D] has passed since [lastRestarted] (at the first reading of
    the clock) or since [lastTerminated] (at the second reading), and a
    [Terminate] on an active node does so when less than [D] has passed
    since [lastTerminated] or since [lastRestarted]; the node is left as
    it was. When both gaps are at least [D] the call returns and its
    error, if any, is not TooSoon. *)
Theorem cooldown_enforced_by_local_node :
  forall (nd : NodeWebLocal.t) (w : World),
    mu w = false ->
    let D := NodeWebLocal.limitInterval nd in
    let sinceRestart i := Sub (clock w (i + ticks w)%nat) (NodeWebLocal.lastRestarted nd) in
    let sinceTerminate i := Sub (clock w (i + ticks w)%nat) (NodeWebLocal.lastTerminated nd) in
    (NodeWebLocal.active nd = false ->
     (sinceRestart 0%nat < D \/ sinceTerminate 1%nat < D ->
      exists e w', NodeWebLocal.Restart nd w = Returns (Some e, nd) w' /\ TooSoon e
                   /\ (e = ErrRestartedSameNode (sinceRestart 0%nat) D
                       \/ e = ErrTerminatedNode (sinceTerminate 1%nat) D))
     /\ (D <= sinceRestart 0%nat -> D <= sinceTerminate 1%nat ->
         exists r w', NodeWebLocal.Restart nd w = Returns r w'
                      /\ forall e, r.1 = Some e -> ~ TooSoon e))
    /\
    (NodeWebLocal.active nd = true ->
     (sinceTerminate 0%nat < D \/ sinceRestart 1%nat < D ->
      exists e w', NodeWebLocal.Terminate nd w = Returns (Some e, nd) w' /\ TooSoon e
                   /\ (e = ErrTerminatedSameNode (sinceTerminate 0%nat) D
                       \/ e = ErrRestartedNode (sinceRestart 1%nat) D))
     /\ (D <= sinceTerminate 0%nat -> D <= sinceRestart 1%nat ->
         exists r w', NodeWebLocal.Terminate nd w = Returns r w'
                      /\ forall e, r.1 = Some e -> ~ TooSoon e)).
Proof.
  intros nd w Hmu D sinceRestart sinceTerminate. subst D sinceRestart sinceTerminate.
  simpl. split; intros Ha; split.
  - intros Hsoon.
    destruct (Z.lt_ge_cases (Sub (clock w (ticks w)) (NodeWebLocal.lastRestarted nd))
                            (NodeWebLocal.limitInterval nd)) as [Hlt|Hge].
    + do 2 eexists. split; [now apply Restart_too_soon_after_restart|].
      split; [exact I | now left].
    + destruct Hsoon as [Hlt|Hlt]; [lia|].
      do 2 eexists. split; [now apply Restart_too_soon_after_terminate|].
      split; [exact I | now right].
  - intros H1 H2. now apply Restart_cooled_down.
  - intros Hsoon.
    destruct (Z.lt_ge_cases (Sub (clock w (ticks w)) (NodeWebLocal.lastTerminated nd))
                            (NodeWebLocal.limitInterval nd)) as [Hlt|Hge].
    + do 2 eexists. split; [now apply Terminate_too_soon_after_terminate|].
      split; [exact I | now left].
    + destruct Hsoon as [Hlt|Hlt]; [lia|].
      do 2 eexists. split; [now apply Terminate_too_soon_after_restart|].
      split; [exact I | now right].
  - intros H1 H2. now apply Terminate_cooled_down.
Qed.

(** A local node that was terminated at 1000000000 and is asked to restart
    50ms later, with a cool-down of 100ms: TooSoon. *)
Lemma cooldown_enforced_by_local_node_witness :
  exists e w',
    NodeWebLocal.Restart (Ex.local "a" "localhost:2379" false 1000000000 0)
                         (Ex.world 1050000000 1)
    = Returns (Some e, Ex.local "a" "localhost:2379" false 1000000000 0) w'
    /\ TooSoon e
    /\ (e = ErrRestartedSameNode (Sub 1050000000 0) Ex.ms100
        \/ e = ErrTerminatedNode (Sub 1050000001 1000000000) Ex.ms100).
Proof.
  apply (proj1 (proj1 (cooldown_enforced_by_local_node
                         (Ex.local "a" "localhost:2379" false 1000000000 0)
                         (Ex.world 1050000000 1) eq_refl) eq_refl)).
  right. vm_compute. reflexivity.
Defined.

(** C1 fails on the remote node. [NewCluster] is asked for a remote
    member with a cool-down of 100ms and puts that interval into the
    node. The node is started, terminated, restarted and terminated
    again, one call right after the other, and every call succeeds and
    goes to the agent; the clock is not read once: the remote [Restart]
    and [Terminate] record no time and compare nothing with the
    interval. The local node that [NewCluster] makes from the
    same options, on a clock that moves by a nanosecond from one reading
    to the next, refuses the restart that comes 2ns after the
    terminate. *)
Theorem rejected_remote_node_has_no_cool_down :
  (exists nd w1,
      NewCluster WebRemote "etcd" [Ex.flags "a" "10.0.0.1:2379"]
                 [WithLimitInterval Ex.ms100; WithAgentEndpoints ["10.0.0.1:9027"]]
                 (Ex.world 1000000000000000000 1)
      = Returns (Some (defaultCluster.mk (mkChan 1 5000) ∅ (<["a" := OfWebRemote nd]> ∅)),
                 None) w1
      /\ NodeWebRemoteClient.limitInterval nd = Ex.ms100
      /\ Ex.run_remote [MStart; MTerminate; MRestart; MTerminate] nd w1
         = Some ([None; None; None; None], nd,
                 [SysNewAgent "10.0.0.1:9027";
                  SysAgentStart (mkAgent "10.0.0.1:9027") ["--name"; "a"];
                  SysAgentStop (mkAgent "10.0.0.1:9027");
                  SysAgentRestart (mkAgent "10.0.0.1:9027");
                  SysAgentStop (mkAgent "10.0.0.1:9027")],
                 0%nat))
  /\
  (exists nd w1,
      NewCluster WebLocal "etcd" [Ex.flags "a" "10.0.0.1:2379"]
                 [WithLimitInterval Ex.ms100; WithAgentEndpoints ["10.0.0.1:9027"]]
                 (Ex.world 1000000000000000000 1)
      = Returns (Some (defaultCluster.mk (mkChan 1 5000) ∅ (<["a" := OfWebLocal nd]> ∅)),
                 None) w1
      /\ NodeWebLocal.limitInterval nd = Ex.ms100
      /\ fst <$> Ex.run_local [MStart; MTerminate; MRestart] nd w1
         = Some [None; None; Some (ErrTerminatedNode 2 Ex.ms100)]).
Proof.
  split; do 2 eexists; (split; [vm_compute; reflexivity|]);
    split; vm_compute; reflexivity.
Qed.

(** ** The timestamps *)

(** Splits on every test and every answer of the world that the hypothesis
    [H] runs through. *)
Ltac split_run H :=
  repeat (simpl in H;
          match type of H with
          | context [if ?b then _ else _] => destruct b eqn:?
          | context [match ?x with _ => _ end] => destruct x eqn:?
          end);
  simpl in H; try discriminate H.

Lemma NodeWebLocal_Start_stamps nd w r nd' w' :
  NodeWebLocal.Start nd w = Returns (r, nd') w' ->
  NodeWebLocal.lastRestarted nd' = NodeWebLocal.lastRestarted nd
  /\ NodeWebLocal.lastTerminated nd' = NodeWebLocal.lastTerminated nd.
Proof.
  intros H. unfold NodeWebLocal.Start in H. open_world w.
  split_run H; injection H as <- <- <-; split; reflexivity.
Qed.

Lemma NodeWebLocal_Restart_error_stamps nd w e nd' w' :
  NodeWebLocal.Restart nd w = Returns (Some e, nd') w' ->
  NodeWebLocal.lastRestarted nd' = NodeWebLocal.lastRestarted nd
  /\ NodeWebLocal.lastTerminated nd' = NodeWebLocal.lastTerminated nd.
Proof.
  intros H. unfold NodeWebLocal.Restart in H. open_world w.
  split_run H; injection H as <- <- <-; split; reflexivity.
Qed.

Lemma NodeWebLocal_Terminate_error_stamps nd w e nd' w' :
  NodeWebLocal.Terminate nd w = Returns (Some e, nd') w' ->
  NodeWebLocal.lastRestarted nd' = NodeWebLocal.lastRestarted nd
  /\ NodeWebLocal.lastTerminated nd' = NodeWebLocal.lastTerminated nd.
Proof.
  intros H. unfold NodeWebLocal.Terminate in H. open_world w.
  split_run H; injection H as <- <- <-; split; reflexivity.
Qed.

Lemma NodeWebLocal_Clean_stamps nd w r nd' w' :
  NodeWebLocal.Clean nd w = Returns (r, nd') w' ->
  NodeWebLocal.lastRestarted nd' = NodeWebLocal.lastRestarted nd
  /\ NodeWebLocal.lastTerminated nd' = clock w (ticks w).
Proof.
  intros H. unfold NodeWebLocal.Clean in H. open_world w.
  split_run H; injection H as <- <- <-; split; reflexivity.
Qed.

(** A [Restart] that succeeds leaves the node active and records the
    third reading of the clock as [lastRestarted]; a [Terminate] that
    succeeds leaves it inactive and records the third reading as
    [lastTerminated]. *)
Lemma NodeWebLocal_Restart_success nd w nd' w' :
  NodeWebLocal.Restart nd w = Returns (None, nd') w' ->
  NodeWebLocal.active nd' = true
  /\ NodeWebLocal.lastRestarted nd' = clock w (S (S (ticks w)))
  /\ NodeWebLocal.lastTerminated nd' = NodeWebLocal.lastTerminated nd.
Proof.
  intros H. unfold NodeWebLocal.Restart in H. open_world w.
  split_run H; injection H as <- <-; repeat split; reflexivity.
Qed.

Lemma NodeWebLocal_Terminate_success nd w nd' w' :
  NodeWebLocal.Terminate nd w = Returns (None, nd') w' ->
  NodeWebLocal.active nd' = false
  /\ NodeWebLocal.lastTerminated nd' = clock w (S (S (ticks w)))
  /\ NodeWebLocal.lastRestarted nd' = NodeWebLocal.lastRestarted nd.
Proof.
  intros H. unfold NodeWebLocal.Terminate in H. open_world w.
  split_run H; injection H as <- <-; repeat split; reflexivity.
Qed.

Lemma NodeWebLocal_Start_success nd w nd' w' :
  NodeWebLocal.Start nd w = Returns (None, nd') w' ->
  NodeWebLocal.active nd' = true.
Proof.
  intros H. unfold NodeWebLocal.Start in H. open_world w.
  split_run H; injection H as <- <-; reflexivity.
Qed.

(** X1. What the four lifecycle methods of the local node do to the two
    timestamps. [Start] never touches them, and [Restart] and [Terminate]
    leave both as they were on every return with an error (a precondition
    that fails, a cool-down that has not passed, a launch or a signal that
    fails). [Clean] leaves [lastRestarted] as it was and sets
    [lastTerminated] to the reading of the clock at its entry on every
    return, with or without an error. *)
Theorem timestamps_kept_on_error_except_by_Clean :
  forall (nd nd' : NodeWebLocal.t) (w w' : World),
    (forall r, NodeWebLocal.Start nd w = Returns (r, nd') w' ->
               NodeWebLocal.lastRestarted nd' = NodeWebLocal.lastRestarted nd
               /\ NodeWebLocal.lastTerminated nd' = NodeWebLocal.lastTerminated nd)
    /\ (forall e, NodeWebLocal.Restart nd w = Returns (Some e, nd') w' ->
                  NodeWebLocal.lastRestarted nd' = NodeWebLocal.lastRestarted nd
                  /\ NodeWebLocal.lastTerminated nd' = NodeWebLocal.lastTerminated nd)
    /\ (forall e, NodeWebLocal.Terminate nd w = Returns (Some e, nd') w' ->
                  NodeWebLocal.lastRestarted nd' = NodeWebLocal.lastRestarted nd
                  /\ NodeWebLocal.lastTerminated nd' = NodeWebLocal.lastTerminated nd)
    /\ (forall r, NodeWebLocal.Clean nd w = Returns (r, nd') w' ->
                  NodeWebLocal.lastRestarted nd' = NodeWebLocal.lastRestarted nd
                  /\ NodeWebLocal.lastTerminated nd' = clock w (ticks w)).
Proof.
  intros nd nd' w w'. split; [|split; [|split]]; intros r Hrun.
  - apply (NodeWebLocal_Start_stamps _ _ _ _ _ Hrun).
  - apply (NodeWebLocal_Restart_error_stamps _ _ _ _ _ Hrun).
  - apply (NodeWebLocal_Terminate_error_stamps _ _ _ _ _ Hrun).
  - apply (NodeWebLocal_Clean_stamps _ _ _ _ _ Hrun).
Qed.

(** ** The checks on the state of a node *)




(** C4 fails on [Clean]. A local node runs and was never terminated
    ([lastTerminated] is the zero time). [Clean] on it returns the
    StillActive error, and yet leaves [lastTerminated] at the reading of
    the clock: the assignment comes before the test of [active]. A
    [Terminate] one nanosecond later is then refused as too soon after a
    terminate that never took place, whereas without the [Clean] the same
    [Terminate] succeeds. *)
Theorem rejected_Clean_moves_lastTerminated :
  Ex.run_local [MClean; MTerminate] (Ex.local "a" "localhost:2379" true 0 0)
               (Ex.world_at [1000000000000000000; 1000000000000000001;
                             1000000000000000002; 1000000000000000003])
  = Some ([Some (ErrAlreadyRunning "a"); Some (ErrTerminatedSameNode 1 Ex.ms100)],
          Ex.local "a" "localhost:2379" true 1000000000000000000 0)
  /\
  Ex.run_local [MTerminate] (Ex.local "a" "localhost:2379" true 0 0)
               (Ex.world_at [1000000000000000000; 1000000000000000001;
                             1000000000000000002; 1000000000000000003])
  = Some ([None], Ex.local "a" "localhost:2379" false 1000000000000000002 0).
Proof. split; vm_compute; reflexivity. Qed.


Lemma NodeWebRemoteClient_Terminate_inactive (nd : NodeWebRemoteClient.t) (w : World) :
  NodeWebRemoteClient.active nd = false ->
  NodeWebRemoteClient.Terminate nd w
  = Returns (Some (ErrTerminated (Flags.Name (NodeWebRemoteClient.Flags nd))), nd) w.
Proof.
  intros Ha. unfold NodeWebRemoteClient.Terminate. now rewrite Ha.
Qed.

Lemma NodeWebRemoteClient_Clean_any (nd : NodeWebRemoteClient.t) (w : World) :
  NodeWebRemoteClient.Clean nd w
  = Returns (ErrExternal <$> sys_err w (length (trace w)), nd)
            (set_trace (trace w ++ [SysAgentCleanup (NodeWebRemoteClient.Agent nd)]) w).
Proof.
  unfold NodeWebRemoteClient.Clean. unfold_M. destruct (sys_err w _); reflexivity.
Qed.




(** ** NewCluster without members *)

(** C10. [NewCluster] with an empty list of flags returns a nil cluster
    and a nil error, whatever the node type, the program path and the
    options; the world is as before: nothing was validated, no node and no
    channel was made. *)
Theorem NewCluster_without_flags_returns_nil_nil :
  forall (opt : NodeType) (programPath : string) (opts : list OpOption) (w : World),
    NewCluster opt programPath [] opts w = Returns (None, None) w.
Proof. reflexivity. Qed.

(** ** The named streams *)

(** Closes the case of a call that never returns. *)
Ltac blocked := simpl; intros; discriminate.

Section Streams.
Context {N : Type} `{Node.ops N}.

Lemma Stream_new (c : defaultCluster.t N) (s : string) (w : World) :
  mu w = false ->
  defaultCluster.idToStream c !! s = None ->
  defaultCluster.Stream (Some c) s w
  = Returns (Some (mkChan (chans w) 5000),
             Some (defaultCluster.set_idToStream
                     (<[s := mkChan (chans w) 5000]> (defaultCluster.idToStream c)) c))
            (set_chans (S (chans w)) w).
Proof.
  intros Hmu Hs. unfold defaultCluster.Stream. open_world w. now rewrite Hs.
Qed.

Lemma Stream_known (c : defaultCluster.t N) (s : string) (ch : chan) (w : World) :
  mu w = false ->
  defaultCluster.idToStream c !! s = Some ch ->
  defaultCluster.Stream (Some c) s w = Returns (Some ch, Some c) w.
Proof.
  intros Hmu Hs. unfold defaultCluster.Stream. open_world w. now rewrite Hs.
Qed.

(** A call of [Stream] on a cluster gives a cluster back, with every
    stream it had. *)
Lemma Stream_keeps (c : defaultCluster.t N) (s : string) r w w' :
  defaultCluster.Stream (Some c) s w = Returns r w' ->
  exists c', r.2 = Some c'
             /\ defaultCluster.idToStream c ⊆ defaultCluster.idToStream c'.
Proof.
  unfold defaultCluster.Stream. unfold_M.
  destruct (mu w); [blocked|].
  destruct (defaultCluster.idToStream c !! s) as [v|] eqn:Hs; intros [= <- <-].
  - exists c. split; [reflexivity|]. reflexivity.
  - eexists. split; [reflexivity|]. simpl. now apply insert_subseteq.
Qed.

Lemma Write_streams_keeps ids msg (c c' : defaultCluster.t N) w w' :
  defaultCluster.Write_streams ids msg c w = Returns c' w' ->
  defaultCluster.idToStream c ⊆ defaultCluster.idToStream c'.
Proof.
  revert c w. induction ids as [|streamID ids IH]; intros c w;
    cbn [defaultCluster.Write_streams].
  - intros [= <- <-]. reflexivity.
  - unfold bind at 1.
    destruct (defaultCluster.Stream (Some c) streamID w) as [r w1|] eqn:Hst;
      [|blocked].
    destruct (Stream_keeps _ _ _ _ _ Hst) as (c1 & Hc1 & Hsub).
    rewrite Hc1. simpl. unfold bind at 1.
    destruct (defaultCluster.send_on r.1 (MsgText msg) w1) as [[] w2|]; [|blocked].
    intros Hrest. apply IH in Hrest. now transitivity (defaultCluster.idToStream c1).
Qed.
End Streams.

Section Keeps.
Context {N : Type} `{Node.ops N}.

Lemma Write_keeps (c : defaultCluster.t N) name msg ids r w w' :
  defaultCluster.Write c name msg ids w = Returns r w' ->
  defaultCluster.idToStream c ⊆ defaultCluster.idToStream r.2.
Proof.
  unfold defaultCluster.Write. unfold bind at 1 2. unfold Lock, Unlock.
  destruct (mu w); [blocked|].
  destruct (defaultCluster.nameToNode c !! name) as [nd|].
  2:{ intros [= <- <-]. reflexivity. }
  destruct (Node.typeOf nd) as [vt|vt|vt|].
  - unfold bind, syscall, ret. intros [= <- <-]. reflexivity.
  - destruct (length ids =? 0)%nat.
    + unfold bind, send, ret. intros [= <- <-]. reflexivity.
    + unfold bind at 1.
      destruct (defaultCluster.Write_streams ids msg c _) as [c1 w1|] eqn:Hws;
        [|blocked].
      intros [= <- <-]. simpl. now apply Write_streams_keeps in Hws.
  - destruct (0 <? length ids)%nat.
    + unfold bind at 1.
      destruct (defaultCluster.Write_streams ids msg c _) as [c1 w1|] eqn:Hws;
        [|blocked].
      intros [= <- <-]. simpl. now apply Write_streams_keeps in Hws.
    + intros [= <- <-]. reflexivity.
  - intros [= <- <-]. reflexivity.
Qed.

Lemma by_name_keeps f (c : defaultCluster.t N) name r w w' :
  defaultCluster.by_name f c name w = Returns r w' ->
  defaultCluster.idToStream r.2 = defaultCluster.idToStream c.
Proof.
  unfold defaultCluster.by_name. unfold bind at 1 2. unfold Lock, Unlock.
  destruct (mu w); [blocked|].
  destruct (defaultCluster.nameToNode c !! name) as [nd|].
  - unfold bind, ret. destruct (f nd _) as [r1 w1|]; [|blocked].
    intros [= <- <-]. reflexivity.
  - intros [= <- <-]. reflexivity.
Qed.

Lemma Revive_restart_keeps ks (c : defaultCluster.t N) r w w' :
  defaultCluster.Revive_restart ks c w = Returns r w' ->
  defaultCluster.idToStream r.2 = defaultCluster.idToStream c.
Proof.
  revert c w. induction ks as [|k ks IH]; intros c w;
    cbn [defaultCluster.Revive_restart].
  - intros [= <- <-]. reflexivity.
  - destruct (defaultCluster.nameToNode c !! k) as [nd|]; [|apply IH].
    unfold bind at 1. destruct (Node.Restart nd w) as [r1 w1|]; [|blocked].
    destruct r1.1.
    + intros [= <- <-]. reflexivity.
    + intros Hrest. now apply IH in Hrest.
Qed.

Lemma Revive_keeps (c : defaultCluster.t N) ks1 ks2 r w w' :
  defaultCluster.Revive c ks1 ks2 w = Returns r w' ->
  defaultCluster.idToStream r.2 = defaultCluster.idToStream c.
Proof.
  unfold defaultCluster.Revive. unfold bind at 1.
  destruct (defaultCluster.Revive_active c ks1 w) as [[] w1|]; [| |blocked].
  - intros [= <- <-]. reflexivity.
  - apply Revive_restart_keeps.
Qed.

Lemma worker_step_keeps name pcs (c : defaultCluster.t N) r w w' :
  defaultCluster.worker_step name pcs c w = Returns r w' ->
  defaultCluster.idToStream r.2 = defaultCluster.idToStream c.
Proof.
  unfold defaultCluster.worker_step.
  destruct (pcs !! name) as [[| |]|];
    destruct (defaultCluster.nameToNode c !! name) as [nd|];
    try (intros [= <- <-]; reflexivity).
  - unfold bind at 1. destruct (Node.Terminate nd w) as [r1 w1|]; [|blocked].
    unfold bind, ret, log_Printf. destruct r1.1; intros [= <- <-]; reflexivity.
  - unfold bind at 1. destruct (Node.Clean nd w) as [r1 w1|]; [|blocked].
    unfold bind, ret, log_Printf. destruct r1.1; intros [= <- <-]; reflexivity.
Qed.

Lemma run_workers_keeps sched pcs (c : defaultCluster.t N) r w w' :
  defaultCluster.run_workers sched pcs c w = Returns r w' ->
  defaultCluster.idToStream r.2 = defaultCluster.idToStream c.
Proof.
  revert pcs c w. induction sched as [|name sched IH]; intros pcs c w;
    cbn [defaultCluster.run_workers].
  - intros [= <- <-]. reflexivity.
  - unfold bind at 1.
    destruct (defaultCluster.worker_step name pcs c w) as [r1 w1|] eqn:Hstep;
      [|blocked].
    intros Hrest. apply IH in Hrest. apply worker_step_keeps in Hstep. congruence.
Qed.

Lemma Shutdown_keeps (c : defaultCluster.t N) sched r w w' :
  defaultCluster.Shutdown c sched w = Returns r w' ->
  defaultCluster.idToStream r.2 = defaultCluster.idToStream c.
Proof.
  unfold defaultCluster.Shutdown.
  destruct (size (defaultCluster.nameToNode c) =? 0)%nat.
  - intros [= <- <-]. reflexivity.
  - unfold bind at 1.
    destruct (defaultCluster.run_workers sched _ c w) as [r1 w1|] eqn:Hrun;
      [|blocked].
    unfold bind, defaultCluster.wg_Wait, ret.
    destruct (defaultCluster.all_done r1.1); [|blocked].
    intros [= <- <-]. simpl. now apply run_workers_keeps in Hrun.
Qed.

(** No call takes a stream away. *)
Lemma run_call_keeps (q : Call) (c c' : defaultCluster.t N) w w' :
  run_call q c w = Returns c' w' ->
  defaultCluster.idToStream c ⊆ defaultCluster.idToStream c'.
Proof.
  destruct q; cbn [run_call]; try unfold bind at 1.
  - destruct (defaultCluster.Write c name msg streamIDs w) as [r w1|] eqn:Hq;
      [|blocked].
    intros [= <- <-]. now apply Write_keeps in Hq.
  - intros [= <- <-]. reflexivity.
  - destruct (defaultCluster.Stream (Some c) streamID w) as [r w1|] eqn:Hq;
      [|blocked].
    intros [= <- <-]. destruct (Stream_keeps _ _ _ _ _ Hq) as (c1 & -> & Hsub).
    exact Hsub.
  - destruct (defaultCluster.Start c name w) as [r w1|] eqn:Hq; [|blocked].
    intros [= <- <-]. apply by_name_keeps in Hq. now rewrite Hq.
  - destruct (defaultCluster.Restart c name w) as [r w1|] eqn:Hq; [|blocked].
    intros [= <- <-]. apply by_name_keeps in Hq. now rewrite Hq.
  - destruct (defaultCluster.Revive c ks1 ks2 w) as [r w1|] eqn:Hq; [|blocked].
    intros [= <- <-]. apply Revive_keeps in Hq. now rewrite Hq.
  - destruct (defaultCluster.Terminate c name w) as [r w1|] eqn:Hq; [|blocked].
    intros [= <- <-]. apply by_name_keeps in Hq. now rewrite Hq.
  - destruct (defaultCluster.Clean c name w) as [r w1|] eqn:Hq; [|blocked].
    intros [= <- <-]. apply by_name_keeps in Hq. now rewrite Hq.
  - destruct (defaultCluster.Shutdown c sched w) as [r w1|] eqn:Hq; [|blocked].
    intros [= <- <-]. apply Shutdown_keeps in Hq. now rewrite Hq.
  - destruct (defaultCluster.Endpoints c ks w) as [r w1|]; [|blocked].
    intros [= <- <-]. reflexivity.
  - destruct (defaultCluster.Status c ks probes arrival w) as [r w1|]; [|blocked].
    intros [= <- <-]. reflexivity.
  - destruct (defaultCluster.nameToNode c !! name) as [nd|].
    + unfold bind, ret. destruct (node_method m nd w) as [r w1|]; [|blocked].
      intros [= <- <-]. reflexivity.
    + intros [= <- <-]. reflexivity.
Qed.

Lemma run_calls_keeps (qs : list Call) (c c' : defaultCluster.t N) w w' :
  run_calls qs c w = Returns c' w' ->
  defaultCluster.idToStream c ⊆ defaultCluster.idToStream c'.
Proof.
  revert c w. induction qs as [|q qs IH]; intros c w; cbn [run_calls].
  - intros [= <- <-]. reflexivity.
  - unfold bind at 1. destruct (run_call q c w) as [c1 w1|] eqn:Hq; [|blocked].
    intros Hrest. apply IH in Hrest. apply run_call_keeps in Hq.
    now transitivity (defaultCluster.idToStream c1).
Qed.
End Keeps.

(** C9. With the mutex of the cluster free, the first [Stream(s)] makes a
    channel of capacity 5000 that no earlier call made, and enters it
    under [s] without touching another entry or a node; it gives the
    mutex back and does nothing else to the world. A second [Stream(s)]
    right after it returns that same channel and leaves the cluster and
    the world as they are. After any sequence of calls on the cluster
    that returns, the channel is still the one entered under [s], and a
    [Stream(s)] returns it and leaves the cluster as it is (it waits for
    ever if the calls left the mutex held): no call removes or replaces
    the channel of an identifier. *)
Theorem Stream_makes_one_channel_and_keeps_it :
  forall (N : Type) (H : Node.ops N) (c : defaultCluster.t N) (s : string) (w : World),
    mu w = false ->
    defaultCluster.idToStream c !! s = None ->
    exists c1 w1,
      defaultCluster.Stream (Some c) s w = Returns (Some (mkChan (chans w) 5000), Some c1) w1
      /\ w1 = set_chans (S (chans w)) w
      /\ mu w1 = false
      /\ chans w1 = S (chans w)
      /\ defaultCluster.idToStream c1
         = <[s := mkChan (chans w) 5000]> (defaultCluster.idToStream c)
      /\ defaultCluster.nameToNode c1 = defaultCluster.nameToNode c
      /\ defaultCluster.sharedStream c1 = defaultCluster.sharedStream c
      /\ defaultCluster.Stream (Some c1) s w1
         = Returns (Some (mkChan (chans w) 5000), Some c1) w1
      /\ forall (qs : list Call) (c2 : defaultCluster.t N) (w2 : World),
           run_calls qs c1 w1 = Returns c2 w2 ->
           defaultCluster.idToStream c2 !! s = Some (mkChan (chans w) 5000)
           /\ defaultCluster.Stream (Some c2) s w2
              = if mu w2 then Blocks
                else Returns (Some (mkChan (chans w) 5000), Some c2) w2.
Proof.
  intros N H c s w Hmu Hs. do 2 eexists.
  split; [now apply Stream_new|]. split; [reflexivity|].
  split; [exact Hmu|]. split; [reflexivity|].
  split; [reflexivity|]. split; [reflexivity|]. split; [reflexivity|].
  split.
  - apply Stream_known; [exact Hmu|]. simpl. apply lookup_insert_eq.
  - intros qs c2 w2 Hrun.
    assert (Hkept : defaultCluster.idToStream c2 !! s = Some (mkChan (chans w) 5000)).
    { apply run_calls_keeps in Hrun.
      eapply lookup_weaken; [|exact Hrun]. simpl. apply lookup_insert_eq. }
    split; [exact Hkept|].
    destruct (mu w2) eqn:Hmu2.
    + unfold defaultCluster.Stream, bind, Lock. now rewrite Hmu2.
    + now apply Stream_known.
Qed.

(** The first stream of the user [user1], asked for twice. *)
Lemma Stream_makes_one_channel_and_keeps_it_witness :
  exists c1 w1,
    defaultCluster.Stream (Some Ex.remote_cluster) "user1"
                          (Ex.world 1000 1)
    = Returns (Some (mkChan 1 5000), Some c1) w1
    /\ mu w1 = false
    /\ chans w1 = 2%nat
    /\ defaultCluster.Stream (Some c1) "user1" w1
       = Returns (Some (mkChan 1 5000), Some c1) w1.
Proof.
  destruct (Stream_makes_one_channel_and_keeps_it _ NodeWebRemoteClient_ops
              Ex.remote_cluster "user1" (Ex.world 1000 1) eq_refl eq_refl)
    as (c1 & w1 & Hstream & _ & Hmu & Hchans & _ & _ & _ & Hagain & _).
  exists c1, w1. split; [exact Hstream|]. split; [exact Hmu|].
  split; [exact Hchans | exact Hagain].
Defined.

(** ** The order of a range *)

Lemma RangeOrder_lookup {V : Type} (ks : list string) (m : gmap string V) (k : string) :
  RangeOrder ks m -> (k ∈ ks <-> is_Some (m !! k)).
Proof.
  unfold RangeOrder. intros Hperm. rewrite Hperm.
  rewrite list_elem_of_fmap. split.
  - intros ([k' v] & -> & Hin). apply elem_of_map_to_list in Hin. now exists v.
  - intros [v Hv]. exists (k, v). split; [reflexivity|]. now apply elem_of_map_to_list.
Qed.

Lemma RangeOrder_NoDup {V : Type} (ks : list string) (m : gmap string V) :
  RangeOrder ks m -> NoDup ks.
Proof.
  unfold RangeOrder. intros Hperm. rewrite Hperm. apply NoDup_fst_map_to_list.
Qed.

(** ** Revive *)

Section Revive.
Context {N : Type} `{Node.ops N}.

Lemma Revive_active_found (c : defaultCluster.t N) (ks : list string) (w : World)
    (k : string) (nd : N) :
  (forall k nd, defaultCluster.nameToNode c !! k = Some nd ->
                is_Some (Node.IsActive nd w)) ->
  k ∈ ks ->
  defaultCluster.nameToNode c !! k = Some nd ->
  Node.IsActive nd w = Some true ->
  defaultCluster.Revive_active c ks w = Returns true w.
Proof.
  intros Hans Hin Hk Hact. induction ks as [|k' ks IH];
    cbn [defaultCluster.Revive_active].
  - now apply elem_of_nil in Hin.
  - destruct (defaultCluster.nameToNode c !! k') as [nd'|] eqn:Hk'.
    + unfold bind, ask. destruct (Hans _ _ Hk') as [[|] Ha]; rewrite Ha.
      * reflexivity.
      * apply IH. apply elem_of_cons in Hin as [->|Hin]; [|exact Hin].
        congruence.
    + apply IH. apply elem_of_cons in Hin as [->|Hin]; [|exact Hin]. congruence.
Qed.

Lemma Revive_active_none (c : defaultCluster.t N) (ks : list string) (w : World) :
  (forall k nd, defaultCluster.nameToNode c !! k = Some nd ->
                Node.IsActive nd w = Some false) ->
  defaultCluster.Revive_active c ks w = Returns false w.
Proof.
  intros Hdown. induction ks as [|k ks IH]; cbn [defaultCluster.Revive_active].
  - reflexivity.
  - destruct (defaultCluster.nameToNode c !! k) as [nd|] eqn:Hk; [|exact IH].
    unfold bind, ask. rewrite (Hdown _ _ Hk). exact IH.
Qed.

Lemma Revive_restart_all (ks : list string) (c c' : defaultCluster.t N) (w w' : World) :
  restarted_in_turn ks c w c' w' ->
  defaultCluster.Revive_restart ks c w = Returns (None, c') w'.
Proof.
  induction 1 as [c w|k ks c w nd nd' w1 c' w' Hk Hre _ IH];
    cbn [defaultCluster.Revive_restart].
  - reflexivity.
  - rewrite Hk. unfold bind at 1. rewrite Hre. simpl. exact IH.
Qed.

Lemma Revive_restart_stops (ks1 : list string) (k : string) (ks2 : list string)
    (c c1 : defaultCluster.t N) (w w1 w' : World) (nd nd' : N) (e : error) :
  restarted_in_turn ks1 c w c1 w1 ->
  defaultCluster.nameToNode c1 !! k = Some nd ->
  Node.Restart nd w1 = Returns (Some e, nd') w' ->
  defaultCluster.Revive_restart (ks1 ++ k :: ks2) c w
  = Returns (Some e, defaultCluster.set_node k nd' c1) w'.
Proof.
  intros Hturn Hk Hre.
  induction Hturn as [c w|k0 ks c w nd0 nd0' w0 c1 w1 Hk0 Hre0 _ IH];
    cbn [app defaultCluster.Revive_restart].
  - rewrite Hk. unfold bind at 1. rewrite Hre. reflexivity.
  - rewrite Hk0. unfold bind at 1. rewrite Hre0. simpl. now apply IH.
Qed.
End Revive.

(** C6. [Revive] returns success and restarts nothing (the cluster and the
    world stay as they are) when a registered node answers that it is
    active. When every registered node answers that it is not, the nodes
    are restarted one after the other in the order of the range: if each
    restart succeeds [Revive] returns success, and if the restarts of the
    first nodes succeed and the next one fails, [Revive] returns that
    error at once, the later nodes being left alone. *)
Theorem Revive_restarts_only_a_dead_cluster :
  forall (N : Type) (H : Node.ops N) (c : defaultCluster.t N)
         (ks1 ks2 : list string) (w : World),
    RangeOrder ks1 (defaultCluster.nameToNode c) ->
    RangeOrder ks2 (defaultCluster.nameToNode c) ->
    ((forall k nd, defaultCluster.nameToNode c !! k = Some nd ->
                   is_Some (Node.IsActive nd w)) ->
     (exists k nd, defaultCluster.nameToNode c !! k = Some nd
                   /\ Node.IsActive nd w = Some true) ->
     defaultCluster.Revive c ks1 ks2 w = Returns (None, c) w)
    /\
    ((forall k nd, defaultCluster.nameToNode c !! k = Some nd ->
                   Node.IsActive nd w = Some false) ->
     (forall c' w',
         restarted_in_turn ks2 c w c' w' ->
         defaultCluster.Revive c ks1 ks2 w = Returns (None, c') w')
     /\
     (forall (first : list string) k rest c1 w1 nd nd' e w',
         ks2 = (first ++ k :: rest)%list ->
         restarted_in_turn first c w c1 w1 ->
         defaultCluster.nameToNode c1 !! k = Some nd ->
         Node.Restart nd w1 = Returns (Some e, nd') w' ->
         defaultCluster.Revive c ks1 ks2 w
         = Returns (Some e, defaultCluster.set_node k nd' c1) w')).
Proof.
  intros N H c ks1 ks2 w Hks1 Hks2. split.
  - intros Hans (k & nd & Hk & Hact). unfold defaultCluster.Revive, bind.
    rewrite (Revive_active_found c ks1 w k nd Hans); try assumption.
    + reflexivity.
    + apply (RangeOrder_lookup _ _ _ Hks1). now exists nd.
  - intros Hdown. split.
    + intros c' w' Hturn. unfold defaultCluster.Revive, bind.
      rewrite (Revive_active_none c ks1 w Hdown). now apply Revive_restart_all.
    + intros first k rest c1 w1 nd nd' e w' -> Hturn Hk Hre.
      unfold defaultCluster.Revive, bind.
      rewrite (Revive_active_none c ks1 w Hdown).
      now apply (Revive_restart_stops first k rest c c1 w w1 w' nd nd' e).
Qed.

(** In a cluster where [a] and [c] run, [Revive] does nothing. *)
Lemma Revive_restarts_only_a_dead_cluster_witness :
  defaultCluster.Revive (H := NodeWebRemoteClient_ops) Ex.remote_cluster
                        ["c"; "a"; "b"] ["c"; "a"; "b"] (Ex.world 1000 1)
  = Returns (None, Ex.remote_cluster) (Ex.world 1000 1).
Proof.
  apply (proj1 (Revive_restarts_only_a_dead_cluster _ NodeWebRemoteClient_ops
                  Ex.remote_cluster ["c"; "a"; "b"] ["c"; "a"; "b"] (Ex.world 1000 1)
                  ltac:(unfold RangeOrder; vm_compute; reflexivity)
                  ltac:(unfold RangeOrder; vm_compute; reflexivity))).
  - intros k nd _. eexists. reflexivity.
  - exists "a", (Ex.remote "a" "10.0.0.1:2379" true). split; reflexivity.
Defined.

(** ** Endpoints *)

Global Instance string_le_total : Total string_le.
Proof. intros a b. apply String.leb_total. Qed.

Section Endpoints.
Context {N : Type} `{Node.ops N}.

Lemma omap_cons_Some {A B : Type} (f : A -> option B) (x : A) (l : list A) (y : B) :
  f x = Some y -> omap f (x :: l) = y :: omap f l.
Proof. intros Hf. cbn [omap list_omap]. now rewrite Hf. Qed.

Lemma omap_cons_None {A B : Type} (f : A -> option B) (x : A) (l : list A) :
  f x = None -> omap f (x :: l) = omap f l.
Proof. intros Hf. cbn [omap list_omap]. now rewrite Hf. Qed.

(** The list and the map that the loop of [Endpoints] builds. *)
Lemma Endpoints_range_run (c : defaultCluster.t N) (w : World) (ks : list string)
    (acc : list string) (m : gmap string string) :
  (forall k nd, defaultCluster.nameToNode c !! k = Some nd ->
                Node.Endpoint nd <> "" -> is_Some (Node.IsActive nd w)) ->
  exists m',
    defaultCluster.Endpoints_range c ks acc m w
    = Returns ((acc ++ omap (fun k => defaultCluster.nameToNode c !! k ≫= listed w) ks)%list,
               m') w
    /\ forall j, m' !! j = if decide (j ∈ ks /\ is_Some (defaultCluster.nameToNode c !! j))
                           then Node.Endpoint <$> defaultCluster.nameToNode c !! j
                           else m !! j.
Proof.
  intros Hans. revert acc m.
  induction ks as [|k ks IH]; intros acc m; cbn [defaultCluster.Endpoints_range].
  - exists m. split.
    + cbn [omap list_omap]. now rewrite app_nil_r.
    + intros j. case_decide as Hj; [|reflexivity].
      destruct Hj as [Hj _]. now apply elem_of_nil in Hj.
  - destruct (defaultCluster.nameToNode c !! k) as [nd|] eqn:Hk.
    + (* the tests of the loop, and what they add to the list *)
      assert (Hcond : exists cond : bool,
                 (if String.eqb (Node.Endpoint nd) "" then ret false
                  else ask (Node.IsActive nd)) w = Returns cond w
                 /\ (defaultCluster.nameToNode c !! k ≫= listed w)
                    = if cond then Some (Node.Endpoint nd) else None).
      { rewrite Hk. cbn [mbind option_bind]. unfold listed.
        destruct (String.eqb_spec (Node.Endpoint nd) "") as [Hempty|Hfull].
        - exists false. split; reflexivity.
        - destruct (Hans _ _ Hk Hfull) as [a Ha]. exists a. unfold ask. rewrite Ha.
          split; [reflexivity|]. now destruct a. }
      destruct Hcond as (cond & Hcond & Hlisted).
      unfold bind at 1. rewrite Hcond.
      destruct (IH (if cond then (acc ++ [Node.Endpoint nd])%list else acc)
                   (<[k := Node.Endpoint nd]> m)) as (m' & Hrun & Hm').
      exists m'. split.
      * rewrite Hrun. destruct cond.
        -- rewrite (omap_cons_Some (fun k => defaultCluster.nameToNode c !! k ≫= listed w) k ks _ Hlisted).
           now rewrite <- app_assoc.
        -- now rewrite (omap_cons_None (fun k => defaultCluster.nameToNode c !! k ≫= listed w) k ks Hlisted).
      * intros j. rewrite Hm'. clear Hrun Hm'.
        destruct (decide (j = k)) as [->|Hne].
        -- rewrite (decide_True (P := k ∈ k :: ks /\ _)) by (split; [left|eauto]).
           case_decide; [reflexivity|]. now rewrite lookup_insert_eq, Hk.
        -- rewrite lookup_insert_ne by congruence.
           apply decide_ext. rewrite elem_of_cons. intuition congruence.
    + destruct (IH acc m) as (m' & Hrun & Hm').
      exists m'. split.
      * rewrite Hrun.
        rewrite (omap_cons_None (fun k => defaultCluster.nameToNode c !! k ≫= listed w) k ks);
          [reflexivity|]. now rewrite Hk.
      * intros j. rewrite Hm'. apply decide_ext. rewrite elem_of_cons.
        split; [intuition|]. intros [[->|Hin] Hsome]; [|intuition].
        rewrite Hk in Hsome. now destruct Hsome.
Qed.

(** Looking the names up again gives the nodes of the map. *)
Lemma omap_lookup_map_to_list {B : Type} (f : N -> option B) (m : gmap string N) :
  omap (fun k => m !! k ≫= f) (map_to_list m).*1 = omap f (map_to_list m).*2.
Proof.
  assert (Hall : forall l : list (string * N),
             (forall k nd, (k, nd) ∈ l -> m !! k = Some nd) ->
             omap (fun k => m !! k ≫= f) l.*1 = omap f l.*2).
  { induction l as [|[k nd] l IH]; intros Hl; [reflexivity|].
    cbn [fmap list_fmap fst snd].
    assert (Hk : (m !! k ≫= f) = f nd) by now rewrite (Hl k nd) by left.
    assert (IHl : omap (fun k => m !! k ≫= f) l.*1 = omap f l.*2).
    { apply IH. intros k' nd' Hin. apply Hl. now right. }
    destruct (f nd) as [b|] eqn:Hf.
    - rewrite (omap_cons_Some (fun k => m !! k ≫= f) k l.*1 b Hk).
      rewrite (omap_cons_Some f nd l.*2 b Hf). now rewrite IHl.
    - rewrite (omap_cons_None (fun k => m !! k ≫= f) k l.*1 Hk).
      now rewrite (omap_cons_None f nd l.*2 Hf). }
  apply Hall. intros k nd Hin. now apply elem_of_map_to_list.
Qed.

Lemma Endpoints_run (c : defaultCluster.t N) (ks : list string) (w : World) :
  RangeOrder ks (defaultCluster.nameToNode c) ->
  (forall k nd, defaultCluster.nameToNode c !! k = Some nd ->
                Node.Endpoint nd <> "" -> is_Some (Node.IsActive nd w)) ->
  exists endpoints,
    defaultCluster.Endpoints c ks w
    = Returns (endpoints, Node.Endpoint <$> defaultCluster.nameToNode c) w
    /\ Sorted string_le endpoints
    /\ endpoints ≡ₚ omap (listed w) (map_to_list (defaultCluster.nameToNode c)).*2.
Proof.
  intros Hks Hans. unfold defaultCluster.Endpoints, bind.
  destruct (Endpoints_range_run c w ks [] ∅ Hans) as (m' & Hrun & Hm').
  rewrite Hrun. cbn [fst snd ret app].
  assert (Hmap : m' = Node.Endpoint <$> defaultCluster.nameToNode c).
  { apply map_eq. intros j. rewrite Hm', lookup_fmap. case_decide as Hj; [reflexivity|].
    rewrite lookup_empty.
    destruct (defaultCluster.nameToNode c !! j) as [nd|] eqn:Hnd; [|reflexivity].
    exfalso. apply Hj. split; [|eauto]. apply (RangeOrder_lookup _ _ _ Hks). eauto. }
  rewrite Hmap. eexists. split; [reflexivity|]. split.
  - apply Sorted_merge_sort. apply _.
  - unfold sort_Strings. rewrite merge_sort_Permutation.
    rewrite <- omap_lookup_map_to_list. now rewrite Hks.
Qed.
End Endpoints.

(** C7, as the code has it. When the nodes with an endpoint answer,
    [Endpoints] returns (1) the endpoints of exactly those nodes that are
    active and whose endpoint is not the empty string, sorted in the
    order of [sort.Strings], and (2) a map that has, for every registered
    node, active or not, its name with its endpoint, and nothing else. *)
Theorem Endpoints_sorted_active_and_all_names :
  forall (N : Type) (H : Node.ops N) (c : defaultCluster.t N)
         (ks : list string) (w : World),
    RangeOrder ks (defaultCluster.nameToNode c) ->
    (forall k nd, defaultCluster.nameToNode c !! k = Some nd ->
                  Node.Endpoint nd <> "" -> is_Some (Node.IsActive nd w)) ->
    exists endpoints nameToEndpoint,
      defaultCluster.Endpoints c ks w = Returns (endpoints, nameToEndpoint) w
      /\ Sorted string_le endpoints
      /\ endpoints ≡ₚ omap (listed w) (map_to_list (defaultCluster.nameToNode c)).*2
      /\ dom nameToEndpoint = dom (defaultCluster.nameToNode c)
      /\ forall k nd, defaultCluster.nameToNode c !! k = Some nd ->
                      nameToEndpoint !! k = Some (Node.Endpoint nd).
Proof.
  intros N H c ks w Hks Hans.
  destruct (Endpoints_run c ks w Hks Hans) as (endpoints & Hrun & Hsorted & Hperm).
  exists endpoints, (Node.Endpoint <$> defaultCluster.nameToNode c).
  split; [exact Hrun|]. split; [exact Hsorted|]. split; [exact Hperm|]. split.
  - apply dom_fmap_L.
  - intros k nd Hk. now rewrite lookup_fmap, Hk.
Qed.

Lemma Endpoints_sorted_active_and_all_names_witness :
  exists endpoints nameToEndpoint,
    defaultCluster.Endpoints (H := NodeWebRemoteClient_ops) Ex.remote_cluster
                             ["c"; "a"; "b"] (Ex.world 1000 1)
    = Returns (endpoints, nameToEndpoint) (Ex.world 1000 1)
    /\ Sorted string_le endpoints
    /\ nameToEndpoint !! "b" = Some "10.0.0.2:2379".
Proof.
  destruct (Endpoints_sorted_active_and_all_names _ NodeWebRemoteClient_ops
              Ex.remote_cluster ["c"; "a"; "b"] (Ex.world 1000 1)
              ltac:(unfold RangeOrder; vm_compute; reflexivity)
              ltac:(intros k nd _ _; eexists; reflexivity))
    as (endpoints & nameToEndpoint & Hrun & Hsorted & _ & _ & Hnames).
  exists endpoints, nameToEndpoint. split; [exact Hrun|]. split; [exact Hsorted|].
  apply (Hnames "b" (Ex.remote "b" "10.0.0.2:2379" false)). reflexivity.
Defined.

(** C7 fails on an active node without an endpoint: the node answers that
    it is active, so the endpoints of the active nodes are one (empty)
    string, and the list that [Endpoints] returns has no entry. *)
Lemma Endpoints_leaves_out_active_node_without_endpoint :
  omap (endpoints_of_active (H := NodeWebRemoteClient_ops) (Ex.world 1000 1))
       (map_to_list (defaultCluster.nameToNode Ex.mute_cluster)).*2 = [""]
  /\ defaultCluster.Endpoints (H := NodeWebRemoteClient_ops) Ex.mute_cluster ["a"]
                              (Ex.world 1000 1)
     = Returns ([], <["a" := ""]> ∅) (Ex.world 1000 1).
Proof.
  split; reflexivity.
Qed.

(** ** Status *)

Lemma scan_members_keeps name mbs stat :
  st_Name (scan_members name mbs stat) = st_Name stat
  /\ st_Endpoint (scan_members name mbs stat) = st_Endpoint stat.
Proof.
  induction mbs as [|mb mbs IH]; cbn [scan_members]; [now split|].
  destruct (String.eqb (mb_Name mb) name); [now split | exact IH].
Qed.

Lemma scan_metrics_keeps lines stat :
  st_Name (scan_metrics lines stat) = st_Name stat
  /\ st_Endpoint (scan_metrics lines stat) = st_Endpoint stat.
Proof.
  induction lines as [|l lines IH]; cbn [scan_metrics]; [now split|].
  destruct (HasPrefix_hash (ln_txt l)); [exact IH|].
  destruct (String.eqb _ _); [now split | exact IH].
Qed.

(** A status that a probe sends carries the name and the endpoint the
    probe was started with. *)
Lemma getStatus_keeps name grpcEndpoint v2Endpoint p s :
  getStatus name grpcEndpoint v2Endpoint p = inl s ->
  st_Name s = name /\ st_Endpoint s = grpcEndpoint.
Proof.
  unfold getStatus.
  destruct (pr_dial p); [discriminate|].
  destruct (pr_members p) as [| |mbs]; try discriminate.
  destruct (pr_hash p) as [| |h]; try discriminate.
  destruct (pr_metrics p) as [| |lines]; try discriminate.
  intros [= <-].
  destruct (scan_metrics_keeps lines
              (mkStatus (st_Name (scan_members name mbs (statOf name grpcEndpoint)))
                 (st_ID (scan_members name mbs (statOf name grpcEndpoint)))
                 (st_Endpoint (scan_members name mbs (statOf name grpcEndpoint)))
                 (st_State (scan_members name mbs (statOf name grpcEndpoint)))
                 (st_NumberOfKeys (scan_members name mbs (statOf name grpcEndpoint))) h))
    as [-> ->].
  cbn [st_Name st_Endpoint].
  destruct (scan_members_keeps name mbs (statOf name grpcEndpoint)) as [-> ->].
  now split.
Qed.

Section Status.
Context {N : Type} `{Node.ops N}.

(** The receiving loop, when every probe sends once. *)
Lemma Status_receive_run (total : nat) (signal : string -> ServerStatus + error)
    (w : World) (arrival : list string) :
  (forall k s, k ∈ arrival -> signal k = inl s -> st_Name s = k) ->
  NoDup arrival ->
  forall (pending : gset string) (cn : nat) (m : gmap string ServerStatus)
         (err : option error),
    (forall k, k ∈ arrival -> k ∈ pending) ->
    (cn + length arrival = total)%nat ->
    exists m' err',
      defaultCluster.Status_receive total signal arrival pending cn m err w
      = Returns (m', err') w
      /\ (forall j s, j ∈ arrival -> signal j = inl s -> m' !! j = Some s)
      /\ (forall j, j ∉ arrival \/ (exists e, signal j = inr e) -> m' !! j = m !! j)
      /\ err' = match last (omap (fun k => match signal k with
                                           | inr e => Some e
                                           | inl _ => None
                                           end) arrival) with
                | Some e => Some e
                | None => err
                end.
Proof.
  intros Hname Hnodup. induction Hnodup as [|k rest Hk Hnodup IH];
    intros pending cn m err Hpending Hcount; cbn [defaultCluster.Status_receive].
  - cbn [length] in Hcount. rewrite Nat.add_0_r in Hcount. subst cn.
    rewrite Nat.eqb_refl. exists m, err. split; [reflexivity|]. split; [|split].
    + intros j s Hj. now apply elem_of_nil in Hj.
    + reflexivity.
    + reflexivity.
  - cbn [length] in Hcount.
    destruct (Nat.eqb_spec cn total) as [Heq|_]; [lia|].
    rewrite decide_True by (apply Hpending; left).
    assert (Hname' : forall k' s, k' ∈ rest -> signal k' = inl s -> st_Name s = k').
    { intros k' s Hin. apply Hname. now right. }
    assert (Hpending' : forall k', k' ∈ rest -> k' ∈ pending ∖ {[k]}).
    { intros k' Hin. apply elem_of_difference. split; [apply Hpending; now right|].
      rewrite elem_of_singleton. intros ->. contradiction. }
    destruct (signal k) as [s|e] eqn:Hsig.
    + assert (Hs : st_Name s = k) by (apply Hname; [left | exact Hsig]).
      destruct (IH Hname' (pending ∖ {[k]}) (S cn) (<[st_Name s := s]> m) err Hpending'
                   ltac:(lia)) as (m' & err' & Hrun & Hin & Hout & Herr).
      exists m', err'. split; [exact Hrun|]. split; [|split].
      * intros j s' Hj Hsigj. apply elem_of_cons in Hj as [->|Hj].
        -- assert (s' = s) by congruence. subst s'.
           rewrite Hout by now left. rewrite Hs. apply lookup_insert_eq.
        -- now apply Hin.
      * intros j Hj. rewrite Hout.
        -- rewrite Hs. apply lookup_insert_ne. intros ->.
           destruct Hj as [Hj|[e He]]; [apply Hj; left | congruence].
        -- destruct Hj as [Hj|Hj]; [left|now right]. intros Hin'. apply Hj. now right.
      * rewrite Herr. rewrite (omap_cons_None _ k rest); [reflexivity|]. now rewrite Hsig.
    + destruct (IH Hname' (pending ∖ {[k]}) (S cn) m (Some e) Hpending' ltac:(lia))
        as (m' & err' & Hrun & Hin & Hout & Herr).
      exists m', err'. split; [exact Hrun|]. split; [|split].
      * intros j s' Hj Hsigj. apply elem_of_cons in Hj as [->|Hj]; [congruence|].
        now apply Hin.
      * intros j Hj. apply Hout. destruct Hj as [Hj|Hj]; [left|now right].
        intros Hin'. apply Hj. now right.
      * rewrite Herr. rewrite (omap_cons_Some _ k rest e) by now rewrite Hsig.
        rewrite last_cons. now destruct (last _).
Qed.
End Status.

Lemma omap_ext_elem {A B : Type} (f g : A -> option B) (l : list A) :
  (forall x, x ∈ l -> f x = g x) -> omap f l = omap g l.
Proof.
  induction l as [|x l IH]; intros Hfg; [reflexivity|].
  assert (Hl : omap f l = omap g l).
  { apply IH. intros y Hy. apply Hfg. now right. }
  destruct (g x) as [b|] eqn:Hg.
  - rewrite (omap_cons_Some g x l b Hg).
    rewrite (omap_cons_Some f x l b) by (rewrite Hfg; [exact Hg | left]).
    now rewrite Hl.
  - rewrite (omap_cons_None g x l Hg).
    rewrite (omap_cons_None f x l) by (rewrite Hfg; [exact Hg | left]).
    exact Hl.
Qed.

(** C2. When the nodes with an endpoint answer and every probe sends its
    one signal, [Status] returns, whatever the probes send: the map has
    exactly the registered names; the entry of a node whose probe sent a
    status is that status, which carries the name and the endpoint of the
    node; the entry of a node whose probe sent an error is the
    placeholder with the name and the endpoint of the node, identifier
    ["unknown"], state ["unreachable"] and zero counts; and the error
    returned with the map is the last error received, nil when no probe
    sent one. *)
Theorem Status_has_one_entry_per_node :
  forall (N : Type) (H : Node.ops N) (c : defaultCluster.t N) (ks : list string)
         (probes : string -> Probe) (arrival : list string) (w : World),
    RangeOrder ks (defaultCluster.nameToNode c) ->
    RangeOrder arrival (defaultCluster.nameToNode c) ->
    (forall k nd, defaultCluster.nameToNode c !! k = Some nd ->
                  Node.Endpoint nd <> "" -> is_Some (Node.IsActive nd w)) ->
    exists nameToStatus err,
      defaultCluster.Status c ks probes arrival w = Returns (nameToStatus, err) w
      /\ dom nameToStatus = dom (defaultCluster.nameToNode c)
      /\ (forall k nd,
             defaultCluster.nameToNode c !! k = Some nd ->
             match probe_sends probes k nd with
             | inl s => nameToStatus !! k = Some s
                        /\ st_Name s = k /\ st_Endpoint s = Node.Endpoint nd
             | inr _ => nameToStatus !! k
                        = Some (mkStatus k "unknown" (Node.Endpoint nd) "unreachable" 0 0)
             end)
      /\ err = last (omap (probe_error probes (defaultCluster.nameToNode c)) arrival).
Proof.
  intros N H c ks probes arrival w Hks Harr Hans.
  destruct (Endpoints_run c ks w Hks Hans) as (endpoints & Hrun & _ & _).
  unfold defaultCluster.Status. unfold bind at 1. rewrite Hrun. cbn [snd].
  set (nodes := defaultCluster.nameToNode c) in *.
  set (signal := fun name : string =>
         getStatus name (default "" ((Node.Endpoint <$> nodes) !! name))
                   (default "" ((Node.StatusEndpoint <$> nodes) !! name)) (probes name)).
  assert (Hsignal : forall k nd, nodes !! k = Some nd -> signal k = probe_sends probes k nd).
  { intros k nd Hk. unfold signal, probe_sends. now rewrite !lookup_fmap, Hk. }
  assert (Hreg : forall k, k ∈ arrival -> is_Some (nodes !! k)).
  { intros k. apply (RangeOrder_lookup _ _ _ Harr). }
  destruct (Status_receive_run (size (Node.Endpoint <$> nodes)) signal w arrival)
    with (pending := dom (Node.Endpoint <$> nodes)) (cn := 0%nat)
         (m := (∅ : gmap string ServerStatus)) (err := (None : option error))
    as (m' & err' & Hrecv & Hin & Hout & Herr).
  { intros k s Hk Hs. destruct (Hreg k Hk) as [nd Hnd].
    rewrite (Hsignal k nd Hnd) in Hs. now apply getStatus_keeps in Hs. }
  { apply (RangeOrder_NoDup _ _ Harr). }
  { intros k Hk. rewrite dom_fmap_L. apply elem_of_dom. now apply Hreg. }
  { rewrite map_size_fmap. cbn [Nat.add]. unfold RangeOrder in Harr.
    rewrite (Permutation_length Harr), length_fmap. apply length_map_to_list. }
  unfold bind. rewrite Hrecv. cbn [fst snd ret].
  assert (Hentry : forall k nd,
             nodes !! k = Some nd ->
             defaultCluster.Status_fill (Node.Endpoint <$> nodes) m' !! k
             = Some match probe_sends probes k nd with
                    | inl s => s
                    | inr _ => statOf k (Node.Endpoint nd)
                    end).
  { intros k nd Hk. unfold defaultCluster.Status_fill.
    assert (Hkin : k ∈ arrival) by (apply (RangeOrder_lookup _ _ _ Harr); eauto).
    destruct (probe_sends probes k nd) as [s|e] eqn:Hsends.
    - apply lookup_union_Some_l. apply Hin; [exact Hkin|].
      now rewrite (Hsignal k nd Hk).
    - rewrite lookup_union_r.
      + rewrite map_lookup_imap, lookup_fmap, Hk. reflexivity.
      + rewrite Hout; [apply lookup_empty|]. right. exists e.
        now rewrite (Hsignal k nd Hk). }
  do 2 eexists. split; [reflexivity|]. split; [|split].
  - apply set_eq. intros j. rewrite !elem_of_dom.
    destruct (nodes !! j) as [nd|] eqn:Hj.
    + rewrite (Hentry j nd Hj). split; eauto.
    + unfold defaultCluster.Status_fill.
      rewrite lookup_union_r.
      * rewrite map_lookup_imap, lookup_fmap, Hj. cbn.
        split; intros [x Hx]; discriminate.
      * rewrite Hout; [apply lookup_empty|]. left. intros Hjin.
        apply Hreg in Hjin. rewrite Hj in Hjin. now destruct Hjin.
  - intros k nd Hk. specialize (Hentry k nd Hk).
    destruct (probe_sends probes k nd) as [s|e] eqn:Hsends.
    + split; [exact Hentry|]. unfold probe_sends in Hsends.
      now apply getStatus_keeps in Hsends.
    + exact Hentry.
  - rewrite Herr.
    rewrite (omap_ext_elem _ (probe_error probes nodes) arrival).
    + destruct (last (omap (probe_error probes nodes) arrival)); reflexivity.
    + intros k Hk. destruct (Hreg k Hk) as [nd Hnd].
      unfold probe_error. rewrite Hnd. cbn [mbind option_bind].
      now rewrite (Hsignal k nd Hnd).
Qed.

(** Of three probes, one answers and two fail; the one that fails last
    ran into the timer. *)
Lemma Status_has_one_entry_per_node_witness :
  exists nameToStatus err,
    defaultCluster.Status (H := NodeWebRemoteClient_ops) Ex.remote_cluster
                          ["c"; "a"; "b"] Ex.probes ["b"; "a"; "c"] (Ex.world 1000 1)
    = Returns (nameToStatus, err) (Ex.world 1000 1)
    /\ dom nameToStatus = dom (defaultCluster.nameToNode Ex.remote_cluster)
    /\ nameToStatus !! "a" = Some (mkStatus "a" "1" "10.0.0.1:2379" "Leader" 7 42)
    /\ nameToStatus !! "b"
       = Some (mkStatus "b" "unknown" "10.0.0.2:2379" "unreachable" 0 0)
    /\ err = Some ErrTimedOut.
Proof.
  destruct (Status_has_one_entry_per_node _ NodeWebRemoteClient_ops
              Ex.remote_cluster ["c"; "a"; "b"] Ex.probes ["b"; "a"; "c"]
              (Ex.world 1000 1)
              ltac:(unfold RangeOrder; vm_compute; reflexivity)
              ltac:(unfold RangeOrder; apply (bool_decide_unpack _); vm_compute; exact I)
              ltac:(intros k nd _ _; eexists; reflexivity))
    as (nameToStatus & err & Hrun & Hdom & Hentry & Herr).
  exists nameToStatus, err. split; [exact Hrun|]. split; [exact Hdom|].
  split; [|split].
  - exact (proj1 (Hentry "a" (Ex.remote "a" "10.0.0.1:2379" true) eq_refl)).
  - exact (Hentry "b" (Ex.remote "b" "10.0.0.2:2379" false) eq_refl).
  - rewrite Herr. reflexivity.
Defined.

(** ** Shutdown *)

Lemma advance_done (n : nat) : advance n WorkerDone = WorkerDone.
Proof. induction n as [|n IH]; [reflexivity | exact IH]. Qed.

Lemma advance_two (n : nat) : (2 <= n)%nat -> advance n AtTerminate = WorkerDone.
Proof.
  intros Hn. destruct n as [|[|n]]; [lia | lia |]. cbn [advance next_pc].
  apply advance_done.
Qed.

Lemma advance_finished (n : nat) : advance n AtTerminate = WorkerDone -> (2 <= n)%nat.
Proof. destruct n as [|[|n]]; [discriminate | discriminate | lia]. Qed.

Lemma steps_of_cons (k name : string) (sched : list string) :
  steps_of k (name :: sched)
  = ((if decide (name = k) then 1 else 0) + steps_of k sched)%nat.
Proof.
  unfold steps_of. rewrite filter_cons. now destruct (decide (name = k)).
Qed.

Lemma complete_schedule_lookup {V : Type} (sched : list string) (m : gmap string V) :
  complete_schedule sched m <->
  forall k, is_Some (m !! k) -> (2 <= steps_of k sched)%nat.
Proof.
  unfold complete_schedule. rewrite Forall_forall. split.
  - intros Hall k [v Hk]. apply Hall. apply list_elem_of_fmap.
    exists (k, v). split; [reflexivity|]. now apply elem_of_map_to_list.
  - intros Hall k Hk. apply list_elem_of_fmap in Hk as ([k' v] & -> & Hin).
    apply Hall. exists v. now apply elem_of_map_to_list.
Qed.

Section Shutdown.
Context {N : Type} `{Node.ops N}.

(** A [Terminate] that fails is logged, and the worker goes on to
    [Clean]. *)
Lemma worker_step_Terminate (name : string) (pcs : gmap string WorkerPC)
    (c : defaultCluster.t N) (w w1 : World) (nd nd' : N) (r : option error) :
  pcs !! name = Some AtTerminate ->
  defaultCluster.nameToNode c !! name = Some nd ->
  Node.Terminate nd w = Returns (r, nd') w1 ->
  defaultCluster.worker_step name pcs c w
  = Returns (<[name := AtClean]> pcs, defaultCluster.set_node name nd' c)
            (match r with
             | Some err => set_logged (logged w1 ++ [LogTerminate name err]) w1
             | None => w1
             end).
Proof.
  intros Hpc Hnd Hrun. unfold defaultCluster.worker_step. rewrite Hpc, Hnd.
  unfold bind at 1. rewrite Hrun. cbn [fst snd]. now destruct r.
Qed.

(** A [Clean] that fails is logged, and the worker is done. *)
Lemma worker_step_Clean (name : string) (pcs : gmap string WorkerPC)
    (c : defaultCluster.t N) (w w1 : World) (nd nd' : N) (r : option error) :
  pcs !! name = Some AtClean ->
  defaultCluster.nameToNode c !! name = Some nd ->
  Node.Clean nd w = Returns (r, nd') w1 ->
  defaultCluster.worker_step name pcs c w
  = Returns (<[name := WorkerDone]> pcs, defaultCluster.set_node name nd' c)
            (match r with
             | Some err => set_logged (logged w1 ++ [LogClean name err]) w1
             | None => w1
             end).
Proof.
  intros Hpc Hnd Hrun. unfold defaultCluster.worker_step. rewrite Hpc, Hnd.
  unfold bind at 1. rewrite Hrun. cbn [fst snd]. now destruct r.
Qed.

(** A step moves the worker it is given to, and no other; the names stay. *)
Lemma worker_step_pcs (name : string) (pcs : gmap string WorkerPC)
    (c : defaultCluster.t N) (w : World) r w' :
  dom pcs = dom (defaultCluster.nameToNode c) ->
  defaultCluster.worker_step name pcs c w = Returns r w' ->
  (forall k, r.1 !! k = (if decide (name = k) then next_pc else id) <$> pcs !! k)
  /\ dom r.1 = dom (defaultCluster.nameToNode r.2).
Proof.
  intros Hdom. unfold defaultCluster.worker_step.
  assert (Hmove : forall pc pc' nd',
             pcs !! name = Some pc -> next_pc pc = pc' ->
             (forall k, <[name := pc']> pcs !! k
                        = (if decide (name = k) then next_pc else id) <$> pcs !! k)
             /\ dom (<[name := pc']> pcs)
                = dom (defaultCluster.nameToNode (defaultCluster.set_node name nd' c))).
  { intros pc pc' nd' Hpc Hnext. split.
    - intros k. destruct (decide (name = k)) as [<-|Hne].
      + rewrite lookup_insert_eq, Hpc. cbn. now rewrite Hnext.
      + rewrite lookup_insert_ne by exact Hne. now rewrite option_fmap_id.
    - cbn [defaultCluster.set_node defaultCluster.nameToNode].
      rewrite !dom_insert_L, Hdom. reflexivity. }
  destruct (pcs !! name) as [pc|] eqn:Hpc.
  - destruct (defaultCluster.nameToNode c !! name) as [nd|] eqn:Hnd.
    + destruct pc.
      * unfold bind at 1. destruct (Node.Terminate nd w) as [r1 w1|]; [|blocked].
        unfold bind, ret, log_Printf. destruct r1.1; intros [= <- <-];
          now apply (Hmove AtTerminate).
      * unfold bind at 1. destruct (Node.Clean nd w) as [r1 w1|]; [|blocked].
        unfold bind, ret, log_Printf. destruct r1.1; intros [= <- <-];
          now apply (Hmove AtClean).
      * intros [= <- <-]. split; [|exact Hdom].
        intros k. cbn [fst]. destruct (decide (name = k)) as [<-|Hne].
        -- now rewrite Hpc.
        -- now rewrite option_fmap_id.
    + exfalso. apply elem_of_dom_2 in Hpc. rewrite Hdom in Hpc.
      apply elem_of_dom in Hpc. rewrite Hnd in Hpc. now destruct Hpc.
  - assert (Hret : forall r0 w0,
               Returns (pcs, c) w = Returns r0 w0 ->
               (forall k, r0.1 !! k = (if decide (name = k) then next_pc else id) <$> pcs !! k)
               /\ dom r0.1 = dom (defaultCluster.nameToNode r0.2)).
    { intros r0 w0 [= <- <-]. split; [|exact Hdom].
      intros k. cbn [fst]. destruct (decide (name = k)) as [<-|Hne].
      - now rewrite Hpc.
      - now rewrite option_fmap_id. }
    destruct (defaultCluster.nameToNode c !! name); apply Hret.
Qed.

(** After the schedule, every worker has advanced by as many steps as the
    schedule gave it. *)
Lemma run_workers_pcs (sched : list string) (pcs : gmap string WorkerPC)
    (c : defaultCluster.t N) (w : World) r w' :
  dom pcs = dom (defaultCluster.nameToNode c) ->
  defaultCluster.run_workers sched pcs c w = Returns r w' ->
  forall k, r.1 !! k = advance (steps_of k sched) <$> pcs !! k.
Proof.
  revert pcs c w. induction sched as [|name sched IH]; intros pcs c w Hdom;
    cbn [defaultCluster.run_workers].
  - intros [= <- <-] k. cbn. now rewrite option_fmap_id.
  - unfold bind at 1.
    destruct (defaultCluster.worker_step name pcs c w) as [r1 w1|] eqn:Hstep;
      [|blocked].
    destruct (worker_step_pcs _ _ _ _ _ _ Hdom Hstep) as [Hpcs Hdom1].
    intros Hrest k. rewrite (IH _ _ _ Hdom1 Hrest k), Hpcs, steps_of_cons.
    destruct (pcs !! k) as [pc|]; [|reflexivity]. cbn.
    now destruct (decide (name = k)).
Qed.

(** A schedule for workers that are done changes nothing. *)
Lemma workers_ran_idle (sched : list string) (pcs : gmap string WorkerPC)
    (c : defaultCluster.t N) (w : World) :
  (forall k, k ∈ sched -> pcs !! k = Some WorkerDone \/ pcs !! k = None) ->
  workers_ran sched pcs c w pcs c w.
Proof.
  induction sched as [|name sched IH]; intros Hidle; [constructor|].
  apply ran_idle.
  - apply Hidle. now left.
  - apply IH. intros k Hk. apply Hidle. now right.
Qed.

(** What [run_workers] computes is a run of the workers. *)
Lemma run_workers_ran (sched : list string) (pcs : gmap string WorkerPC)
    (c : defaultCluster.t N) (w : World) r w' :
  dom pcs = dom (defaultCluster.nameToNode c) ->
  defaultCluster.run_workers sched pcs c w = Returns r w' ->
  workers_ran sched pcs c w r.1 r.2 w'.
Proof.
  revert pcs c w. induction sched as [|name sched IH]; intros pcs c w Hdom;
    cbn [defaultCluster.run_workers].
  - intros [= <- <-]. constructor.
  - unfold bind at 1.
    destruct (defaultCluster.worker_step name pcs c w) as [r1 w1|] eqn:Hstep;
      [|blocked].
    destruct (worker_step_pcs _ _ _ _ _ _ Hdom Hstep) as [_ Hdom1].
    intros Hrest. apply (IH _ _ _ Hdom1) in Hrest.
    unfold defaultCluster.worker_step in Hstep.
    destruct (pcs !! name) as [pc|] eqn:Hpc.
    + destruct (defaultCluster.nameToNode c !! name) as [nd|] eqn:Hnd.
      * destruct pc.
        -- unfold bind at 1 in Hstep.
           destruct (Node.Terminate nd w) as [[rt nd'] w2|] eqn:Hcall; [|discriminate].
           apply (ran_Terminate name sched pcs c w nd rt nd' w2); try assumption.
           cbn [fst snd] in Hstep. unfold bind, ret, log_Printf in Hstep.
           destruct rt; injection Hstep as <- <-; exact Hrest.
        -- unfold bind at 1 in Hstep.
           destruct (Node.Clean nd w) as [[rc nd'] w2|] eqn:Hcall; [|discriminate].
           apply (ran_Clean name sched pcs c w nd rc nd' w2); try assumption.
           cbn [fst snd] in Hstep. unfold bind, ret, log_Printf in Hstep.
           destruct rc; injection Hstep as <- <-; exact Hrest.
        -- injection Hstep as <- <-. apply ran_idle; [now left | exact Hrest].
      * exfalso. apply elem_of_dom_2 in Hpc. rewrite Hdom in Hpc.
        apply elem_of_dom in Hpc. rewrite Hnd in Hpc. now destruct Hpc.
    + assert (Hsame : r1 = (pcs, c) /\ w1 = w).
      { destruct (defaultCluster.nameToNode c !! name); now injection Hstep as <- <-. }
      destruct Hsame as [-> ->]. apply ran_idle; [now right | exact Hrest].
Qed.

Lemma worker_step_returns (name : string) (pcs : gmap string WorkerPC)
    (c : defaultCluster.t N) (w : World) :
  (forall nd, returns_free (Node.Terminate nd)) ->
  (forall nd, returns_free (Node.Clean nd)) ->
  mu w = false ->
  exists r w', defaultCluster.worker_step name pcs c w = Returns r w' /\ mu w' = false.
Proof.
  intros HT HC Hmu. unfold defaultCluster.worker_step.
  destruct (pcs !! name) as [[| |]|];
    destruct (defaultCluster.nameToNode c !! name) as [nd|]; eauto.
  - destruct (HT nd w Hmu) as ([r nd'] & w1 & Hrun & Hmu1).
    unfold bind at 1. rewrite Hrun. unfold bind, ret, log_Printf.
    destruct r; cbn; eauto.
  - destruct (HC nd w Hmu) as ([r nd'] & w1 & Hrun & Hmu1).
    unfold bind at 1. rewrite Hrun. unfold bind, ret, log_Printf.
    destruct r; cbn; eauto.
Qed.

Lemma run_workers_returns (sched : list string) (pcs : gmap string WorkerPC)
    (c : defaultCluster.t N) (w : World) :
  (forall nd, returns_free (Node.Terminate nd)) ->
  (forall nd, returns_free (Node.Clean nd)) ->
  mu w = false ->
  exists r w', defaultCluster.run_workers sched pcs c w = Returns r w' /\ mu w' = false.
Proof.
  intros HT HC. revert pcs c w.
  induction sched as [|name sched IH]; intros pcs c w Hmu;
    cbn [defaultCluster.run_workers].
  - eauto.
  - destruct (worker_step_returns name pcs c w HT HC Hmu) as (r1 & w1 & Hstep & Hmu1).
    unfold bind at 1. rewrite Hstep. now apply IH.
Qed.
End Shutdown.

(** C5. Whenever [Shutdown] returns, it returns nil, the worker of every
    registered node has taken both its steps, and the cluster and the
    world are as the workers left them: each worker has called
    [Terminate] on its node and then [Clean] on the node as [Terminate]
    left it, and after each of the two calls that returned an error it
    has written one line with the name and the error to the log; the
    error went nowhere else. And [Shutdown] does return, once the
    schedule has let every worker take its two steps, provided
    [Terminate] and [Clean] of the nodes return when the mutex of the
    cluster is free and leave it free: whether these calls succeed or
    fail makes no difference. *)
Theorem Shutdown_waits_for_all_and_returns_nil :
  forall (N : Type) (H : Node.ops N) (c : defaultCluster.t N)
         (sched : list string) (w : World),
    (forall r c' w',
        defaultCluster.Shutdown c sched w = Returns (r, c') w' ->
        r = None
        /\ complete_schedule sched (defaultCluster.nameToNode c)
        /\ exists pcs',
             workers_ran sched ((fun _ => AtTerminate) <$> defaultCluster.nameToNode c) c w
                         pcs' c' w'
             /\ forall k, is_Some (defaultCluster.nameToNode c !! k) ->
                          pcs' !! k = Some WorkerDone)
    /\
    ((forall nd, returns_free (Node.Terminate nd)) ->
     (forall nd, returns_free (Node.Clean nd)) ->
     mu w = false ->
     complete_schedule sched (defaultCluster.nameToNode c) ->
     exists pcs' c' w',
       defaultCluster.Shutdown c sched w = Returns (None, c') w'
       /\ mu w' = false
       /\ workers_ran sched ((fun _ => AtTerminate) <$> defaultCluster.nameToNode c) c w
                      pcs' c' w').
Proof.
  intros N H c sched w.
  assert (Hdom0 : dom ((fun _ : N => AtTerminate) <$> defaultCluster.nameToNode c)
                  = dom (defaultCluster.nameToNode c)) by apply dom_fmap_L.
  assert (Hret : forall r c' w',
             defaultCluster.Shutdown c sched w = Returns (r, c') w' ->
             r = None
             /\ complete_schedule sched (defaultCluster.nameToNode c)
             /\ exists pcs',
                  workers_ran sched ((fun _ => AtTerminate) <$> defaultCluster.nameToNode c)
                              c w pcs' c' w'
                  /\ forall k, is_Some (defaultCluster.nameToNode c !! k) ->
                               pcs' !! k = Some WorkerDone).
  { intros r c' w'. unfold defaultCluster.Shutdown.
    destruct (Nat.eqb_spec (size (defaultCluster.nameToNode c)) 0) as [Hempty|_].
    - intros [= <- <- <-]. split; [reflexivity|].
      apply map_size_empty_iff in Hempty. split.
      + unfold complete_schedule. rewrite Hempty, map_to_list_empty. constructor.
      + exists ∅. rewrite Hempty, fmap_empty. split.
        * apply workers_ran_idle. intros k _. right. apply lookup_empty.
        * intros k [nd Hk]. now rewrite lookup_empty in Hk.
    - unfold bind at 1.
      destruct (defaultCluster.run_workers sched _ c w) as [r1 w1|] eqn:Hrun; [|blocked].
      unfold bind, defaultCluster.wg_Wait, ret.
      destruct (defaultCluster.all_done r1.1) eqn:Hdone; [|blocked].
      intros [= <- <- <-]. split; [reflexivity|].
      apply bool_decide_eq_true_1 in Hdone.
      assert (Hk : forall k nd, defaultCluster.nameToNode c !! k = Some nd ->
                                r1.1 !! k = Some (advance (steps_of k sched) AtTerminate)).
      { intros k nd Hk. rewrite (run_workers_pcs _ _ _ _ _ _ Hdom0 Hrun k).
        now rewrite lookup_fmap, Hk. }
      split.
      + apply complete_schedule_lookup. intros k [nd Hnd].
        apply advance_finished. apply (Hdone k). now apply (Hk k nd).
      + exists r1.1. split; [now apply run_workers_ran|].
        intros k [nd Hnd]. rewrite (Hk k nd Hnd). f_equal.
        apply (Hdone k). now apply (Hk k nd). }
  split; [exact Hret|].
  intros HT HC Hmu Hsched.
  assert (Hrun : exists c' w', defaultCluster.Shutdown c sched w = Returns (None, c') w'
                               /\ mu w' = false).
  { unfold defaultCluster.Shutdown.
    destruct (size (defaultCluster.nameToNode c) =? 0)%nat; [now eauto|].
    destruct (run_workers_returns sched
                ((fun _ : N => AtTerminate) <$> defaultCluster.nameToNode c) c w HT HC Hmu)
      as (r1 & w1 & Hrun & Hmu1).
    unfold bind at 1. rewrite Hrun. unfold bind, defaultCluster.wg_Wait, ret.
    assert (Hdone : defaultCluster.all_done r1.1 = true).
    { apply bool_decide_eq_true_2. intros k pc.
      rewrite (run_workers_pcs _ _ _ _ _ _ Hdom0 Hrun k), lookup_fmap.
      destruct (defaultCluster.nameToNode c !! k) as [nd|] eqn:Hk; [|discriminate].
      cbn. intros [= <-]. apply advance_two.
      apply (proj1 (complete_schedule_lookup _ _) Hsched). eauto. }
    rewrite Hdone. eauto. }
  destruct Hrun as (c' & w' & Hrun & Hmu').
  destruct (Hret _ _ _ Hrun) as (_ & _ & pcs' & Hran & _).
  exists pcs', c', w'. split; [exact Hrun|]. split; [exact Hmu' | exact Hran].
Qed.

(** [Terminate] and [Clean] of both variants return when the mutex is free
    and leave it free. *)
Lemma NodeWebLocal_Terminate_returns_free (nd : NodeWebLocal.t) :
  returns_free (NodeWebLocal.Terminate nd).
Proof.
  intros w Hmu. unfold NodeWebLocal.Terminate. open_world w.
  repeat match goal with
         | |- context [if ?b then _ else _] => destruct b; simpl
         | |- context [match ?x with _ => _ end] => destruct x; simpl
         end; do 2 eexists; split; reflexivity.
Qed.

Lemma NodeWebLocal_Clean_returns_free (nd : NodeWebLocal.t) :
  returns_free (NodeWebLocal.Clean nd).
Proof.
  intros w Hmu. unfold NodeWebLocal.Clean. open_world w.
  repeat match goal with
         | |- context [if ?b then _ else _] => destruct b; simpl
         | |- context [match ?x with _ => _ end] => destruct x; simpl
         end; do 2 eexists; split; reflexivity.
Qed.

Lemma NodeWebRemoteClient_Terminate_returns_free (nd : NodeWebRemoteClient.t) :
  returns_free (NodeWebRemoteClient.Terminate nd).
Proof.
  intros w Hmu. unfold NodeWebRemoteClient.Terminate. unfold_M.
  destruct (NodeWebRemoteClient.active nd); simpl; [|eauto].
  destruct (sys_err w _); simpl; eauto.
Qed.

Lemma NodeWebRemoteClient_Clean_returns_free (nd : NodeWebRemoteClient.t) :
  returns_free (NodeWebRemoteClient.Clean nd).
Proof.
  intros w Hmu. unfold NodeWebRemoteClient.Clean. unfold_M.
  destruct (sys_err w _); simpl; eauto.
Qed.

(** Three remote nodes whose agents refuse every call, [b] not running:
    [Shutdown] returns nil, and the log has the two failures of each
    worker, in the order of the schedule. *)
Lemma Shutdown_waits_for_all_and_returns_nil_witness :
  exists c' w',
    defaultCluster.Shutdown (H := NodeWebRemoteClient_ops) Ex.remote_cluster
                            ["a"; "b"; "c"; "c"; "b"; "a"] Ex.failing_world
    = Returns (None, c') w'
    /\ mu w' = false
    /\ logged w'
       = [LogTerminate "a" (ErrExternal "refused");
          LogTerminate "b" (ErrTerminated "b");
          LogTerminate "c" (ErrExternal "refused");
          LogClean "c" (ErrExternal "refused");
          LogClean "b" (ErrExternal "refused");
          LogClean "a" (ErrExternal "refused")].
Proof.
  destruct (proj2 (Shutdown_waits_for_all_and_returns_nil _ NodeWebRemoteClient_ops
                     Ex.remote_cluster ["a"; "b"; "c"; "c"; "b"; "a"] Ex.failing_world))
    as (pcs' & c' & w' & Hrun & Hmu & _).
  - exact NodeWebRemoteClient_Terminate_returns_free.
  - exact NodeWebRemoteClient_Clean_returns_free.
  - reflexivity.
  - unfold complete_schedule. vm_compute. repeat constructor.
  - exists c', w'. split; [exact Hrun|]. split; [exact Hmu|].
    assert (Hlog : answer (let* _ := defaultCluster.Shutdown (H := NodeWebRemoteClient_ops)
                                       Ex.remote_cluster ["a"; "b"; "c"; "c"; "b"; "a"] in
                           fun w => Returns (logged w) w) Ex.failing_world
                   = Some [LogTerminate "a" (ErrExternal "refused");
                           LogTerminate "b" (ErrTerminated "b");
                           LogTerminate "c" (ErrExternal "refused");
                           LogClean "c" (ErrExternal "refused");
                           LogClean "b" (ErrExternal "refused");
                           LogClean "a" (ErrExternal "refused")])
      by (vm_compute; reflexivity).
    unfold answer, bind in Hlog. rewrite Hrun in Hlog. now injection Hlog.
Defined.

(** Two local nodes whose [Terminate] comes too soon after their start (so
    it fails) and whose [Clean] then finds them running (so it fails):
    [Shutdown] returns success. *)
Example Shutdown_of_local_nodes_returns_nil :
  exists c' w',
    defaultCluster.Shutdown (H := NodeWebLocal_ops Ex.endpoint) Ex.local_cluster
                            ["a"; "b"; "b"; "a"] (Ex.world 1000 1)
    = Returns (None, c') w'
    /\ mu w' = false.
Proof. vm_compute. do 2 eexists. split; reflexivity. Qed.

(** The four failures of that run, as the log has them. *)
Example Shutdown_logs_the_failures :
  exists c' w',
    defaultCluster.Shutdown (H := NodeWebLocal_ops Ex.endpoint) Ex.local_cluster
                            ["a"; "b"; "b"; "a"] (Ex.world 1000 1)
    = Returns (None, c') w'
    /\ logged w'
       = [LogTerminate "a" (ErrTerminatedSameNode 1000 Ex.ms100);
          LogTerminate "b" (ErrTerminatedSameNode 1001 Ex.ms100);
          LogClean "b" (ErrAlreadyRunning "b");
          LogClean "a" (ErrAlreadyRunning "a")].
Proof.
  vm_compute. do 2 eexists. split; reflexivity.
Qed.

(** ** Runs of the examples *)

(** The scenario of the specification on one local node with a cool-down
    of 100ms: started, then terminated; a restart 999ns after that is
    refused as too soon; a restart 150ms later succeeds and leaves the
    node active, with the time of this restart recorded. *)
Example terminate_then_restart_too_soon_then_later :
  Ex.run_local [MStart; MTerminate; MRestart; MRestart]
    (Ex.local "a" "localhost:2379" false 0 0)
    (Ex.world_at [1000000000000000000; 1000000000000000001; 1000000000000000002;
                  1000000000000001000; 1000000000000001001;
                  1000000000150000000; 1000000000150000001; 1000000000150000002])
  = Some ([None; None; Some (ErrTerminatedNode 999 Ex.ms100); None],
          NodeWebLocal.mk 1 0 false Ex.stream "etcd"
            (Flags.mk "a" "/tmp/a.etcd" ["http://localhost:2379"] "existing"
                      "localhost:2379")
            (Some (mkCmd ["sh"; "-c"; "etcd --name a"] true)) 4002 true
            Ex.ms100 1000000000000000002 1000000000150000002).
Proof. vm_compute. reflexivity. Qed.

(** When [Flags.String()] fails, [Start] returns its error with the mutex
    of the cluster still held, and the next [IsActive] waits for ever. *)
Example Start_keeps_the_mutex_when_the_flags_fail :
  exists w',
    NodeWebLocal.Start (Ex.local "a" "localhost:2379" false 0 0) Ex.flagless_world
    = Returns (Some (ErrExternal "unknown flag type"),
               Ex.local "a" "localhost:2379" false 0 0) w'
    /\ mu w' = true
    /\ NodeWebLocal.IsActive (Ex.local "a" "localhost:2379" false 0 0) w' = Blocks.
Proof.
  vm_compute. eexists. repeat split; reflexivity.
Qed.

(** Three remote nodes whose agents refuse every call: [Shutdown] returns
    success; the two failures of each running node are in the log, and so
    is the failure to clean the node that was not running. *)
Example Shutdown_with_failing_agents :
  exists c' w',
    defaultCluster.Shutdown (H := NodeWebRemoteClient_ops) Ex.remote_cluster
                            ["a"; "b"; "c"; "c"; "b"; "a"] Ex.failing_world
    = Returns (None, c') w'
    /\ logged w'
       = [LogTerminate "a" (ErrExternal "refused");
          LogTerminate "b" (ErrTerminated "b");
          LogTerminate "c" (ErrExternal "refused");
          LogClean "c" (ErrExternal "refused");
          LogClean "b" (ErrExternal "refused");
          LogClean "a" (ErrExternal "refused")].
Proof.
  vm_compute. do 2 eexists. split; reflexivity.
Qed.

(** [NewCluster] for two local members: one shared stream, the nodes
    inactive with zero timestamps, the cool-down of the option in each,
    and in both the width of the longest name. *)
Example NewCluster_of_two_local_members :
  answer (NewCluster WebLocal "etcd"
            [Ex.flags "a" "localhost:2379"; Ex.flags "etcd2" "localhost:2479"]
            [WithLimitInterval Ex.ms100; WithLiveLog])
         (Ex.world 1000 1)
  = Some (Some (defaultCluster.mk (mkChan 1 5000) ∅
                  (<["a" := OfWebLocal
                       (NodeWebLocal.mk 5 0 true (mkChan 1 5000) "etcd"
                          (Ex.flags "a" "localhost:2379") None 0 false
                          Ex.ms100 0 0)]>
                     (<["etcd2" := OfWebLocal
                          (NodeWebLocal.mk 5 1 true (mkChan 1 5000) "etcd"
                             (Ex.flags "etcd2" "localhost:2479") None 0 false
                             Ex.ms100 0 0)]> ∅))),
          None).
Proof. vm_compute. reflexivity. Qed.

(** [NewCluster] for a remote member hands the cool-down of the option to
    the remote node. *)
Example NewCluster_of_a_remote_member :
  answer (NewCluster WebRemote "etcd" [Ex.flags "a" "10.0.0.1:2379"]
            [WithLimitInterval Ex.ms100; WithAgentEndpoints ["10.0.0.1:9027"]])
         (Ex.world 1000 1)
  = Some (Some (defaultCluster.mk (mkChan 1 5000) ∅
                  (<["a" := OfWebRemote
                       (NodeWebRemoteClient.mk (Ex.flags "a" "10.0.0.1:2379")
                          (mkAgent "10.0.0.1:9027") false Ex.ms100)]> ∅)),
          None).
Proof. vm_compute. reflexivity. Qed.

(** Without agent endpoints a remote cluster is refused, and so is a node
    type that is not one of the three. *)
Example NewCluster_refusals :
  answer (NewCluster WebRemote "etcd" [Ex.flags "a" "10.0.0.1:2379"] [])
         (Ex.world 1000 1)
  = Some (None, Some ErrNoAgentEndpoints)
  /\ answer (NewCluster 7 "etcd" [Ex.flags "a" "10.0.0.1:2379"] [])
            (Ex.world 1000 1)
     = Some (None, Some (ErrNotImplemented 7))
  /\ answer (NewCluster WebRemote "etcd" [Ex.flags "a" "10.0.0.1:2379"]
               [WithAgentEndpoints ["x"; "y"]])
            (Ex.world 1000 1)
     = Some (None, Some (ErrAgentEndpointsSize 2 1)).
Proof. repeat split; vm_compute; reflexivity. Qed.

(** * Further properties of the code *)

(** ** The timestamps, on a run *)

(** A [Restart] that comes 50ms after the node was terminated, with a
    cool-down of 100ms, is refused and leaves both timestamps. *)
Lemma timestamps_kept_on_error_except_by_Clean_witness :
  exists e nd' w',
    NodeWebLocal.Restart (Ex.local "a" "localhost:2379" false 1000000000 0)
                         (Ex.world 1050000000 1)
    = Returns (Some e, nd') w'
    /\ NodeWebLocal.lastRestarted nd' = 0
    /\ NodeWebLocal.lastTerminated nd' = 1000000000.
Proof.
  eexists _, _, _.
  assert (Hrun : NodeWebLocal.Restart (Ex.local "a" "localhost:2379" false 1000000000 0)
                                      (Ex.world 1050000000 1)
                 = Returns (Some _, _) _) by (vm_compute; reflexivity).
  split; [exact Hrun|].
  exact (proj1 (proj2 (timestamps_kept_on_error_except_by_Clean _ _ _ _)) _ Hrun).
Defined.

(** ** The flag of a node *)

Lemma NodeWebLocal_Start_flag nd w r nd' w' :
  NodeWebLocal.Start nd w = Returns (r, nd') w' ->
  NodeWebLocal.active nd'
  = match r with Some _ => NodeWebLocal.active nd | None => true end.
Proof.
  intros H. unfold NodeWebLocal.Start in H. open_world w.
  split_run H; injection H as <- <- <-; simpl; congruence.
Qed.

Lemma NodeWebLocal_Restart_flag nd w r nd' w' :
  NodeWebLocal.Restart nd w = Returns (r, nd') w' ->
  NodeWebLocal.active nd'
  = match r with Some _ => NodeWebLocal.active nd | None => true end.
Proof.
  intros H. unfold NodeWebLocal.Restart in H. open_world w.
  split_run H; injection H as <- <- <-; simpl; congruence.
Qed.

Lemma NodeWebLocal_Terminate_flag nd w r nd' w' :
  NodeWebLocal.Terminate nd w = Returns (r, nd') w' ->
  NodeWebLocal.active nd'
  = match r with Some _ => NodeWebLocal.active nd | None => false end.
Proof.
  intros H. unfold NodeWebLocal.Terminate in H. open_world w.
  split_run H; injection H as <- <- <-; simpl; congruence.
Qed.

Lemma NodeWebLocal_Clean_flag nd w r nd' w' :
  NodeWebLocal.Clean nd w = Returns (r, nd') w' ->
  NodeWebLocal.active nd' = NodeWebLocal.active nd
  /\ (r = None -> NodeWebLocal.active nd = false).
Proof.
  intros H. unfold NodeWebLocal.Clean in H. open_world w.
  split_run H; injection H as <- <- <-; simpl; split; congruence.
Qed.

Lemma NodeWebRemoteClient_Start_flag nd w r nd' w' :
  NodeWebRemoteClient.Start nd w = Returns (r, nd') w' ->
  NodeWebRemoteClient.active nd'
  = match r with Some _ => NodeWebRemoteClient.active nd | None => true end.
Proof.
  intros H. unfold NodeWebRemoteClient.Start in H. unfold_M.
  split_run H; injection H as <- <- <-; simpl; congruence.
Qed.

Lemma NodeWebRemoteClient_Restart_flag nd w r nd' w' :
  NodeWebRemoteClient.Restart nd w = Returns (r, nd') w' ->
  NodeWebRemoteClient.active nd'
  = match r with Some _ => NodeWebRemoteClient.active nd | None => true end.
Proof.
  intros H. unfold NodeWebRemoteClient.Restart in H. unfold_M.
  split_run H; injection H as <- <- <-; simpl; congruence.
Qed.

Lemma NodeWebRemoteClient_Terminate_flag nd w r nd' w' :
  NodeWebRemoteClient.Terminate nd w = Returns (r, nd') w' ->
  NodeWebRemoteClient.active nd'
  = match r with Some _ => NodeWebRemoteClient.active nd | None => false end.
Proof.
  intros H. unfold NodeWebRemoteClient.Terminate in H. unfold_M.
  split_run H; injection H as <- <- <-; simpl; congruence.
Qed.

Lemma NodeWebRemoteClient_Clean_same nd w r nd' w' :
  NodeWebRemoteClient.Clean nd w = Returns (r, nd') w' -> nd' = nd.
Proof.
  rewrite NodeWebRemoteClient_Clean_any. now intros [= _ <- _].
Qed.

(** X2. The flag [active] of a node changes only when a lifecycle call
    succeeds. Whenever [Start] or [Restart] returns, the node is active
    if the call succeeded and has the flag it had if the call failed;
    whenever [Terminate] returns, the node is inactive if the call
    succeeded and has the flag it had if it failed; [Clean] never changes
    the flag, and on a local node it succeeds on an inactive node only.
    This holds for the local and for the remote node, whatever the
    world. *)
Theorem active_flag_changes_on_success_only :
  (forall (nd nd' : NodeWebLocal.t) (r : option error) (w w' : World),
      (NodeWebLocal.Start nd w = Returns (r, nd') w' ->
       NodeWebLocal.active nd'
       = match r with Some _ => NodeWebLocal.active nd | None => true end)
      /\ (NodeWebLocal.Restart nd w = Returns (r, nd') w' ->
          NodeWebLocal.active nd'
          = match r with Some _ => NodeWebLocal.active nd | None => true end)
      /\ (NodeWebLocal.Terminate nd w = Returns (r, nd') w' ->
          NodeWebLocal.active nd'
          = match r with Some _ => NodeWebLocal.active nd | None => false end)
      /\ (NodeWebLocal.Clean nd w = Returns (r, nd') w' ->
          NodeWebLocal.active nd' = NodeWebLocal.active nd
          /\ (r = None -> NodeWebLocal.active nd = false)))
  /\
  (forall (nd nd' : NodeWebRemoteClient.t) (r : option error) (w w' : World),
      (NodeWebRemoteClient.Start nd w = Returns (r, nd') w' ->
       NodeWebRemoteClient.active nd'
       = match r with Some _ => NodeWebRemoteClient.active nd | None => true end)
      /\ (NodeWebRemoteClient.Restart nd w = Returns (r, nd') w' ->
          NodeWebRemoteClient.active nd'
          = match r with Some _ => NodeWebRemoteClient.active nd | None => true end)
      /\ (NodeWebRemoteClient.Terminate nd w = Returns (r, nd') w' ->
          NodeWebRemoteClient.active nd'
          = match r with Some _ => NodeWebRemoteClient.active nd | None => false end)
      /\ (NodeWebRemoteClient.Clean nd w = Returns (r, nd') w' -> nd' = nd)).
Proof.
  split; intros nd nd' r w w'; (split; [|split; [|split]]).
  - apply NodeWebLocal_Start_flag.
  - apply NodeWebLocal_Restart_flag.
  - apply NodeWebLocal_Terminate_flag.
  - apply NodeWebLocal_Clean_flag.
  - apply NodeWebRemoteClient_Start_flag.
  - apply NodeWebRemoteClient_Restart_flag.
  - apply NodeWebRemoteClient_Terminate_flag.
  - apply NodeWebRemoteClient_Clean_same.
Qed.

(** A local node that runs is terminated, a second of the clock after it
    was last restarted: the call succeeds and the node is inactive. *)
Lemma active_flag_changes_on_success_only_witness :
  exists nd' w',
    NodeWebLocal.Terminate (Ex.local "a" "localhost:2379" true 0 0) (Ex.world 1000000000 1)
    = Returns (None, nd') w'
    /\ NodeWebLocal.active nd' = false.
Proof.
  eexists _, _. split; [vm_compute; reflexivity|].
  eapply (proj1 (proj2 (proj2 (proj1 active_flag_changes_on_success_only
                                 (Ex.local "a" "localhost:2379" true 0 0) _ None
                                 (Ex.world 1000000000 1) _)))).
  vm_compute. reflexivity.
Defined.

(** ** A call right after its opposite *)

(** What a [Restart] and a [Terminate] that succeed leave of the world:
    three readings of the clock were taken and the mutex is free. *)
Lemma NodeWebLocal_Restart_success_world nd w nd' w' :
  mu w = false ->
  NodeWebLocal.Restart nd w = Returns (None, nd') w' ->
  mu w' = false /\ ticks w' = (3 + ticks w)%nat /\ clock w' = clock w
  /\ NodeWebLocal.limitInterval nd' = NodeWebLocal.limitInterval nd.
Proof.
  intros Hmu H. unfold NodeWebLocal.Restart in H. open_world w.
  split_run H; injection H as <- <-; repeat split; reflexivity.
Qed.

Lemma NodeWebLocal_Terminate_success_world nd w nd' w' :
  mu w = false ->
  NodeWebLocal.Terminate nd w = Returns (None, nd') w' ->
  mu w' = false /\ ticks w' = (3 + ticks w)%nat /\ clock w' = clock w
  /\ NodeWebLocal.limitInterval nd' = NodeWebLocal.limitInterval nd.
Proof.
  intros Hmu H. unfold NodeWebLocal.Terminate in H. open_world w.
  split_run H; injection H as <- <-; repeat split; reflexivity.
Qed.

(** X3. On a local node, a call that follows its opposite too closely is
    refused. When a [Restart] has succeeded (it stamped the node with the
    third reading it took of the clock), a [Terminate] called next is
    refused with a TooSoon error and leaves the node as it is, if by the
    second reading that the [Terminate] takes less than the cool-down has
    passed since that stamp. The same holds for a [Restart] that follows
    a [Terminate] that succeeded. *)
Theorem call_right_after_its_opposite_is_too_soon :
  forall (nd nd' : NodeWebLocal.t) (w w' : World),
    mu w = false ->
    Sub (clock w (4 + ticks w)%nat) (clock w (2 + ticks w)%nat)
    < NodeWebLocal.limitInterval nd ->
    (NodeWebLocal.Restart nd w = Returns (None, nd') w' ->
     exists e w'', NodeWebLocal.Terminate nd' w' = Returns (Some e, nd') w'' /\ TooSoon e)
    /\
    (NodeWebLocal.Terminate nd w = Returns (None, nd') w' ->
     exists e w'', NodeWebLocal.Restart nd' w' = Returns (Some e, nd') w'' /\ TooSoon e).
Proof.
  intros nd nd' w w' Hmu Hsoon. split; intros Hrun.
  - destruct (NodeWebLocal_Restart_success_world _ _ _ _ Hmu Hrun)
      as (Hmu' & Hticks & Hclock & Hlimit).
    destruct (NodeWebLocal_Restart_success _ _ _ _ Hrun) as (Hact & Hstamp & _).
    destruct (Z.lt_ge_cases (Sub (clock w' (ticks w')) (NodeWebLocal.lastTerminated nd'))
                            (NodeWebLocal.limitInterval nd')) as [Hlt|Hge].
    + do 2 eexists. split; [now apply Terminate_too_soon_after_terminate | exact I].
    + do 2 eexists. split.
      * apply Terminate_too_soon_after_restart; try assumption.
        now rewrite Hstamp, Hclock, Hticks, Hlimit.
      * exact I.
  - destruct (NodeWebLocal_Terminate_success_world _ _ _ _ Hmu Hrun)
      as (Hmu' & Hticks & Hclock & Hlimit).
    destruct (NodeWebLocal_Terminate_success _ _ _ _ Hrun) as (Hact & Hstamp & _).
    destruct (Z.lt_ge_cases (Sub (clock w' (ticks w')) (NodeWebLocal.lastRestarted nd'))
                            (NodeWebLocal.limitInterval nd')) as [Hlt|Hge].
    + do 2 eexists. split; [now apply Restart_too_soon_after_restart | exact I].
    + do 2 eexists. split.
      * apply Restart_too_soon_after_terminate; try assumption.
        now rewrite Hstamp, Hclock, Hticks, Hlimit.
      * exact I.
Qed.

(** A node with a cool-down of 100ms is restarted and, two nanoseconds of
    the clock after the stamp, terminated. *)
Lemma call_right_after_its_opposite_is_too_soon_witness :
  exists nd' w' e w'',
    NodeWebLocal.Restart (Ex.local "a" "localhost:2379" false 0 0) (Ex.world 1000000000 1)
    = Returns (None, nd') w'
    /\ NodeWebLocal.Terminate nd' w' = Returns (Some e, nd') w'' /\ TooSoon e.
Proof.
  eexists _, _.
  assert (Hrun : NodeWebLocal.Restart (Ex.local "a" "localhost:2379" false 0 0)
                                      (Ex.world 1000000000 1)
                 = Returns (None, _) _) by (vm_compute; reflexivity).
  destruct (proj1 (call_right_after_its_opposite_is_too_soon
                     (Ex.local "a" "localhost:2379" false 0 0) _
                     (Ex.world 1000000000 1) _ eq_refl
                     ltac:(vm_compute; reflexivity)) Hrun) as (e & w'' & Hterm & Hsoon).
  exists e, w''. split; [exact Hrun|]. split; [exact Hterm | exact Hsoon].
Defined.

(** ** The mutex after a failure of the flags *)

(** With the mutex held, every call that takes it waits for ever. *)
Lemma NodeWebLocal_held (nd : NodeWebLocal.t) (w : World) :
  mu w = true ->
  NodeWebLocal.IsActive nd w = Blocks
  /\ NodeWebLocal.Start nd w = Blocks
  /\ NodeWebLocal.Restart nd w = Blocks
  /\ NodeWebLocal.Terminate nd w = Blocks
  /\ NodeWebLocal.Clean nd w = Blocks.
Proof.
  intros Hmu.
  unfold NodeWebLocal.IsActive, NodeWebLocal.Start, NodeWebLocal.Restart,
    NodeWebLocal.Terminate, NodeWebLocal.Clean.
  unfold bind, Lock. rewrite Hmu. repeat split; reflexivity.
Qed.

Lemma defaultCluster_held {N : Type} `{Node.ops N} (c : defaultCluster.t N) (w : World) :
  mu w = true ->
  (forall f name, defaultCluster.by_name f c name w = Blocks)
  /\ (forall name msg streamIDs, defaultCluster.Write c name msg streamIDs w = Blocks)
  /\ (forall streamID, defaultCluster.Stream (Some c) streamID w = Blocks).
Proof.
  intros Hmu. unfold defaultCluster.by_name, defaultCluster.Write, defaultCluster.Stream.
  unfold bind, Lock. rewrite Hmu. repeat split; reflexivity.
Qed.

(** X4. When [Flags.String()] fails, [Start] of an inactive local node
    returns that error with the mutex of the cluster still held, and so
    does [Restart] once the cool-down has passed: the [return err] comes
    between [Lock] and [Unlock]. From then on every method of every local
    node, and [Start], [Restart], [Terminate], [Clean], [Write] and
    [Stream] of every cluster on that mutex, wait for ever. *)
Theorem failing_flags_leave_the_mutex_held :
  forall (nd : NodeWebLocal.t) (w : World) (msg : string),
    mu w = false ->
    NodeWebLocal.active nd = false ->
    (Flags_String w (NodeWebLocal.Flags nd) = inr msg ->
     exists w', NodeWebLocal.Start nd w = Returns (Some (ErrExternal msg), nd) w'
                /\ mu w' = true)
    /\
    (Flags_String w (Flags.set_InitialClusterState "existing" (NodeWebLocal.Flags nd))
     = inr msg ->
     NodeWebLocal.limitInterval nd
     <= Sub (clock w (ticks w)) (NodeWebLocal.lastRestarted nd) ->
     NodeWebLocal.limitInterval nd
     <= Sub (clock w (S (ticks w))) (NodeWebLocal.lastTerminated nd) ->
     exists nd' w', NodeWebLocal.Restart nd w = Returns (Some (ErrExternal msg), nd') w'
                    /\ mu w' = true)
    /\
    (forall w', mu w' = true ->
       (forall nd2 : NodeWebLocal.t,
           NodeWebLocal.IsActive nd2 w' = Blocks
           /\ NodeWebLocal.Start nd2 w' = Blocks
           /\ NodeWebLocal.Restart nd2 w' = Blocks
           /\ NodeWebLocal.Terminate nd2 w' = Blocks
           /\ NodeWebLocal.Clean nd2 w' = Blocks)
       /\
       (forall (N : Type) (H : Node.ops N) (c : defaultCluster.t N),
           (forall name, defaultCluster.Start c name w' = Blocks
                         /\ defaultCluster.Restart c name w' = Blocks
                         /\ defaultCluster.Terminate c name w' = Blocks
                         /\ defaultCluster.Clean c name w' = Blocks)
           /\ (forall name m streamIDs, defaultCluster.Write c name m streamIDs w' = Blocks)
           /\ (forall streamID, defaultCluster.Stream (Some c) streamID w' = Blocks))).
Proof.
  intros nd w msg Hmu Ha. split; [|split].
  - intros Hflags. unfold NodeWebLocal.Start. open_world w.
    rewrite Ha. simpl. rewrite Hflags. simpl. eexists. split; reflexivity.
  - intros Hflags Hge1 Hge2. apply Z.ltb_ge in Hge1, Hge2.
    unfold NodeWebLocal.Restart. open_world w.
    rewrite Ha. simpl. rewrite Hge1. simpl. rewrite Hge2. simpl. rewrite Hflags. simpl.
    do 2 eexists. split; reflexivity.
  - intros w' Hmu'. split.
    + intros nd2. now apply NodeWebLocal_held.
    + intros N H c. destruct (defaultCluster_held c w' Hmu') as (Hby & Hwrite & Hstream).
      split; [|split; assumption].
      intros name. repeat split; apply Hby.
Qed.

(** A world in which [Flags.String()] fails: [Start] of a node that does
    not run returns with the mutex held. *)
Lemma failing_flags_leave_the_mutex_held_witness :
  exists w',
    NodeWebLocal.Start (Ex.local "a" "localhost:2379" false 0 0) Ex.flagless_world
    = Returns (Some (ErrExternal "unknown flag type"),
               Ex.local "a" "localhost:2379" false 0 0) w'
    /\ mu w' = true.
Proof.
  apply (proj1 (failing_flags_leave_the_mutex_held
                  (Ex.local "a" "localhost:2379" false 0 0) Ex.flagless_world
                  "unknown flag type" eq_refl eq_refl)).
  reflexivity.
Defined.

(** ** What Start and Restart launch *)

(** X5. The process that a local node launches. A [Start] that
    succeeds has launched the shell (that of the environment, or [sh])
    on the program path followed by the text of the flags; the output of
    the process goes to the node only if [liveLog] is set, and is
    discarded otherwise; the flags of the node are untouched. A
    [Restart] that succeeds has launched the same with the flags it first
    changed to the initial cluster state [existing], which the node
    keeps; the output of this process always goes to the node, whether
    [liveLog] is set or not. Either call has sent one line on the shared
    stream, made one outside call, and left the command and the process
    identifier it got in the node. *)
Theorem Start_and_Restart_launch_the_shell :
  forall (nd nd' : NodeWebLocal.t) (w w' : World),
    (NodeWebLocal.Start nd w = Returns (None, nd') w' ->
     exists flagString,
       Flags_String w (NodeWebLocal.Flags nd) = inl flagString
       /\ let cmd := mkCmd [NodeWebLocal.shell_of (env_SHELL w); "-c";
                            NodeWebLocal.ProgramPath nd ++ " " ++ flagString]
                           (NodeWebLocal.liveLog nd) in
          nd' = NodeWebLocal.started cmd (sys_pid w (length (trace w))) nd
          /\ trace w' = (trace w ++ [SysCmdStart cmd])%list
          /\ sent w' = (sent w ++ [(NodeWebLocal.sharedStream nd,
                                    MsgStart (Flags.Name (NodeWebLocal.Flags nd)))])%list)
    /\
    (NodeWebLocal.Restart nd w = Returns (None, nd') w' ->
     let flags := Flags.set_InitialClusterState "existing" (NodeWebLocal.Flags nd) in
     exists flagString,
       Flags_String w flags = inl flagString
       /\ let cmd := mkCmd [NodeWebLocal.shell_of (env_SHELL w); "-c";
                            NodeWebLocal.ProgramPath nd ++ " " ++ flagString] true in
          nd' = NodeWebLocal.restarted cmd (sys_pid w (length (trace w)))
                  (clock w (S (S (ticks w)))) (NodeWebLocal.set_Flags flags nd)
          /\ trace w' = (trace w ++ [SysCmdStart cmd])%list
          /\ sent w' = (sent w ++ [(NodeWebLocal.sharedStream nd,
                                    MsgRestart (Flags.Name (NodeWebLocal.Flags nd)))])%list).
Proof.
  intros nd nd' w w'. split; intros Hrun.
  - unfold NodeWebLocal.Start in Hrun. open_world w.
    split_run Hrun; injection Hrun as <- <-.
    repeat match goal with
           | H : match ?x with _ => _ end = _ |- _ =>
             destruct x eqn:?; try discriminate H; injection H as <-
           end.
    eexists. split; [reflexivity|]. repeat split; reflexivity.
  - unfold NodeWebLocal.Restart in Hrun. open_world w.
    split_run Hrun; injection Hrun as <- <-.
    repeat match goal with
           | H : match ?x with _ => _ end = _ |- _ =>
             destruct x eqn:?; try discriminate H; injection H as <-
           end.
    eexists. split; [reflexivity|]. repeat split; reflexivity.
Qed.

(** A node without [liveLog] is started, terminated and, later,
    restarted: the command of the restart writes to the node. *)
Lemma Start_and_Restart_launch_the_shell_witness :
  exists nd' w',
    NodeWebLocal.Restart (Ex.local "a" "localhost:2379" false 0 0) (Ex.world 1000000000 1)
    = Returns (None, nd') w'
    /\ NodeWebLocal.cmd nd' = Some (mkCmd ["/bin/sh"; "-c"; "etcd --name a"] true)
    /\ Flags.InitialClusterState (NodeWebLocal.Flags nd') = "existing".
Proof.
  eexists _, _.
  assert (Hrun : NodeWebLocal.Restart (Ex.local "a" "localhost:2379" false 0 0)
                                      (Ex.world 1000000000 1)
                 = Returns (None, _) _) by (vm_compute; reflexivity).
  split; [exact Hrun|].
  destruct (proj2 (Start_and_Restart_launch_the_shell _ _ _ _) Hrun)
    as (flagString & Hflags & Hnd & _).
  vm_compute in Hflags. injection Hflags as <-. cbv zeta in Hnd.
  rewrite Hnd. split; reflexivity.
Defined.

(** ** The calls of the cluster that name a node *)

Section ByName.
Context {N : Type} `{Node.ops N}.

Lemma by_name_unknown (f : N -> M (option error * N)) (c : defaultCluster.t N)
    (name : string) (w : World) :
  mu w = false ->
  defaultCluster.nameToNode c !! name = None ->
  defaultCluster.by_name f c name w = Returns (Some (ErrNotExist name), c) w.
Proof.
  intros Hmu Hname. unfold defaultCluster.by_name. unfold bind at 1 2. unfold Lock, Unlock.
  rewrite Hmu, Hname. unfold ret. now rewrite unlock_lock_free.
Qed.

Lemma by_name_known (f : N -> M (option error * N)) (c : defaultCluster.t N)
    (name : string) (nd : N) (w : World) :
  mu w = false ->
  defaultCluster.nameToNode c !! name = Some nd ->
  defaultCluster.by_name f c name w
  = match f nd w with
    | Returns r w' => Returns (r.1, defaultCluster.set_node name r.2 c) w'
    | Blocks => Blocks
    end.
Proof.
  intros Hmu Hname. unfold defaultCluster.by_name. unfold bind at 1 2. unfold Lock, Unlock.
  rewrite Hmu, Hname. rewrite unlock_lock_free by exact Hmu. reflexivity.
Qed.

Lemma Write_unknown (c : defaultCluster.t N) (name msg : string) (streamIDs : list string)
    (w : World) :
  mu w = false ->
  defaultCluster.nameToNode c !! name = None ->
  defaultCluster.Write c name msg streamIDs w = Returns (Some (ErrNotExist name), c) w.
Proof.
  intros Hmu Hname. unfold defaultCluster.Write. unfold bind at 1 2. unfold Lock, Unlock.
  rewrite Hmu, Hname. unfold ret. now rewrite unlock_lock_free.
Qed.
End ByName.

(** X6. [Start], [Restart], [Terminate] and [Clean] of the cluster, with
    the mutex free. For a name that is not registered each of them, and
    [Write] as well, returns the error ["<name> does not exist"] and
    leaves the cluster and the world as they are: no node is called. For
    a registered name the call is the call of that method on the node:
    it returns what the node returns, waits for ever if the node does,
    and the cluster afterwards differs from the one before in the entry
    of that name only. *)
Theorem cluster_call_is_the_call_on_the_named_node :
  forall (N : Type) (H : Node.ops N) (c : defaultCluster.t N) (name : string) (w : World),
    mu w = false ->
    (defaultCluster.nameToNode c !! name = None ->
     defaultCluster.Start c name w = Returns (Some (ErrNotExist name), c) w
     /\ defaultCluster.Restart c name w = Returns (Some (ErrNotExist name), c) w
     /\ defaultCluster.Terminate c name w = Returns (Some (ErrNotExist name), c) w
     /\ defaultCluster.Clean c name w = Returns (Some (ErrNotExist name), c) w
     /\ forall msg streamIDs,
         defaultCluster.Write c name msg streamIDs w
         = Returns (Some (ErrNotExist name), c) w)
    /\
    (forall (nd : N) (m : NodeMethod),
        defaultCluster.nameToNode c !! name = Some nd ->
        match m with
        | MStart => defaultCluster.Start c name w
        | MRestart => defaultCluster.Restart c name w
        | MTerminate => defaultCluster.Terminate c name w
        | MClean => defaultCluster.Clean c name w
        end
        = match node_method m nd w with
          | Returns (r, nd') w' =>
            Returns (r, defaultCluster.mk (defaultCluster.sharedStream c)
                          (defaultCluster.idToStream c)
                          (<[name := nd']> (defaultCluster.nameToNode c))) w'
          | Blocks => Blocks
          end).
Proof.
  intros N H c name w Hmu. split.
  - intros Hname. repeat split; try (now apply by_name_unknown).
    intros msg streamIDs. now apply Write_unknown.
  - intros nd m Hname.
    unfold defaultCluster.Start, defaultCluster.Restart, defaultCluster.Terminate,
      defaultCluster.Clean.
    destruct m; cbn [node_method]; rewrite (by_name_known _ c name nd w Hmu Hname);
      match goal with
      | |- context [match ?x with Returns _ _ => _ | Blocks => _ end] =>
        destruct x as [[r nd'] w'|]
      end; reflexivity.
Qed.

(** [Terminate] of the cluster for the name [zz], which no node of the
    three has. *)
Lemma cluster_call_is_the_call_on_the_named_node_witness :
  defaultCluster.Terminate (H := NodeWebRemoteClient_ops) Ex.remote_cluster "zz"
                           (Ex.world 1000 1)
  = Returns (Some (ErrNotExist "zz"), Ex.remote_cluster) (Ex.world 1000 1).
Proof.
  apply (proj1 (cluster_call_is_the_call_on_the_named_node _ NodeWebRemoteClient_ops
                  Ex.remote_cluster "zz" (Ex.world 1000 1) eq_refl)).
  reflexivity.
Defined.

(** ** The names of the nodes and the shared stream *)

Section Registry.
Context {N : Type} `{Node.ops N}.

Lemma same_registry_refl (c : defaultCluster.t N) : same_registry c c.
Proof. now split. Qed.

Lemma same_registry_trans (c1 c2 c3 : defaultCluster.t N) :
  same_registry c1 c2 -> same_registry c2 c3 -> same_registry c1 c3.
Proof. intros [H1 H2] [H3 H4]. split; congruence. Qed.

Lemma same_registry_set_node (c : defaultCluster.t N) (name : string) (nd nd' : N) :
  defaultCluster.nameToNode c !! name = Some nd ->
  same_registry c (defaultCluster.set_node name nd' c).
Proof.
  intros Hname. split; [|reflexivity].
  cbn [defaultCluster.set_node defaultCluster.nameToNode].
  rewrite dom_insert_L. apply subseteq_union_1_L, singleton_subseteq_l.
  now apply elem_of_dom_2 in Hname.
Qed.

Lemma Stream_registry (c : defaultCluster.t N) (s : string) r w w' :
  defaultCluster.Stream (Some c) s w = Returns r w' ->
  exists c', r.2 = Some c' /\ same_registry c c'
             /\ defaultCluster.nameToNode c' = defaultCluster.nameToNode c.
Proof.
  unfold defaultCluster.Stream. unfold_M.
  destruct (mu w); [blocked|].
  destruct (defaultCluster.idToStream c !! s) as [v|]; intros [= <- <-];
    eexists; (split; [reflexivity|]); (split; [split; reflexivity | reflexivity]).
Qed.

Lemma Write_streams_registry ids msg (c c' : defaultCluster.t N) w w' :
  defaultCluster.Write_streams ids msg c w = Returns c' w' ->
  same_registry c c' /\ defaultCluster.nameToNode c' = defaultCluster.nameToNode c.
Proof.
  revert c w. induction ids as [|streamID ids IH]; intros c w;
    cbn [defaultCluster.Write_streams].
  - intros [= <- <-]. split; [apply same_registry_refl | reflexivity].
  - unfold bind at 1.
    destruct (defaultCluster.Stream (Some c) streamID w) as [r w1|] eqn:Hst;
      [|blocked].
    destruct (Stream_registry _ _ _ _ _ Hst) as (c1 & Hc1 & Hreg & Hnodes).
    rewrite Hc1. simpl. unfold bind at 1.
    destruct (defaultCluster.send_on r.1 (MsgText msg) w1) as [[] w2|]; [|blocked].
    intros Hrest. apply IH in Hrest as [Hreg' Hnodes']. split.
    + now apply (same_registry_trans c c1 c').
    + congruence.
Qed.

Lemma Write_registry (c : defaultCluster.t N) name msg ids r w w' :
  defaultCluster.Write c name msg ids w = Returns r w' ->
  same_registry c r.2 /\ defaultCluster.nameToNode r.2 = defaultCluster.nameToNode c.
Proof.
  unfold defaultCluster.Write. unfold bind at 1 2. unfold Lock, Unlock.
  destruct (mu w); [blocked|].
  assert (Hsame : forall e w0, Returns (e, c) w0 = Returns r w' ->
            same_registry c r.2
            /\ defaultCluster.nameToNode r.2 = defaultCluster.nameToNode c).
  { intros e w0 [= <- <-]. split; [apply same_registry_refl | reflexivity]. }
  destruct (defaultCluster.nameToNode c !! name) as [nd|]; [|apply Hsame].
  destruct (Node.typeOf nd) as [vt|vt|vt|].
  - unfold bind, syscall, ret. apply Hsame.
  - destruct (length ids =? 0)%nat.
    + unfold bind, send, ret. apply Hsame.
    + unfold bind at 1.
      destruct (defaultCluster.Write_streams ids msg c _) as [c1 w1|] eqn:Hws;
        [|blocked].
      intros [= <- <-]. simpl. now apply Write_streams_registry in Hws.
  - destruct (0 <? length ids)%nat.
    + unfold bind at 1.
      destruct (defaultCluster.Write_streams ids msg c _) as [c1 w1|] eqn:Hws;
        [|blocked].
      intros [= <- <-]. simpl. now apply Write_streams_registry in Hws.
    + apply Hsame.
  - apply Hsame.
Qed.

Lemma by_name_registry f (c : defaultCluster.t N) name r w w' :
  defaultCluster.by_name f c name w = Returns r w' -> same_registry c r.2.
Proof.
  unfold defaultCluster.by_name. unfold bind at 1 2. unfold Lock, Unlock.
  destruct (mu w); [blocked|].
  destruct (defaultCluster.nameToNode c !! name) as [nd|] eqn:Hname.
  - unfold bind, ret. destruct (f nd _) as [r1 w1|]; [|blocked].
    intros [= <- <-]. now apply (same_registry_set_node c name nd).
  - intros [= <- <-]. apply same_registry_refl.
Qed.

Lemma Revive_restart_registry ks (c : defaultCluster.t N) r w w' :
  defaultCluster.Revive_restart ks c w = Returns r w' -> same_registry c r.2.
Proof.
  revert c w. induction ks as [|k ks IH]; intros c w;
    cbn [defaultCluster.Revive_restart].
  - intros [= <- <-]. apply same_registry_refl.
  - destruct (defaultCluster.nameToNode c !! k) as [nd|] eqn:Hk; [|apply IH].
    unfold bind at 1. destruct (Node.Restart nd w) as [r1 w1|]; [|blocked].
    pose proof (same_registry_set_node c k nd r1.2 Hk) as Hset.
    destruct r1.1.
    + intros [= <- <-]. exact Hset.
    + intros Hrest. apply IH in Hrest. now apply (same_registry_trans c _ r.2 Hset).
Qed.

Lemma Revive_registry (c : defaultCluster.t N) ks1 ks2 r w w' :
  defaultCluster.Revive c ks1 ks2 w = Returns r w' -> same_registry c r.2.
Proof.
  unfold defaultCluster.Revive. unfold bind at 1.
  destruct (defaultCluster.Revive_active c ks1 w) as [[] w1|]; [| |blocked].
  - intros [= <- <-]. apply same_registry_refl.
  - apply Revive_restart_registry.
Qed.

Lemma worker_step_registry name pcs (c : defaultCluster.t N) r w w' :
  defaultCluster.worker_step name pcs c w = Returns r w' -> same_registry c r.2.
Proof.
  unfold defaultCluster.worker_step.
  destruct (pcs !! name) as [[| |]|];
    destruct (defaultCluster.nameToNode c !! name) as [nd|] eqn:Hname;
    try (intros [= <- <-]; apply same_registry_refl).
  - unfold bind at 1. destruct (Node.Terminate nd w) as [r1 w1|]; [|blocked].
    unfold bind, ret, log_Printf.
    destruct r1.1; intros [= <- <-]; now apply (same_registry_set_node c name nd).
  - unfold bind at 1. destruct (Node.Clean nd w) as [r1 w1|]; [|blocked].
    unfold bind, ret, log_Printf.
    destruct r1.1; intros [= <- <-]; now apply (same_registry_set_node c name nd).
Qed.

Lemma run_workers_registry sched pcs (c : defaultCluster.t N) r w w' :
  defaultCluster.run_workers sched pcs c w = Returns r w' -> same_registry c r.2.
Proof.
  revert pcs c w. induction sched as [|name sched IH]; intros pcs c w;
    cbn [defaultCluster.run_workers].
  - intros [= <- <-]. apply same_registry_refl.
  - unfold bind at 1.
    destruct (defaultCluster.worker_step name pcs c w) as [r1 w1|] eqn:Hstep;
      [|blocked].
    intros Hrest. apply IH in Hrest. apply worker_step_registry in Hstep.
    now apply (same_registry_trans c r1.2 r.2).
Qed.

Lemma Shutdown_registry (c : defaultCluster.t N) sched r w w' :
  defaultCluster.Shutdown c sched w = Returns r w' -> same_registry c r.2.
Proof.
  unfold defaultCluster.Shutdown.
  destruct (size (defaultCluster.nameToNode c) =? 0)%nat.
  - intros [= <- <-]. apply same_registry_refl.
  - unfold bind at 1.
    destruct (defaultCluster.run_workers sched _ c w) as [r1 w1|] eqn:Hrun;
      [|blocked].
    unfold bind, defaultCluster.wg_Wait, ret.
    destruct (defaultCluster.all_done r1.1); [|blocked].
    intros [= <- <-]. simpl. now apply run_workers_registry in Hrun.
Qed.

Lemma run_call_registry (q : Call) (c c' : defaultCluster.t N) w w' :
  run_call q c w = Returns c' w' -> same_registry c c'.
Proof.
  destruct q; cbn [run_call]; try unfold bind at 1.
  - destruct (defaultCluster.Write c name msg streamIDs w) as [r w1|] eqn:Hq;
      [|blocked].
    intros [= <- <-]. now apply Write_registry in Hq.
  - intros [= <- <-]. apply same_registry_refl.
  - destruct (defaultCluster.Stream (Some c) streamID w) as [r w1|] eqn:Hq;
      [|blocked].
    intros [= <- <-]. destruct (Stream_registry _ _ _ _ _ Hq) as (c1 & -> & Hreg & _).
    exact Hreg.
  - destruct (defaultCluster.Start c name w) as [r w1|] eqn:Hq; [|blocked].
    intros [= <- <-]. now apply by_name_registry in Hq.
  - destruct (defaultCluster.Restart c name w) as [r w1|] eqn:Hq; [|blocked].
    intros [= <- <-]. now apply by_name_registry in Hq.
  - destruct (defaultCluster.Revive c ks1 ks2 w) as [r w1|] eqn:Hq; [|blocked].
    intros [= <- <-]. now apply Revive_registry in Hq.
  - destruct (defaultCluster.Terminate c name w) as [r w1|] eqn:Hq; [|blocked].
    intros [= <- <-]. now apply by_name_registry in Hq.
  - destruct (defaultCluster.Clean c name w) as [r w1|] eqn:Hq; [|blocked].
    intros [= <- <-]. now apply by_name_registry in Hq.
  - destruct (defaultCluster.Shutdown c sched w) as [r w1|] eqn:Hq; [|blocked].
    intros [= <- <-]. now apply Shutdown_registry in Hq.
  - destruct (defaultCluster.Endpoints c ks w) as [r w1|]; [|blocked].
    intros [= <- <-]. apply same_registry_refl.
  - destruct (defaultCluster.Status c ks probes arrival w) as [r w1|]; [|blocked].
    intros [= <- <-]. apply same_registry_refl.
  - destruct (defaultCluster.nameToNode c !! name) as [nd|] eqn:Hname.
    + unfold bind, ret. destruct (node_method m nd w) as [r w1|]; [|blocked].
      intros [= <- <-]. now apply (same_registry_set_node c name nd).
    + intros [= <- <-]. apply same_registry_refl.
Qed.

Lemma run_calls_registry (qs : list Call) (c c' : defaultCluster.t N) w w' :
  run_calls qs c w = Returns c' w' -> same_registry c c'.
Proof.
  revert c w. induction qs as [|q qs IH]; intros c w; cbn [run_calls].
  - intros [= <- <-]. apply same_registry_refl.
  - unfold bind at 1. destruct (run_call q c w) as [c1 w1|] eqn:Hq; [|blocked].
    intros Hrest. apply IH in Hrest. apply run_call_registry in Hq.
    now apply (same_registry_trans c c1 c').
Qed.
End Registry.

(** X7. The set of registered names and the shared stream of a cluster
    are fixed once the cluster is made. After any sequence of calls of
    the interface ([Write], [Stream], [Start], [Restart], [Revive],
    [Terminate], [Clean], [Shutdown], [Endpoints], [Status], and methods
    called on registered nodes), whatever the calls return, the cluster
    has a node under exactly the names it had before, and the same shared
    stream: no call adds or removes a node, not even [Shutdown]. *)
Theorem no_call_adds_or_removes_a_node :
  forall (N : Type) (H : Node.ops N) (qs : list Call) (c c' : defaultCluster.t N)
         (w w' : World),
    run_calls qs c w = Returns c' w' ->
    dom (defaultCluster.nameToNode c') = dom (defaultCluster.nameToNode c)
    /\ defaultCluster.sharedStream c' = defaultCluster.sharedStream c.
Proof.
  intros N H qs c c' w w' Hrun. now apply run_calls_registry in Hrun.
Qed.

(** Three remote nodes are shut down, one is started again and a line is
    written for a name that is unknown: the names are those of before. *)
Lemma no_call_adds_or_removes_a_node_witness :
  exists c' w',
    run_calls (H := NodeWebRemoteClient_ops)
              [CallShutdown ["a"; "b"; "c"; "c"; "b"; "a"]; CallStart "b";
               CallWrite "zz" "hello" ["user1"]]
              Ex.remote_cluster (Ex.world 1000 1)
    = Returns c' w'
    /\ dom (defaultCluster.nameToNode c') = dom (defaultCluster.nameToNode Ex.remote_cluster).
Proof.
  eexists _, _.
  assert (Hrun : run_calls (H := NodeWebRemoteClient_ops)
                   [CallShutdown ["a"; "b"; "c"; "c"; "b"; "a"]; CallStart "b";
                    CallWrite "zz" "hello" ["user1"]]
                   Ex.remote_cluster (Ex.world 1000 1)
                 = Returns _ _) by (vm_compute; reflexivity).
  split; [exact Hrun|].
  exact (proj1 (no_call_adds_or_removes_a_node _ NodeWebRemoteClient_ops _ _ _ _ _ Hrun)).
Defined.

(** ** Where a message of [Write] goes *)

Section WriteStreams.
Context {N : Type} `{Node.ops N}.

(** What the loop over the stream identifiers does: every identifier has
    a stream afterwards, and the message was sent once for each
    identifier of the list, in the order of the list, on the stream of
    that identifier. *)
Lemma Write_streams_run (ids : list string) (msg : string) (c : defaultCluster.t N)
    (w : World) :
  mu w = false ->
  exists c' w',
    defaultCluster.Write_streams ids msg c w = Returns c' w'
    /\ mu w' = false
    /\ defaultCluster.nameToNode c' = defaultCluster.nameToNode c
    /\ defaultCluster.idToStream c ⊆ defaultCluster.idToStream c'
    /\ (forall id, id ∈ ids -> is_Some (defaultCluster.idToStream c' !! id))
    /\ sent w'
       = (sent w ++ omap (fun id => (fun ch => (ch, MsgText msg))
                                      <$> defaultCluster.idToStream c' !! id) ids)%list
    /\ trace w' = trace w /\ logged w' = logged w.
Proof.
  revert c w. induction ids as [|id ids IH]; intros c w Hmu;
    cbn [defaultCluster.Write_streams].
  - exists c, w. repeat split; try reflexivity; try assumption.
    + intros id Hid. now apply elem_of_nil in Hid.
    + cbn. now rewrite app_nil_r.
  - (* the stream of [id], the cluster and the world after [Stream] *)
    assert (Hst : exists ch c1 w1,
               defaultCluster.Stream (Some c) id w = Returns (Some ch, Some c1) w1
               /\ mu w1 = false
               /\ defaultCluster.nameToNode c1 = defaultCluster.nameToNode c
               /\ defaultCluster.idToStream c ⊆ defaultCluster.idToStream c1
               /\ defaultCluster.idToStream c1 !! id = Some ch
               /\ sent w1 = sent w /\ trace w1 = trace w /\ logged w1 = logged w).
    { destruct (defaultCluster.idToStream c !! id) as [ch|] eqn:Hid.
      - exists ch, c, w. rewrite (Stream_known c id ch w Hmu Hid). now repeat split.
      - eexists _, _, _. rewrite (Stream_new c id w Hmu Hid).
        split; [reflexivity|]. split; [exact Hmu|]. split; [reflexivity|]. split.
        + cbn. now apply insert_subseteq.
        + split; [apply lookup_insert_eq|]. now repeat split. }
    destruct Hst as (ch & c1 & w1 & Hst & Hmu1 & Hnodes1 & Hsub1 & Hch & Hsent1 & Htr1 & Hlg1).
    unfold bind at 1. rewrite Hst. cbn [fst snd default defaultCluster.send_on].
    unfold bind at 1. unfold send at 1.
    destruct (IH c1 (set_sent (sent w1 ++ [(ch, MsgText msg)]) w1) Hmu1)
      as (c' & w' & Hrun & Hmu' & Hnodes' & Hsub' & Hall & Hsent' & Htr' & Hlg').
    exists c', w'. split; [exact Hrun|]. split; [exact Hmu'|].
    split; [congruence|]. split; [now transitivity (defaultCluster.idToStream c1)|].
    assert (Hid' : defaultCluster.idToStream c' !! id = Some ch)
      by (eapply lookup_weaken; eassumption).
    split; [|split; [|split]].
    + intros id' Hin. apply elem_of_cons in Hin as [->|Hin]; [eauto | now apply Hall].
    + rewrite Hsent'. cbn [sent set_sent]. rewrite Hsent1.
      rewrite (omap_cons_Some _ id ids (ch, MsgText msg)) by now rewrite Hid'.
      now rewrite <- app_assoc.
    + rewrite Htr'. exact Htr1.
    + rewrite Hlg'. exact Hlg1.
Qed.
End WriteStreams.

(** X8. Where [Write] sends a message for a registered node, with the
    mutex free. Without stream identifiers, the message for a local node
    goes on the shared stream, once, and the message for a remote node
    goes nowhere: [Write] returns nil and nothing at all has happened.
    With stream identifiers, for a local and for a remote node alike, the
    message goes once for each identifier of the list, in the order of
    the list, on the stream of that identifier, which is made on the way
    if it did not exist; nothing goes on the shared stream, the streams
    that existed are kept and the nodes are not touched. *)
Theorem Write_sends_to_the_named_streams :
  forall (N : Type) (H : Node.ops N) (c : defaultCluster.t N) (name msg : string)
         (nd : N) (w : World),
    mu w = false ->
    defaultCluster.nameToNode c !! name = Some nd ->
    (forall vt, Node.typeOf nd = IsNodeWebLocal vt ->
       defaultCluster.Write c name msg [] w
       = Returns (None, c)
                 (set_sent (sent w ++ [(NodeWebLocal.sharedStream vt, MsgText msg)]) w))
    /\
    (forall vt, Node.typeOf nd = IsNodeWebRemoteClient vt ->
       defaultCluster.Write c name msg [] w = Returns (None, c) w)
    /\
    (forall streamIDs,
       streamIDs <> [] ->
       (exists vt, Node.typeOf nd = IsNodeWebLocal vt)
       \/ (exists vt, Node.typeOf nd = IsNodeWebRemoteClient vt) ->
       exists c' w',
         defaultCluster.Write c name msg streamIDs w = Returns (None, c') w'
         /\ mu w' = false
         /\ defaultCluster.nameToNode c' = defaultCluster.nameToNode c
         /\ defaultCluster.idToStream c ⊆ defaultCluster.idToStream c'
         /\ (forall id, id ∈ streamIDs -> is_Some (defaultCluster.idToStream c' !! id))
         /\ sent w'
            = (sent w ++ omap (fun id => (fun ch => (ch, MsgText msg))
                                           <$> defaultCluster.idToStream c' !! id)
                              streamIDs)%list).
Proof.
  intros N H c name msg nd w Hmu Hname.
  assert (Hopen : forall ids,
             defaultCluster.Write c name msg ids w
             = match Node.typeOf nd with
               | IsNodeTerminal vt =>
                 (syscall (SysTerminalWrite (Flags.Name (NodeTerminal.Flags vt)) msg) ;;;
                  ret (None, c)) w
               | IsNodeWebLocal vt =>
                 (if (length ids =? 0)%nat
                  then send (NodeWebLocal.sharedStream vt) (MsgText msg) ;;; ret (None, c)
                  else let* c := defaultCluster.Write_streams ids msg c in ret (None, c)) w
               | IsNodeWebRemoteClient vt =>
                 (if (0 <? length ids)%nat
                  then let* c := defaultCluster.Write_streams ids msg c in ret (None, c)
                  else ret (None, c)) w
               | IsOther => Returns (Some ErrNoWrite, c) w
               end).
  { intros ids. unfold defaultCluster.Write. unfold bind at 1 2. unfold Lock, Unlock.
    rewrite Hmu, Hname. rewrite unlock_lock_free by exact Hmu.
    destruct (Node.typeOf nd); reflexivity. }
  split; [|split].
  - intros vt Hvt. rewrite Hopen, Hvt. reflexivity.
  - intros vt Hvt. rewrite Hopen, Hvt. reflexivity.
  - intros ids Hids Hvt.
    destruct (Write_streams_run ids msg c w Hmu)
      as (c' & w' & Hrun & Hmu' & Hnodes & Hsub & Hall & Hsent & _).
    exists c', w'. split; [|now repeat split].
    rewrite Hopen. destruct ids as [|id ids]; [congruence|].
    destruct Hvt as [[vt Hvt]|[vt Hvt]]; rewrite Hvt; cbn [length Nat.eqb Nat.ltb Nat.leb];
      unfold bind; now rewrite Hrun.
Qed.

(** A line for the remote node [a] and the streams of two users, one of
    them named twice. *)
Lemma Write_sends_to_the_named_streams_witness :
  exists c' w',
    defaultCluster.Write (H := NodeWebRemoteClient_ops) Ex.remote_cluster "a" "hello"
                         ["u1"; "u2"; "u1"] (Ex.world 1000 1)
    = Returns (None, c') w'
    /\ sent w' = [(mkChan 1 5000, MsgText "hello"); (mkChan 2 5000, MsgText "hello");
                  (mkChan 1 5000, MsgText "hello")].
Proof.
  destruct (proj2 (proj2 (Write_sends_to_the_named_streams _ NodeWebRemoteClient_ops
                            Ex.remote_cluster "a" "hello"
                            (Ex.remote "a" "10.0.0.1:2379" true) (Ex.world 1000 1)
                            eq_refl eq_refl))
                  ["u1"; "u2"; "u1"] ltac:(discriminate)
                  (or_intror (ex_intro _ (Ex.remote "a" "10.0.0.1:2379" true) eq_refl)))
    as (c' & w' & Hrun & _).
  exists c', w'. split; [exact Hrun|].
  assert (Hw : answer (let* r := defaultCluster.Write (H := NodeWebRemoteClient_ops)
                                   Ex.remote_cluster "a" "hello" ["u1"; "u2"; "u1"] in
                       fun w => Returns (sent w) w) (Ex.world 1000 1)
               = Some [(mkChan 1 5000, MsgText "hello"); (mkChan 2 5000, MsgText "hello");
                       (mkChan 1 5000, MsgText "hello")])
    by (vm_compute; reflexivity).
  unfold answer, bind in Hw. rewrite Hrun in Hw. now injection Hw.
Defined.

(** ** Endpoints and the order of the range *)

(** [String.leb] through [String.compare]. *)
Lemma string_leb_compare (a b : string) :
  String.leb a b = true <-> String.compare a b <> Gt.
Proof.
  unfold String.leb. destruct (String.compare a b); split; congruence.
Qed.

Lemma ascii_compare_lt_trans (a b c : ascii) :
  Ascii.compare a b = Lt -> Ascii.compare b c = Lt -> Ascii.compare a c = Lt.
Proof.
  unfold Ascii.compare. rewrite !N.compare_lt_iff. lia.
Qed.

Lemma string_compare_lt_trans (a b c : string) :
  String.compare a b = Lt -> String.compare b c = Lt -> String.compare a c = Lt.
Proof.
  revert b c. induction a as [|x a IH]; intros [|y b] [|z c]; cbn; try congruence.
  destruct (Ascii.compare x y) eqn:Hxy; try discriminate.
  - apply Ascii.compare_eq_iff in Hxy as ->.
    destruct (Ascii.compare y z); try congruence. apply IH.
  - destruct (Ascii.compare y z) eqn:Hyz; try discriminate.
    + apply Ascii.compare_eq_iff in Hyz as <-. now rewrite Hxy.
    + now rewrite (ascii_compare_lt_trans x y z Hxy Hyz).
Qed.

Global Instance string_le_trans : Transitive string_le.
Proof.
  intros a b c. unfold string_le. rewrite !string_leb_compare. intros Hab Hbc.
  destruct (String.compare a b) eqn:Hab'; [| |congruence].
  - apply String.compare_eq_iff in Hab' as ->. exact Hbc.
  - destruct (String.compare b c) eqn:Hbc'; [| |congruence].
    + apply String.compare_eq_iff in Hbc' as <-. now rewrite Hab'.
    + now rewrite (string_compare_lt_trans a b c Hab' Hbc').
Qed.

Global Instance string_le_antisymm : AntiSymm eq string_le.
Proof. intros a b. apply String.leb_antisym. Qed.

(** X9. What [Endpoints] returns does not depend on the order in which
    the range visits the nodes: for any two orders (Go picks one at
    random on each call) the list and the map are the same, when the
    nodes with an endpoint answer [IsActive]. *)
Theorem Endpoints_does_not_depend_on_the_range :
  forall (N : Type) (H : Node.ops N) (c : defaultCluster.t N)
         (ks ks' : list string) (w : World),
    RangeOrder ks (defaultCluster.nameToNode c) ->
    RangeOrder ks' (defaultCluster.nameToNode c) ->
    (forall k nd, defaultCluster.nameToNode c !! k = Some nd ->
                  Node.Endpoint nd <> "" -> is_Some (Node.IsActive nd w)) ->
    defaultCluster.Endpoints c ks w = defaultCluster.Endpoints c ks' w
    /\ exists r, defaultCluster.Endpoints c ks w = Returns r w.
Proof.
  intros N H c ks ks' w Hks Hks' Hans.
  destruct (Endpoints_run c ks w Hks Hans) as (l & Hrun & Hsorted & Hperm).
  destruct (Endpoints_run c ks' w Hks' Hans) as (l' & Hrun' & Hsorted' & Hperm').
  rewrite Hrun, Hrun'. split; [|eauto].
  rewrite (Sorted_unique string_le l l' Hsorted Hsorted'); [reflexivity|].
  now rewrite Hperm, Hperm'.
Qed.

(** The three remote nodes, visited in two orders. *)
Lemma Endpoints_does_not_depend_on_the_range_witness :
  defaultCluster.Endpoints (H := NodeWebRemoteClient_ops) Ex.remote_cluster
                           ["c"; "a"; "b"] (Ex.world 1000 1)
  = defaultCluster.Endpoints (H := NodeWebRemoteClient_ops) Ex.remote_cluster
                             ["b"; "c"; "a"] (Ex.world 1000 1).
Proof.
  apply (Endpoints_does_not_depend_on_the_range _ NodeWebRemoteClient_ops
           Ex.remote_cluster ["c"; "a"; "b"] ["b"; "c"; "a"] (Ex.world 1000 1)).
  - unfold RangeOrder. vm_compute. reflexivity.
  - unfold RangeOrder. apply (bool_decide_unpack _). vm_compute. exact I.
  - intros k nd _ _. eexists. reflexivity.
Defined.

(** ** Shutdown of remote nodes *)

(** A remote node that does not run is left as it is by [set_active false]. *)
Lemma set_active_same (nd : NodeWebRemoteClient.t) :
  NodeWebRemoteClient.set_active (NodeWebRemoteClient.active nd) nd = nd.
Proof. now destruct nd. Qed.

(** [Terminate] of a remote node when the agent answers ([ok]) and when
    it refuses: the node does not run afterwards in the first case, and
    is as it was in the second. *)
Lemma NodeWebRemoteClient_Terminate_agent (ok : bool) (nd : NodeWebRemoteClient.t)
    (w : World) :
  (forall n, if ok then sys_err w n = None else sys_err w n <> None) ->
  exists r w',
    NodeWebRemoteClient.Terminate nd w
    = Returns (r, if ok then NodeWebRemoteClient.set_active false nd else nd) w'
    /\ sys_err w' = sys_err w.
Proof.
  intros Hw. destruct (NodeWebRemoteClient.active nd) eqn:Ha.
  - rewrite (NodeWebRemoteClient_Terminate_active nd w Ha).
    specialize (Hw (length (trace w))). destruct ok.
    + rewrite Hw. eexists _, _. split; reflexivity.
    + destruct (sys_err w (length (trace w))); [|congruence].
      eexists _, _. split; reflexivity.
  - rewrite (NodeWebRemoteClient_Terminate_inactive nd w Ha).
    eexists _, _. split; [|reflexivity].
    destruct ok; [|reflexivity]. now rewrite <- Ha, set_active_same.
Qed.

(** The node of a worker, given the node [nd0] it started with: as it
    was before [Terminate], and as [Terminate] leaves it after. *)
Lemma remote_worker_step_nodes (ok : bool) (name : string) (pcs : gmap string WorkerPC)
    (c0 c : defaultCluster.t NodeWebRemoteClient.t) (w : World) r w' :
  (forall n, if ok then sys_err w n = None else sys_err w n <> None) ->
  (forall k, defaultCluster.nameToNode c !! k
             = (fun nd0 => match pcs !! k with
                           | Some AtTerminate => nd0
                           | _ => if ok then NodeWebRemoteClient.set_active false nd0
                                  else nd0
                           end) <$> defaultCluster.nameToNode c0 !! k) ->
  dom pcs = dom (defaultCluster.nameToNode c0) ->
  defaultCluster.worker_step (H := NodeWebRemoteClient_ops) name pcs c w = Returns r w' ->
  sys_err w' = sys_err w
  /\ dom r.1 = dom (defaultCluster.nameToNode c0)
  /\ forall k, defaultCluster.nameToNode r.2 !! k
               = (fun nd0 => match r.1 !! k with
                             | Some AtTerminate => nd0
                             | _ => if ok then NodeWebRemoteClient.set_active false nd0
                                    else nd0
                             end) <$> defaultCluster.nameToNode c0 !! k.
Proof.
  intros Hw Hnodes Hdom. unfold defaultCluster.worker_step.
  destruct (pcs !! name) as [pc|] eqn:Hpc.
  2:{ assert (Hret : Returns (pcs, c) w = Returns r w' ->
                     sys_err w' = sys_err w
                     /\ dom r.1 = dom (defaultCluster.nameToNode c0)
                     /\ forall k, defaultCluster.nameToNode r.2 !! k
                                  = (fun nd0 => match r.1 !! k with
                                                | Some AtTerminate => nd0
                                                | _ => if ok
                                                       then NodeWebRemoteClient.set_active false nd0
                                                       else nd0
                                                end) <$> defaultCluster.nameToNode c0 !! k)
        by (intros [= <- <-]; now repeat split).
      destruct (defaultCluster.nameToNode c !! name); exact Hret. }
  destruct (defaultCluster.nameToNode c !! name) as [nd|] eqn:Hnd.
  2:{ destruct pc; intros [= <- <-]; now repeat split. }
  pose proof (Hnodes name) as Hname. rewrite Hnd, Hpc in Hname.
  destruct (defaultCluster.nameToNode c0 !! name) as [nd0|] eqn:Hnd0; [|discriminate].
  cbn in Hname. injection Hname as Hname.
  (* the node and the counter after the step *)
  assert (Hstep : forall pc' nd' w1,
             pc' <> AtTerminate ->
             nd' = (if ok then NodeWebRemoteClient.set_active false nd0 else nd0) ->
             sys_err w1 = sys_err w ->
             Returns (<[name := pc']> pcs, defaultCluster.set_node name nd' c) w1
             = Returns r w' ->
             sys_err w' = sys_err w
             /\ dom r.1 = dom (defaultCluster.nameToNode c0)
             /\ forall k, defaultCluster.nameToNode r.2 !! k
                          = (fun nd0 => match r.1 !! k with
                                        | Some AtTerminate => nd0
                                        | _ => if ok
                                               then NodeWebRemoteClient.set_active false nd0
                                               else nd0
                                        end) <$> defaultCluster.nameToNode c0 !! k).
  { intros pc' nd' w1 Hpc' -> Hsys [= <- <-]. split; [exact Hsys|]. split.
    - cbn [fst]. rewrite dom_insert_L, Hdom.
      apply subseteq_union_1_L, singleton_subseteq_l. now apply elem_of_dom_2 in Hnd0.
    - intros k. cbn [fst snd defaultCluster.set_node defaultCluster.nameToNode].
      destruct (decide (k = name)) as [->|Hne].
      + rewrite !lookup_insert_eq, Hnd0. cbn. now destruct pc'.
      + rewrite !lookup_insert_ne by congruence. apply Hnodes. }
  destruct pc.
  - destruct (NodeWebRemoteClient_Terminate_agent ok nd w Hw) as (e & w1 & Hrun & Hsys).
    unfold bind at 1. cbn [Node.Terminate NodeWebRemoteClient_ops]. rewrite Hrun.
    cbn [fst snd]. subst nd.
    destruct e; unfold bind, log_Printf, ret; now apply Hstep.
  - unfold bind at 1. cbn [Node.Clean NodeWebRemoteClient_ops].
    rewrite NodeWebRemoteClient_Clean_any. cbn [fst snd]. subst nd.
    destruct (sys_err w _); unfold bind, log_Printf, ret; cbn [fmap option_fmap option_map];
      now apply Hstep.
  - intros [= <- <-]. now repeat split.
Qed.

Lemma remote_run_workers_nodes (ok : bool) (sched : list string)
    (pcs : gmap string WorkerPC) (c0 c : defaultCluster.t NodeWebRemoteClient.t)
    (w : World) r w' :
  (forall n, if ok then sys_err w n = None else sys_err w n <> None) ->
  (forall k, defaultCluster.nameToNode c !! k
             = (fun nd0 => match pcs !! k with
                           | Some AtTerminate => nd0
                           | _ => if ok then NodeWebRemoteClient.set_active false nd0
                                  else nd0
                           end) <$> defaultCluster.nameToNode c0 !! k) ->
  dom pcs = dom (defaultCluster.nameToNode c0) ->
  defaultCluster.run_workers (H := NodeWebRemoteClient_ops) sched pcs c w = Returns r w' ->
  forall k, defaultCluster.nameToNode r.2 !! k
            = (fun nd0 => match r.1 !! k with
                          | Some AtTerminate => nd0
                          | _ => if ok then NodeWebRemoteClient.set_active false nd0
                                 else nd0
                          end) <$> defaultCluster.nameToNode c0 !! k.
Proof.
  revert pcs c w. induction sched as [|name sched IH]; intros pcs c w Hw Hnodes Hdom;
    cbn [defaultCluster.run_workers].
  - intros [= <- <-]. exact Hnodes.
  - unfold bind at 1.
    destruct (defaultCluster.worker_step name pcs c w) as [r1 w1|] eqn:Hstep; [|blocked].
    destruct (remote_worker_step_nodes ok name pcs c0 c w r1 w1 Hw Hnodes Hdom Hstep)
      as (Hsys & Hdom1 & Hnodes1).
    apply IH; try assumption. intros n. rewrite Hsys. apply Hw.
Qed.

(** X10. What [Shutdown] leaves of remote nodes. Whenever it returns: if
    the agents answer every request, each node is as it was but for its
    flag, which says that it does not run; if the agents refuse every
    request, each node is exactly as it was, so that a node that ran
    still counts as running although [Shutdown] returned nil. *)
Theorem Shutdown_of_remote_nodes :
  forall (c c' : defaultCluster.t NodeWebRemoteClient.t) (sched : list string)
         (r : option error) (w w' : World),
    defaultCluster.Shutdown (H := NodeWebRemoteClient_ops) c sched w = Returns (r, c') w' ->
    ((forall n, sys_err w n = None) ->
     defaultCluster.nameToNode c'
     = NodeWebRemoteClient.set_active false <$> defaultCluster.nameToNode c)
    /\
    ((forall n, sys_err w n <> None) ->
     defaultCluster.nameToNode c' = defaultCluster.nameToNode c).
Proof.
  intros c c' sched r w w'. unfold defaultCluster.Shutdown.
  destruct (Nat.eqb_spec (size (defaultCluster.nameToNode c)) 0) as [Hempty|_].
  - intros [= <- <- <-]. apply map_size_empty_iff in Hempty. rewrite Hempty.
    split; intros _; [now rewrite fmap_empty | reflexivity].
  - unfold bind at 1.
    destruct (defaultCluster.run_workers sched _ c w) as [r1 w1|] eqn:Hrun; [|blocked].
    unfold bind, defaultCluster.wg_Wait, ret.
    destruct (defaultCluster.all_done r1.1) eqn:Hdone; [|blocked].
    intros [= <- <- <-]. apply bool_decide_eq_true_1 in Hdone.
    assert (Hall : forall ok : bool,
               (forall n, if ok then sys_err w n = None else sys_err w n <> None) ->
               forall k, defaultCluster.nameToNode r1.2 !! k
                         = (fun nd0 => if ok then NodeWebRemoteClient.set_active false nd0
                                       else nd0) <$> defaultCluster.nameToNode c !! k).
    { intros ok Hw k.
      rewrite (remote_run_workers_nodes ok sched
                 ((fun _ : NodeWebRemoteClient.t => AtTerminate)
                    <$> defaultCluster.nameToNode c) c c w r1 w1 Hw); try exact Hrun.
      - destruct (defaultCluster.nameToNode c !! k) as [nd0|] eqn:Hk; [|reflexivity].
        cbn. destruct (r1.1 !! k) as [pc|] eqn:Hpc; [|reflexivity].
        now rewrite (Hdone k pc Hpc).
      - intros k'. rewrite lookup_fmap.
        destruct (defaultCluster.nameToNode c !! k'); reflexivity.
      - apply dom_fmap_L. }
    split; intros Hw; apply map_eq; intros k.
    + rewrite (Hall true Hw k). now rewrite lookup_fmap.
    + rewrite (Hall false Hw k). now destruct (defaultCluster.nameToNode c !! k).
Qed.

(** The three remote nodes, two of which run, with agents that answer. *)
Lemma Shutdown_of_remote_nodes_witness :
  exists c' w',
    defaultCluster.Shutdown (H := NodeWebRemoteClient_ops) Ex.remote_cluster
                            ["a"; "b"; "c"; "c"; "b"; "a"] (Ex.world 1000 1)
    = Returns (None, c') w'
    /\ defaultCluster.nameToNode c'
       = NodeWebRemoteClient.set_active false <$> defaultCluster.nameToNode Ex.remote_cluster.
Proof.
  eexists _, _.
  assert (Hrun : defaultCluster.Shutdown (H := NodeWebRemoteClient_ops) Ex.remote_cluster
                   ["a"; "b"; "c"; "c"; "b"; "a"] (Ex.world 1000 1)
                 = Returns (None, _) _) by (vm_compute; reflexivity).
  split; [exact Hrun|].
  apply (proj1 (Shutdown_of_remote_nodes _ _ _ _ _ _ Hrun)). reflexivity.
Defined.

(** ** Revive of remote nodes *)

(** The second loop of [Revive] on remote nodes that do not run, with
    agents that answer. *)
Lemma remote_Revive_restart_run (ks : list string)
    (c : defaultCluster.t NodeWebRemoteClient.t) (w : World) :
  NoDup ks ->
  (forall n, sys_err w n = None) ->
  (forall k, k ∈ ks -> exists nd, defaultCluster.nameToNode c !! k = Some nd
                                   /\ NodeWebRemoteClient.active nd = false) ->
  exists c' w',
    defaultCluster.Revive_restart (H := NodeWebRemoteClient_ops) ks c w
    = Returns (None, c') w'
    /\ (forall j, defaultCluster.nameToNode c' !! j
                  = if decide (j ∈ ks)
                    then NodeWebRemoteClient.set_active true
                           <$> defaultCluster.nameToNode c !! j
                    else defaultCluster.nameToNode c !! j)
    /\ trace w'
       = (trace w
          ++ omap (fun k => (fun nd => SysAgentRestart (NodeWebRemoteClient.Agent nd))
                              <$> defaultCluster.nameToNode c !! k) ks)%list.
Proof.
  intros Hnodup. revert c w.
  induction Hnodup as [|k ks Hk Hnodup IH]; intros c w Hw Hdown;
    cbn [defaultCluster.Revive_restart].
  - exists c, w. split; [reflexivity|]. split.
    + intros j. now rewrite decide_False by apply not_elem_of_nil.
    + cbn. now rewrite app_nil_r.
  - destruct (Hdown k ltac:(left)) as (nd & Hnd & Ha). rewrite Hnd.
    unfold bind at 1. cbn [Node.Restart NodeWebRemoteClient_ops].
    rewrite (NodeWebRemoteClient_Restart_inactive nd w Ha), Hw. cbn [fst snd].
    set (c1 := defaultCluster.set_node k (NodeWebRemoteClient.set_active true nd) c).
    set (w1 := set_trace (trace w ++ [SysAgentRestart (NodeWebRemoteClient.Agent nd)]) w).
    assert (Hother : forall j, j <> k ->
               defaultCluster.nameToNode c1 !! j = defaultCluster.nameToNode c !! j).
    { intros j Hj. unfold c1. cbn. now rewrite lookup_insert_ne by congruence. }
    destruct (IH c1 w1) as (c' & w' & Hrun & Hnodes & Htrace).
    { exact Hw. }
    { intros k' Hk'. rewrite Hother by (intros ->; contradiction).
      apply Hdown. now right. }
    exists c', w'. split; [exact Hrun|]. split.
    + intros j. rewrite Hnodes. destruct (decide (j = k)) as [->|Hne].
      * rewrite decide_False by exact Hk. rewrite decide_True by left.
        unfold c1. cbn. now rewrite lookup_insert_eq, Hnd.
      * rewrite (Hother j Hne). apply decide_ext. rewrite elem_of_cons. intuition.
    + rewrite Htrace. unfold w1. cbn [trace set_trace].
      rewrite (omap_cons_Some _ k ks (SysAgentRestart (NodeWebRemoteClient.Agent nd)))
        by now rewrite Hnd.
      rewrite <- app_assoc. cbn [app]. do 2 f_equal.
      apply omap_ext_elem. intros k' Hk'.
      now rewrite Hother by (intros ->; contradiction).
Qed.

(** X11. [Revive] on remote nodes none of which runs, with agents that
    answer: it returns nil after one [Restart] request to the agent of
    each node, sent in the order of the second range; afterwards every
    node counts as running and is otherwise as it was, and the streams
    are untouched. If the cluster has a node, a [Revive] called after
    that does nothing, whatever the order of its ranges. *)
Theorem Revive_of_dead_remote_nodes :
  forall (c : defaultCluster.t NodeWebRemoteClient.t) (ks1 ks2 : list string) (w : World),
    RangeOrder ks1 (defaultCluster.nameToNode c) ->
    RangeOrder ks2 (defaultCluster.nameToNode c) ->
    (forall k nd, defaultCluster.nameToNode c !! k = Some nd ->
                  NodeWebRemoteClient.active nd = false) ->
    (forall n, sys_err w n = None) ->
    exists c' w',
      defaultCluster.Revive (H := NodeWebRemoteClient_ops) c ks1 ks2 w
      = Returns (None, c') w'
      /\ c' = defaultCluster.mk (defaultCluster.sharedStream c) (defaultCluster.idToStream c)
                (NodeWebRemoteClient.set_active true <$> defaultCluster.nameToNode c)
      /\ trace w'
         = (trace w
            ++ omap (fun k => (fun nd => SysAgentRestart (NodeWebRemoteClient.Agent nd))
                                <$> defaultCluster.nameToNode c !! k) ks2)%list
      /\ (defaultCluster.nameToNode c <> ∅ ->
          forall ks1' ks2',
            RangeOrder ks1' (defaultCluster.nameToNode c) ->
            defaultCluster.Revive (H := NodeWebRemoteClient_ops) c' ks1' ks2' w'
            = Returns (None, c') w').
Proof.
  intros c ks1 ks2 w Hks1 Hks2 Hdown Hw.
  destruct (remote_Revive_restart_run ks2 c w (RangeOrder_NoDup _ _ Hks2) Hw)
    as (c' & w' & Hrun & Hnodes & Htrace).
  { intros k Hk. apply (RangeOrder_lookup _ _ _ Hks2) in Hk as [nd Hnd]. eauto. }
  assert (Hrevive : defaultCluster.Revive (H := NodeWebRemoteClient_ops) c ks1 ks2 w
                    = Returns (None, c') w').
  { unfold defaultCluster.Revive, bind.
    rewrite (Revive_active_none (H := NodeWebRemoteClient_ops) c ks1 w); [exact Hrun|].
    intros k nd Hk. cbn. unfold answer, NodeWebRemoteClient.IsActive, ret.
    now rewrite (Hdown k nd Hk). }
  assert (Hc' : c' = defaultCluster.mk (defaultCluster.sharedStream c)
                       (defaultCluster.idToStream c)
                       (NodeWebRemoteClient.set_active true <$> defaultCluster.nameToNode c)).
  { pose proof (Revive_restart_keeps (H := NodeWebRemoteClient_ops) _ _ _ _ _ Hrun) as Hids.
    pose proof (Revive_restart_registry (H := NodeWebRemoteClient_ops) _ _ _ _ _ Hrun)
      as [_ Hshared].
    cbn [snd] in Hids, Hshared. destruct c' as [sh ids nodes]. cbn in *. subst sh ids.
    f_equal. apply map_eq. intros j. rewrite Hnodes, lookup_fmap.
    case_decide as Hj; [reflexivity|].
    destruct (defaultCluster.nameToNode c !! j) as [nd|] eqn:Hnd; [|reflexivity].
    exfalso. apply Hj. apply (RangeOrder_lookup _ _ _ Hks2). eauto. }
  exists c', w'. split; [exact Hrevive|]. split; [exact Hc'|]. split; [exact Htrace|].
  intros Hnonempty ks1' ks2' Hks1'.
  apply map_choose in Hnonempty as (k & nd & Hk).
  unfold defaultCluster.Revive, bind.
  rewrite (Revive_active_found (H := NodeWebRemoteClient_ops) c' ks1' w' k
             (NodeWebRemoteClient.set_active true nd)); try reflexivity.
  - intros k' nd' _. cbn. unfold answer, NodeWebRemoteClient.IsActive, ret. eauto.
  - apply (RangeOrder_lookup _ _ _ Hks1'). eauto.
  - rewrite Hc'. cbn. now rewrite lookup_fmap, Hk.
Qed.

(** The three remote nodes, none of which runs. *)
Lemma Revive_of_dead_remote_nodes_witness :
  exists c' w',
    defaultCluster.Revive (H := NodeWebRemoteClient_ops) Ex.remote_cluster_down
                          ["c"; "a"; "b"] ["b"; "c"; "a"] (Ex.world 1000 1)
    = Returns (None, c') w'
    /\ trace w' = [SysAgentRestart (mkAgent "10.0.0.2:2379");
                   SysAgentRestart (mkAgent "10.0.0.3:2379");
                   SysAgentRestart (mkAgent "10.0.0.1:2379")].
Proof.
  destruct (Revive_of_dead_remote_nodes Ex.remote_cluster_down
              ["c"; "a"; "b"] ["b"; "c"; "a"] (Ex.world 1000 1))
    as (c' & w' & Hrun & _ & Htrace & _).
  - unfold RangeOrder. vm_compute. reflexivity.
  - unfold RangeOrder. apply (bool_decide_unpack _). vm_compute. exact I.
  - intros k nd Hk. unfold Ex.remote_cluster_down in Hk. cbn in Hk.
    repeat (apply lookup_insert_Some in Hk as [[_ <-]|[_ Hk]]; [reflexivity|]).
    now rewrite lookup_empty in Hk.
  - reflexivity.
  - exists c', w'. split; [exact Hrun|]. rewrite Htrace. reflexivity.
Defined.

(** ** NewCluster *)

(** The loop of [NewCluster] always comes to an end. *)
Lemma NewCluster_range_returns (opt : NodeType) (programPath : string) (o : op)
    (bufferedStream : chan) (fs : list Flags.t) (i : nat)
    (maxProcNameLength colorIdx : Z) (nameToNode : gmap string node) (w : World) :
  exists r w',
    NewCluster_range opt programPath o bufferedStream fs i maxProcNameLength colorIdx
                     nameToNode w
    = Returns r w'.
Proof.
  revert i maxProcNameLength colorIdx nameToNode w.
  induction fs as [|f fs IH]; intros i m ci nodes w; cbn [NewCluster_range].
  - eexists _, _. reflexivity.
  - unfold bind at 1.
    destruct (opt =? Terminal); [unfold ret at 1; apply IH|].
    destruct (opt =? WebLocal); [unfold ret at 1; apply IH|].
    destruct (opt =? WebRemote); [|eexists _, _; reflexivity].
    destruct (length (op_agentEndpoints o) =? 0)%nat; [eexists _, _; reflexivity|].
    unfold bind at 1, syscall at 1.
    destruct (sys_err w (length (trace w))); cbn [fmap option_fmap option_map];
      [eexists _, _; reflexivity|].
    unfold ret at 1. apply IH.
Qed.

(** The loop for a node type that is none of the three: it stops at the
    first member. *)
Lemma NewCluster_range_not_implemented (opt : NodeType) (programPath : string) (o : op)
    (bufferedStream : chan) (f : Flags.t) (fs : list Flags.t) (i : nat)
    (maxProcNameLength colorIdx : Z) (nameToNode : gmap string node) (w : World) :
  opt <> Terminal -> opt <> WebLocal -> opt <> WebRemote ->
  NewCluster_range opt programPath o bufferedStream (f :: fs) i maxProcNameLength colorIdx
                   nameToNode w
  = Returns (inl (ErrNotImplemented opt)) w.
Proof.
  intros H0 H1 H2. cbn [NewCluster_range]. unfold bind at 1.
  apply Z.eqb_neq in H0, H1, H2. now rewrite H0, H1, H2.
Qed.

(** X12. What [NewCluster] refuses, for a list of flags that is not
    empty; [o] is the result of the options. It returns a cluster or an
    error, never both and never neither. A remote cluster with agent
    endpoints whose number differs from the number of flags is refused
    before anything is done, and so is any cluster whose flags
    [CombineFlags] rejects: the world is as before. A remote cluster
    without agent endpoints and a node type that is none of the three
    are refused as well, after the shared channel was made. *)
Theorem NewCluster_refusals_leave_no_cluster :
  forall (opt : NodeType) (programPath : string) (fs : list Flags.t)
         (opts : list OpOption) (w : World),
    fs <> [] ->
    let o := op_apply (mkOp false 0 []) opts in
    (exists w', (exists c, NewCluster opt programPath fs opts w = Returns (Some c, None) w')
                \/ (exists e, NewCluster opt programPath fs opts w
                              = Returns (None, Some e) w'))
    /\ (opt = WebRemote -> op_agentEndpoints o <> [] ->
        length (op_agentEndpoints o) <> length fs ->
        NewCluster opt programPath fs opts w
        = Returns (None, Some (ErrAgentEndpointsSize (length (op_agentEndpoints o))
                                                     (length fs))) w)
    /\ (forall msg,
          (opt = WebRemote -> op_agentEndpoints o <> [] ->
           length (op_agentEndpoints o) = length fs) ->
          (Flags_Combine w (opt =? WebRemote) fs).2 = Some msg ->
          NewCluster opt programPath fs opts w = Returns (None, Some (ErrExternal msg)) w)
    /\ ((Flags_Combine w (opt =? WebRemote) fs).2 = None ->
        (Flags_Combine w (opt =? WebRemote) fs).1 <> [] ->
        (opt = WebRemote -> op_agentEndpoints o = [] ->
         NewCluster opt programPath fs opts w
         = Returns (None, Some ErrNoAgentEndpoints) (set_chans (S (chans w)) w))
        /\ (opt <> Terminal -> opt <> WebLocal -> opt <> WebRemote ->
            NewCluster opt programPath fs opts w
            = Returns (None, Some (ErrNotImplemented opt)) (set_chans (S (chans w)) w))).
Proof.
  intros opt programPath fs opts w Hfs o.
  assert (Hlen : (length fs =? 0)%nat = false).
  { destruct fs; [congruence | reflexivity]. }
  split; [|split; [|split]].
  - assert (Hshape : exists r w',
               NewCluster opt programPath fs opts w = Returns r w'
               /\ ((exists c, r = (Some c, None)) \/ (exists e, r = (None, Some e)))).
    { unfold NewCluster. rewrite Hlen. fold o.
      destruct (_ && _ && _); [eexists _, _; split; [reflexivity | right; eauto]|].
      unfold bind at 1, CombineFlags at 1. cbn [fst snd].
      destruct ((Flags_Combine w (opt =? WebRemote) fs).2) as [msg|];
        cbn [fmap option_fmap option_map];
        [eexists _, _; split; [reflexivity | right; eauto]|].
      unfold bind at 1, make_chan at 1. unfold bind at 1.
      destruct (NewCluster_range_returns opt programPath o (mkChan (chans w) 5000)
                  (Flags_Combine w (opt =? WebRemote) fs).1 0 0 0 ∅
                  (set_chans (S (chans w)) w)) as ([e|[nodes m]] & w' & Hrun);
        rewrite Hrun; eexists _, _; (split; [reflexivity|]); [right | left]; eauto. }
    destruct Hshape as (r & w' & Hrun & [[c ->]|[e ->]]); exists w'; [left | right]; eauto.
  - intros -> Hagents Hsize. unfold NewCluster. rewrite Hlen. fold o.
    assert (H1 : (0 <? length (op_agentEndpoints o))%nat = true).
    { apply Nat.ltb_lt. destruct (op_agentEndpoints o); [congruence | cbn; lia]. }
    assert (H2 : (length (op_agentEndpoints o) =? length fs)%nat = false)
      by now apply Nat.eqb_neq.
    rewrite H1, H2. reflexivity.
  - intros msg Hsize Hcombine. unfold NewCluster. rewrite Hlen. fold o.
    assert (Hguard : (0 <? length (op_agentEndpoints o))%nat && (opt =? WebRemote)
                     && negb (length (op_agentEndpoints o) =? length fs)%nat = false).
    { destruct (0 <? length (op_agentEndpoints o))%nat eqn:H1; [|reflexivity].
      destruct (Z.eqb_spec opt WebRemote) as [Hopt|_]; [|reflexivity].
      cbn. apply negb_false_iff, Nat.eqb_eq. apply Hsize; [exact Hopt|].
      apply Nat.ltb_lt in H1. destruct (op_agentEndpoints o); [cbn in H1; lia | congruence]. }
    rewrite Hguard. unfold bind, CombineFlags. cbn [fst snd]. now rewrite Hcombine.
  - intros Hcombine Hcombined.
    destruct ((Flags_Combine w (opt =? WebRemote) fs).1) as [|f fs'] eqn:Hfs';
      [congruence|].
    split.
    + intros -> Hagents. unfold NewCluster. rewrite Hlen. fold o. rewrite Hagents.
      cbn [length Nat.ltb Nat.leb andb].
      unfold bind at 1, CombineFlags at 1. cbn [fst snd].
      change (WebRemote =? WebRemote) with true in *. rewrite Hcombine, Hfs'.
      cbn [fmap option_fmap option_map].
      unfold bind at 1, make_chan at 1. unfold bind at 1.
      cbn [NewCluster_range]. unfold bind at 1. rewrite Hagents. reflexivity.
    + intros H0 H1 H2. unfold NewCluster. rewrite Hlen. fold o.
      assert (Hopt : (opt =? WebRemote) = false) by now apply Z.eqb_neq.
      rewrite Hopt in *. rewrite andb_false_r. cbn [andb].
      unfold bind at 1, CombineFlags at 1. cbn [fst snd]. rewrite Hcombine, Hfs'.
      cbn [fmap option_fmap option_map].
      unfold bind at 1, make_chan at 1. unfold bind at 1.
      now rewrite NewCluster_range_not_implemented.
Qed.

(** A remote cluster of one member with two agent endpoints. *)
Lemma NewCluster_refusals_leave_no_cluster_witness :
  NewCluster WebRemote "etcd" [Ex.flags "a" "10.0.0.1:2379"]
             [WithAgentEndpoints ["x"; "y"]] (Ex.world 1000 1)
  = Returns (None, Some (ErrAgentEndpointsSize 2 1)) (Ex.world 1000 1).
Proof.
  apply (proj1 (proj2 (NewCluster_refusals_leave_no_cluster WebRemote "etcd"
                         [Ex.flags "a" "10.0.0.1:2379"] [WithAgentEndpoints ["x"; "y"]]
                         (Ex.world 1000 1) ltac:(discriminate)))).
  - reflexivity.
  - discriminate.
  - cbn. lia.
Defined.

(** ** The writer of a local node *)

Lemma string_app_cons (x : ascii) (a b : string) :
  (String x a ++ b)%string = String x (a ++ b)%string.
Proof. reflexivity. Qed.

Lemma string_app_nil_l (b : string) : (EmptyString ++ b)%string = b.
Proof. reflexivity. Qed.

Lemma string_app_assoc (a b c : string) : ((a ++ b) ++ c = a ++ (b ++ c))%string.
Proof.
  induction a as [|x a IH]; [reflexivity|]. rewrite !string_app_cons. now f_equal.
Qed.

Lemma string_app_nil_r (a : string) : (a ++ EmptyString = a)%string.
Proof.
  induction a as [|x a IH]; [reflexivity|]. rewrite string_app_cons. now f_equal.
Qed.

Lemma no_newline_app (a b : string) :
  no_newline (a ++ b) = no_newline a && no_newline b.
Proof.
  induction a as [|x a IH]; [reflexivity|].
  rewrite string_app_cons. cbn [no_newline]. rewrite IH. now rewrite andb_assoc.
Qed.

(** The lines that [ReadBytes] yields, and what is left for the call that
    returns [io.EOF]: together they are the buffer, behind what [line]
    held; every line ends with the one newline it has; what is left has
    none. *)
Lemma ReadBytes_lines_split (buf line : string) :
  no_newline line = true ->
  exists rest,
    (line ++ buf)%string = (join (NodeWebLocal.ReadBytes_lines buf line) ++ rest)%string
    /\ no_newline rest = true
    /\ Forall (fun l => exists body, l = (body ++ String newline EmptyString)%string
                                     /\ no_newline body = true)
              (NodeWebLocal.ReadBytes_lines buf line).
Proof.
  revert line. induction buf as [|c buf IH]; intros line Hline;
    cbn [NodeWebLocal.ReadBytes_lines].
  - exists line. cbn [join fold_right]. rewrite string_app_nil_r, string_app_nil_l.
    repeat split; auto.
  - destruct (Ascii.eqb_spec c newline) as [->|Hc].
    + destruct (IH EmptyString eq_refl) as (rest & Hbuf & Hrest & Hall).
      exists rest. split; [|split; [exact Hrest|]].
      * cbn [join fold_right]. fold (join (NodeWebLocal.ReadBytes_lines buf EmptyString)).
        rewrite !string_app_assoc. rewrite string_app_nil_l in Hbuf.
        rewrite string_app_cons, string_app_nil_l. now rewrite <- Hbuf.
      * constructor; [|exact Hall]. now exists line.
    + destruct (IH (line ++ String c EmptyString)%string) as (rest & Hbuf & Hrest & Hall).
      { rewrite no_newline_app, Hline. cbn [no_newline andb].
        destruct (Ascii.eqb_spec c newline); [contradiction | reflexivity]. }
      exists rest. rewrite string_app_assoc, string_app_cons, string_app_nil_l in Hbuf.
      split; [exact Hbuf|]. split; [exact Hrest | exact Hall].
Qed.

(** Bytes without a newline at the end of the buffer add no line. *)
Lemma ReadBytes_lines_tail (buf tail line : string) :
  no_newline tail = true ->
  NodeWebLocal.ReadBytes_lines (buf ++ tail) line = NodeWebLocal.ReadBytes_lines buf line.
Proof.
  intros Htail. revert line. induction buf as [|c buf IH]; intros line.
  - rewrite string_app_nil_l. cbn [NodeWebLocal.ReadBytes_lines].
    revert line. induction tail as [|c tail IHt]; intros line; [reflexivity|].
    cbn [no_newline NodeWebLocal.ReadBytes_lines] in *.
    apply andb_true_iff in Htail as [Hc Htail].
    apply negb_true_iff in Hc. rewrite Hc. now apply IHt.
  - rewrite string_app_cons. cbn [NodeWebLocal.ReadBytes_lines].
    destruct (Ascii.eqb c newline); now rewrite IH.
Qed.

Lemma set_sent_set_sent (s1 s2 : list (chan * Msg)) (w : World) :
  set_sent s2 (set_sent s1 w) = set_sent s2 w.
Proof. reflexivity. Qed.

(** The loop of [Write] with a colour index in range. *)
Lemma Write_lines_run (sprintf : string -> string -> string -> string)
    (nd : NodeWebLocal.t) (a : Attribute) (lines : list string) (w : World) :
  index colorsTerminal (NodeWebLocal.colorIdx nd) = Some a ->
  NodeWebLocal.Write_lines sprintf nd lines w
  = Returns true
      (set_sent (sent w
                 ++ ((fun l => (NodeWebLocal.sharedStream nd,
                                MsgText (sprintf (NodeWebLocal.Write_format nd a)
                                                 (Flags.Name (NodeWebLocal.Flags nd)) l)))
                       <$> filter (fun l => (1 < String.length l)%nat) lines))%list
                w).
Proof.
  intros Ha. revert w. induction lines as [|l lines IH]; intros w;
    cbn [NodeWebLocal.Write_lines].
  - rewrite filter_nil. cbn. rewrite app_nil_r. now destruct w.
  - rewrite filter_cons. destruct (Nat.ltb_spec 1 (String.length l)) as [Hl|Hl].
    + rewrite decide_True by exact Hl. rewrite Ha. unfold bind, send. rewrite IH.
      cbn [sent set_sent fmap list_fmap]. rewrite set_sent_set_sent.
      now rewrite <- app_assoc.
    + rewrite decide_False by lia. apply IH.
Qed.

(** The loop of [Write] with a colour index out of range: it panics at
    the first line of more than one byte, and has sent nothing. *)
Lemma Write_lines_panic (sprintf : string -> string -> string -> string)
    (nd : NodeWebLocal.t) (lines : list string) (w : World) :
  index colorsTerminal (NodeWebLocal.colorIdx nd) = None ->
  NodeWebLocal.Write_lines sprintf nd lines w
  = Returns (forallb (fun l => String.length l <=? 1)%nat lines) w.
Proof.
  intros Ha. induction lines as [|l lines IH]; cbn [NodeWebLocal.Write_lines forallb].
  - reflexivity.
  - rewrite Ha. destruct (Nat.ltb_spec 1 (String.length l)) as [Hl|Hl].
    + apply Nat.leb_gt in Hl. now rewrite Hl.
    + apply Nat.leb_le in Hl. now rewrite Hl, IH.
Qed.

(** X13. [Write] of a local node whose colour index is in range, on the
    bytes [p]. It returns [len(p)] and a nil error. [p] is cut after
    each newline; every piece of more than one byte (a line that is not
    empty) is sent once, in order, on the shared stream, as
    [fmt.Sprintf] prints the name of the node and the piece in the format
    of the node; a line that is only a newline is skipped. What follows
    the last newline is sent nowhere, although the returned length counts
    it: bytes without a newline that are added at the end of [p] change
    nothing but the length returned. *)
Theorem Write_sends_the_complete_lines :
  forall (sprintf : string -> string -> string -> string)
         (nd : NodeWebLocal.t) (a : Attribute) (p : string) (w : World),
    index colorsTerminal (NodeWebLocal.colorIdx nd) = Some a ->
    (exists lines rest,
        p = (join lines ++ rest)%string
        /\ no_newline rest = true
        /\ Forall (fun l => exists body, l = (body ++ String newline EmptyString)%string
                                         /\ no_newline body = true) lines
        /\ NodeWebLocal.Write sprintf nd p w
           = Returns (Some (Z.of_nat (String.length p), None))
               (set_sent (sent w
                          ++ ((fun l => (NodeWebLocal.sharedStream nd,
                                         MsgText (sprintf (NodeWebLocal.Write_format nd a)
                                                    (Flags.Name (NodeWebLocal.Flags nd)) l)))
                                <$> filter (fun l => (1 < String.length l)%nat) lines))%list
                         w))
    /\
    (forall tail w',
        no_newline tail = true ->
        NodeWebLocal.Write sprintf nd p w
        = Returns (Some (Z.of_nat (String.length p), None)) w' ->
        NodeWebLocal.Write sprintf nd (p ++ tail) w
        = Returns (Some (Z.of_nat (String.length (p ++ tail)), None)) w').
Proof.
  intros sprintf nd a p w Ha. split.
  - destruct (ReadBytes_lines_split p EmptyString eq_refl) as (rest & Hp & Hrest & Hall).
    exists (NodeWebLocal.ReadBytes_lines p EmptyString), rest.
    rewrite string_app_nil_l in Hp. split; [exact Hp|]. split; [exact Hrest|]. split; [exact Hall|].
    unfold NodeWebLocal.Write, bind. now rewrite (Write_lines_run sprintf nd a _ w Ha).
  - intros tail w' Htail. unfold NodeWebLocal.Write, bind.
    rewrite (ReadBytes_lines_tail p tail _ Htail).
    rewrite (Write_lines_run sprintf nd a _ w Ha). unfold ret. now intros [= <-].
Qed.

(** The bytes [ready], two newlines and [part]: one line is sent. *)
Lemma Write_sends_the_complete_lines_witness :
  exists w',
    NodeWebLocal.Write Ex.sprintf (Ex.local "a" "localhost:2379" true 0 0) Ex.output
                       (Ex.world 1000 1)
    = Returns (Some (11, None)) w'
    /\ length (sent w') = 1%nat.
Proof.
  destruct (proj1 (Write_sends_the_complete_lines Ex.sprintf
                     (Ex.local "a" "localhost:2379" true 0 0)
                     FgRed Ex.output (Ex.world 1000 1) eq_refl))
    as (lines & rest & _ & _ & _ & Hrun).
  eexists. split; [exact Hrun|].
  assert (Hw : answer (let* r := NodeWebLocal.Write Ex.sprintf
                                   (Ex.local "a" "localhost:2379" true 0 0) Ex.output in
                       fun w => Returns (length (sent w)) w) (Ex.world 1000 1)
               = Some 1%nat) by (vm_compute; reflexivity).
  unfold answer, bind in Hw. rewrite Hrun in Hw. now injection Hw.
Defined.

(** The format of that node: red, and a width of one. *)
Example Write_format_of_a_node :
  NodeWebLocal.Write_format (Ex.local "a" "localhost:2379" true 0 0) FgRed
  = ("<b><font color=" ++ String quote ("#ff0000" ++ String quote ">%1s | </font>%s</b>"))%string.
Proof. vm_compute. reflexivity. Qed.

(** ** The nodes that NewCluster makes *)

(** The loop of [NewCluster] for local nodes. *)
Lemma NewCluster_range_WebLocal (programPath : string) (o : op) (bufferedStream : chan)
    (fs : list Flags.t) (i : nat) (maxProcNameLength colorIdx : Z)
    (nameToNode : gmap string node) (w : World) :
  0 <= colorIdx ->
  exists nodes m,
    NewCluster_range WebLocal programPath o bufferedStream fs i maxProcNameLength colorIdx
                     nameToNode w
    = Returns (inr (nodes, m)) w
    /\ maxProcNameLength <= m
    /\ (forall f, f ∈ fs -> Z.of_nat (String.length (Flags.Name f)) <= m)
    /\ dom nodes = dom nameToNode ∪ list_to_set (Flags.Name <$> fs)
    /\ forall k nd,
         nodes !! k = Some nd ->
         nameToNode !! k = Some nd
         \/ exists f idx m',
              f ∈ fs /\ Flags.Name f = k /\ 0 <= idx < len_colorsTerminal
              /\ nd = OfWebLocal
                        (NodeWebLocal.mk m' idx (op_liveLog o) bufferedStream programPath f
                           None 0 false (op_limitInterval o) zeroTime zeroTime).
Proof.
  revert i maxProcNameLength colorIdx nameToNode.
  induction fs as [|f fs IH]; intros i m0 ci nodes0 Hci; cbn [NewCluster_range].
  - exists nodes0, m0. split; [reflexivity|]. split; [lia|]. split; [|split].
    + intros f Hf. now apply elem_of_nil in Hf.
    + cbn. now rewrite union_empty_r_L.
    + intros k nd Hk. now left.
  - change (WebLocal =? Terminal) with false. change (WebLocal =? WebLocal) with true.
    cbn iota. unfold bind at 1, ret at 1.
    set (ci' := if len_colorsTerminal <=? ci then 0 else ci).
    set (m1 := if m0 <? Z.of_nat (String.length (Flags.Name f))
               then Z.of_nat (String.length (Flags.Name f)) else m0).
    set (ni := OfWebLocal (NodeWebLocal.mk m1 ci' (op_liveLog o) bufferedStream programPath f
                             None 0 false (op_limitInterval o) zeroTime zeroTime)).
    assert (Hci' : 0 <= ci' < len_colorsTerminal).
    { unfold ci', len_colorsTerminal. destruct (Z.leb_spec 5 ci); lia. }
    destruct (IH (S i) m1 (ci' + 1) (<[Flags.Name f := ni]> nodes0) ltac:(lia))
      as (nodes & m & Hrun & Hm & Hfit & Hdom & Hnodes).
    exists nodes, m. split; [exact Hrun|].
    assert (Hm1 : m0 <= m1 /\ Z.of_nat (String.length (Flags.Name f)) <= m1).
    { unfold m1. destruct (Z.ltb_spec m0 (Z.of_nat (String.length (Flags.Name f)))); lia. }
    split; [lia|]. split; [|split].
    + intros f' Hf'. apply elem_of_cons in Hf' as [->|Hf']; [lia | now apply Hfit].
    + rewrite Hdom, dom_insert_L. cbn [fmap list_fmap list_to_set].
      rewrite (comm_L (∪) {[Flags.Name f]} (dom nodes0)), <- (assoc_L (∪)).
      reflexivity.
    + intros k nd Hk. destruct (Hnodes k nd Hk) as [Hold|(f' & idx & m' & Hf' & Hrest)].
      * apply lookup_insert_Some in Hold as [[<- <-]|[_ Hold]]; [|now left].
        right. exists f, ci', m1. split; [left|]. split; [reflexivity|].
        split; [exact Hci' | reflexivity].
      * right. exists f', idx, m'. split; [now right | exact Hrest].
Qed.

(** X14. The cluster that [NewCluster] makes of local nodes, from flags
    that [CombineFlags] accepts: one channel is made and nothing else is
    done to the world; the cluster has that channel as its shared stream,
    no named stream, and a node under exactly the names of the flags.
    The node under a name holds flags of that name, the program path,
    the options, and the shared stream of the cluster; it does not run,
    has no process and carries the zero time in both timestamps. Its
    colour index is within [colorsTerminal], so its [Write] cannot
    panic, and every node has the same width, which is not less than the
    length in bytes of the name of any of them. *)
Theorem NewCluster_makes_local_nodes :
  forall (programPath : string) (fs : list Flags.t) (opts : list OpOption) (w : World),
    fs <> [] ->
    (Flags_Combine w false fs).2 = None ->
    let fs' := (Flags_Combine w false fs).1 in
    let o := op_apply (mkOp false 0 []) opts in
    exists c m,
      NewCluster WebLocal programPath fs opts w
      = Returns (Some c, None) (set_chans (S (chans w)) w)
      /\ defaultCluster.sharedStream c = mkChan (chans w) 5000
      /\ defaultCluster.idToStream c = ∅
      /\ dom (defaultCluster.nameToNode c) = list_to_set (Flags.Name <$> fs')
      /\ forall k nd,
           defaultCluster.nameToNode c !! k = Some nd ->
           exists f idx,
             nd = OfWebLocal
                    (NodeWebLocal.mk m idx (op_liveLog o) (mkChan (chans w) 5000)
                       programPath f None 0 false (op_limitInterval o) zeroTime zeroTime)
             /\ f ∈ fs' /\ Flags.Name f = k
             /\ is_Some (index colorsTerminal idx)
             /\ Z.of_nat (String.length (Flags.Name f)) <= m.
Proof.
  intros programPath fs opts w Hfs Hcombine fs' o.
  destruct (NewCluster_range_WebLocal programPath o (mkChan (chans w) 5000) fs' 0 0 0 ∅
              (set_chans (S (chans w)) w) ltac:(lia))
    as (nodes & m & Hrun & _ & Hfit & Hdom & Hnodes).
  exists (defaultCluster.mk (mkChan (chans w) 5000) ∅ (share_max m <$> nodes)), m.
  split; [|split; [reflexivity|split; [reflexivity|split]]].
  - unfold NewCluster. destruct fs as [|f0 fs0]; [congruence|].
    cbn [length Nat.eqb]. fold o.
    change (WebLocal =? WebRemote) with false. rewrite andb_false_r. cbn [andb].
    unfold bind at 1, CombineFlags at 1. cbn [fst snd]. rewrite Hcombine.
    cbn [fmap option_fmap option_map].
    unfold bind at 1, make_chan at 1. unfold bind at 1.
    fold fs'. rewrite Hrun. reflexivity.
  - cbn [defaultCluster.nameToNode]. rewrite dom_fmap_L, Hdom, dom_empty_L.
    now rewrite union_empty_l_L.
  - intros k nd Hk. cbn [defaultCluster.nameToNode] in Hk.
    rewrite lookup_fmap in Hk.
    destruct (nodes !! k) as [nd0|] eqn:Hnd0; [|discriminate].
    cbn in Hk. injection Hk as <-.
    destruct (Hnodes k nd0 Hnd0) as [Hold|(f & idx & m' & Hf & Hname & Hidx & ->)].
    { now rewrite lookup_empty in Hold. }
    exists f, idx. split; [reflexivity|]. split; [exact Hf|]. split; [exact Hname|].
    split.
    + unfold index, colorsTerminal. unfold len_colorsTerminal in Hidx.
      destruct (Z.ltb_spec idx 0) as [Hneg|_]; [lia|].
      apply lookup_lt_is_Some. cbn [length]. lia.
    + now apply Hfit.
Qed.

(** Two members, the second with the longer name. *)
Lemma NewCluster_makes_local_nodes_witness :
  exists c,
    NewCluster WebLocal "etcd"
               [Ex.flags "a" "localhost:2379"; Ex.flags "etcd2" "localhost:2479"]
               [WithLimitInterval Ex.ms100] (Ex.world 1000 1)
    = Returns (Some c, None) (set_chans 2 (Ex.world 1000 1))
    /\ dom (defaultCluster.nameToNode c) = {["a"; "etcd2"]}.
Proof.
  pose proof (NewCluster_makes_local_nodes "etcd"
                [Ex.flags "a" "localhost:2379"; Ex.flags "etcd2" "localhost:2479"]
                [WithLimitInterval Ex.ms100] (Ex.world 1000 1)
                ltac:(discriminate) eq_refl) as Hmade.
  cbv zeta in Hmade. destruct Hmade as (c & m & Hrun & _ & _ & Hdom & _).
  exists c. split; [exact Hrun|]. rewrite Hdom. cbn.
  now rewrite union_empty_r_L.
Defined.

(** ** The status that a probe sends *)

Lemma scan_members_find (name : string) (mbs : list Member) (stat : ServerStatus) :
  scan_members name mbs stat
  = match find (fun mb => String.eqb (mb_Name mb) name) mbs with
    | Some mb => mkStatus (st_Name stat) (mb_ID mb) (st_Endpoint stat)
                          (if mb_IsLeader mb then "Leader" else "Follower")
                          (st_NumberOfKeys stat) (st_Hash stat)
    | None => stat
    end.
Proof.
  induction mbs as [|mb mbs IH]; cbn [scan_members find]; [reflexivity|].
  now destruct (String.eqb (mb_Name mb) name).
Qed.

Lemma scan_metrics_find (lines : list MetricLine) (stat : ServerStatus) :
  scan_metrics lines stat
  = match find (fun l => negb (HasPrefix_hash (ln_txt l))
                         && String.eqb (first_field (ln_txt l)) "etcd_storage_keys_total")
               lines with
    | Some l => mkStatus (st_Name stat) (st_ID stat) (st_Endpoint stat) (st_State stat)
                         (ln_value l) (st_Hash stat)
    | None => stat
    end.
Proof.
  induction lines as [|l lines IH]; cbn [scan_metrics find]; [reflexivity|].
  destruct (HasPrefix_hash (ln_txt l)); cbn [negb andb]; [exact IH|].
  now destruct (String.eqb (first_field (ln_txt l)) "etcd_storage_keys_total").
Qed.

(** X15. What is in a status that a probe sends. The probe sends a
    status only if the connection and the three requests succeed. The
    status has the name and the endpoint the probe was given and the
    hash that was answered. Its identifier and state come from the first
    member of the list that has the name of the node: [Leader] or
    [Follower]; when no member has that name the status says [unknown]
    and [unreachable], although the node answered. Its number of keys is
    0 when the metrics have no line that is not a comment and whose first
    field is [etcd_storage_keys_total]. *)
Theorem getStatus_fills_the_status_from_the_first_match :
  forall (name grpcEndpoint v2Endpoint : string) (p : Probe) (s : ServerStatus),
    getStatus name grpcEndpoint v2Endpoint p = inl s ->
    exists mbs lines,
      pr_dial p = None
      /\ pr_members p = StageDone mbs
      /\ pr_hash p = StageDone (st_Hash s)
      /\ pr_metrics p = StageDone lines
      /\ st_Name s = name
      /\ st_Endpoint s = grpcEndpoint
      /\ match find (fun mb => String.eqb (mb_Name mb) name) mbs with
         | Some mb => st_ID s = mb_ID mb
                      /\ st_State s = (if mb_IsLeader mb then "Leader" else "Follower")
         | None => st_ID s = "unknown" /\ st_State s = "unreachable"
         end
      /\ (find (fun l => negb (HasPrefix_hash (ln_txt l))
                         && String.eqb (first_field (ln_txt l))
                                       "etcd_storage_keys_total") lines = None ->
          st_NumberOfKeys s = 0).
Proof.
  intros name grpcEndpoint v2Endpoint p s. unfold getStatus.
  destruct (pr_dial p); [discriminate|].
  destruct (pr_members p) as [| |mbs]; try discriminate.
  destruct (pr_hash p) as [| |h]; try discriminate.
  destruct (pr_metrics p) as [| |lines]; try discriminate.
  intros [= <-]. exists mbs, lines.
  rewrite scan_metrics_find, scan_members_find.
  destruct (find _ lines); destruct (find _ mbs); cbn; repeat split; discriminate.
Qed.

(** The probe of [a] in the examples: the second member of the list has
    its name and leads. *)
Lemma getStatus_fills_the_status_from_the_first_match_witness :
  exists s,
    getStatus "a" "10.0.0.1:2379" "http://10.0.0.1:2379" (Ex.probes "a") = inl s
    /\ st_ID s = "1" /\ st_State s = "Leader".
Proof.
  eexists. split; [reflexivity|].
  destruct (getStatus_fills_the_status_from_the_first_match
              "a" "10.0.0.1:2379" "http://10.0.0.1:2379" (Ex.probes "a") _ eq_refl)
    as (mbs & lines & _ & Hmbs & _ & _ & _ & _ & Hstate & _).
  injection Hmbs as <-. exact Hstate.
Defined.

(** ** The remote nodes that NewCluster makes *)

(** The loop of [NewCluster] for remote nodes, with agents that can all
    be made. The member at place [j] of the flags gets the agent of the
    endpoint at place [i + j]. *)
Lemma NewCluster_range_WebRemote (programPath : string) (o : op) (bufferedStream : chan)
    (fs : list Flags.t) (i : nat) (maxProcNameLength colorIdx : Z)
    (nameToNode : gmap string node) (w : World) :
  op_agentEndpoints o <> [] ->
  (forall n, sys_err w n = None) ->
  NoDup (Flags.Name <$> fs) ->
  exists nodes m,
    NewCluster_range WebRemote programPath o bufferedStream fs i maxProcNameLength colorIdx
                     nameToNode w
    = Returns (inr (nodes, m))
        (set_trace (trace w ++ ((fun j => SysNewAgent (nth (i + j) (op_agentEndpoints o) ""))
                                  <$> seq 0 (length fs)))%list w)
    /\ dom nodes = dom nameToNode ∪ list_to_set (Flags.Name <$> fs)
    /\ (forall j f,
           fs !! j = Some f ->
           nodes !! Flags.Name f
           = Some (OfWebRemote
                     (NodeWebRemoteClient.mk f
                        (mkAgent (nth (i + j) (op_agentEndpoints o) "")) false
                        (op_limitInterval o))))
    /\ (forall k, k ∉ Flags.Name <$> fs -> nodes !! k = nameToNode !! k).
Proof.
  intros Heps. revert i maxProcNameLength colorIdx nameToNode w.
  induction fs as [|f fs IH]; intros i m0 ci nodes0 w Hw Hnodup; cbn [NewCluster_range].
  - exists nodes0, m0. split; [|split; [|split]].
    + cbn. rewrite app_nil_r. unfold ret. now destruct w.
    + cbn. now rewrite union_empty_r_L.
    + intros j f Hj. discriminate.
    + reflexivity.
  - change (WebRemote =? Terminal) with false. change (WebRemote =? WebLocal) with false.
    change (WebRemote =? WebRemote) with true. cbn iota.
    assert (Hlen : (length (op_agentEndpoints o) =? 0)%nat = false).
    { destruct (op_agentEndpoints o); [congruence | reflexivity]. }
    rewrite Hlen. unfold bind at 1. unfold bind at 1, syscall at 1.
    rewrite Hw. cbn [fmap option_fmap option_map]. unfold ret at 1.
    set (ni := OfWebRemote (NodeWebRemoteClient.mk f
                              (mkAgent (nth i (op_agentEndpoints o) "")) false
                              (op_limitInterval o))).
    set (w1 := set_trace (trace w ++ [SysNewAgent (nth i (op_agentEndpoints o) "")]) w).
    cbn [fmap list_fmap] in Hnodup. apply NoDup_cons in Hnodup as [Hf Hnodup].
    destruct (IH (S i)
                 (if m0 <? Z.of_nat (String.length (Flags.Name f))
                  then Z.of_nat (String.length (Flags.Name f)) else m0)
                 ((if len_colorsTerminal <=? ci then 0 else ci) + 1)
                 (<[Flags.Name f := ni]> nodes0) w1 Hw Hnodup)
      as (nodes & m & Hrun & Hdom & Hmembers & Hothers).
    exists nodes, m. split; [|split; [|split]].
    + rewrite Hrun. f_equal. unfold w1. cbn [trace set_trace length seq fmap list_fmap].
      rewrite <- app_assoc. cbn [app]. rewrite Nat.add_0_r.
      rewrite <- seq_shift, <- list_fmap_compose.
      replace ((fun j => SysNewAgent (nth (S i + j) (op_agentEndpoints o) ""))
                 <$> seq 0 (length fs))
        with (((fun j => SysNewAgent (nth (i + j) (op_agentEndpoints o) "")) ∘ S)
                <$> seq 0 (length fs)); [reflexivity|].
      apply list_fmap_ext. intros _ j _. cbn. now rewrite Nat.add_succ_r.
    + rewrite Hdom, dom_insert_L. cbn [fmap list_fmap list_to_set].
      rewrite (comm_L (∪) {[Flags.Name f]} (dom nodes0)), <- (assoc_L (∪)).
      reflexivity.
    + intros [|j] f' Hj; cbn in Hj.
      * injection Hj as <-. rewrite (Hothers _ Hf), lookup_insert_eq, Nat.add_0_r.
        reflexivity.
      * rewrite (Hmembers j f' Hj). now rewrite Nat.add_succ_r.
    + intros k Hk. cbn [fmap list_fmap] in Hk. apply not_elem_of_cons in Hk as [Hne Hk].
      rewrite (Hothers k Hk). now apply lookup_insert_ne.
Qed.

(** X16. The cluster that [NewCluster] makes of remote nodes, from
    flags that [CombineFlags] accepts and whose names differ, with as
    many agent endpoints as flags, when every agent can be made. After
    the shared channel, one agent is made for each member, in the order
    of the flags, the agent of the member at place [j] from the endpoint
    at place [j]. The cluster has a node under exactly the names of the
    flags; the node of the member at place [j] holds its flags and that
    agent, does not run, and carries the cool-down of the options (which
    no method of the remote node reads). *)
Theorem NewCluster_pairs_flags_with_agents :
  forall (programPath : string) (fs : list Flags.t) (opts : list OpOption) (w : World),
    let o := op_apply (mkOp false 0 []) opts in
    let fs' := (Flags_Combine w true fs).1 in
    fs <> [] ->
    op_agentEndpoints o <> [] ->
    length (op_agentEndpoints o) = length fs ->
    (Flags_Combine w true fs).2 = None ->
    NoDup (Flags.Name <$> fs') ->
    (forall n, sys_err w n = None) ->
    exists c,
      NewCluster WebRemote programPath fs opts w
      = Returns (Some c, None)
          (set_trace (trace w ++ ((fun j => SysNewAgent (nth j (op_agentEndpoints o) ""))
                                    <$> seq 0 (length fs')))%list
                     (set_chans (S (chans w)) w))
      /\ dom (defaultCluster.nameToNode c) = list_to_set (Flags.Name <$> fs')
      /\ forall j f,
           fs' !! j = Some f ->
           defaultCluster.nameToNode c !! Flags.Name f
           = Some (OfWebRemote
                     (NodeWebRemoteClient.mk f (mkAgent (nth j (op_agentEndpoints o) ""))
                        false (op_limitInterval o))).
Proof.
  intros programPath fs opts w o fs' Hfs Heps Hsize Hcombine Hnodup Hw.
  destruct (NewCluster_range_WebRemote programPath o (mkChan (chans w) 5000) fs' 0 0 0 ∅
              (set_chans (S (chans w)) w) Heps Hw Hnodup)
    as (nodes & m & Hrun & Hdom & Hmembers & _).
  exists (defaultCluster.mk (mkChan (chans w) 5000) ∅ (share_max m <$> nodes)).
  split; [|split].
  - unfold NewCluster. destruct fs as [|f0 fs0]; [congruence|].
    cbn [length Nat.eqb]. fold o.
    change (WebRemote =? WebRemote) with true. rewrite Hsize, Nat.eqb_refl.
    cbn [negb andb]. rewrite andb_false_r.
    unfold bind at 1, CombineFlags at 1. cbn [fst snd]. rewrite Hcombine.
    cbn [fmap option_fmap option_map].
    unfold bind at 1, make_chan at 1. unfold bind at 1.
    fold fs'. rewrite Hrun. reflexivity.
  - cbn [defaultCluster.nameToNode]. rewrite dom_fmap_L, Hdom, dom_empty_L.
    now rewrite union_empty_l_L.
  - intros j f Hj. cbn [defaultCluster.nameToNode].
    rewrite lookup_fmap, (Hmembers j f Hj). reflexivity.
Qed.

(** Two members and two agent endpoints. *)
Lemma NewCluster_pairs_flags_with_agents_witness :
  exists c w',
    NewCluster WebRemote "etcd"
               [Ex.flags "a" "10.0.0.1:2379"; Ex.flags "b" "10.0.0.2:2379"]
               [WithAgentEndpoints ["10.0.0.1:9027"; "10.0.0.2:9027"]] (Ex.world 1000 1)
    = Returns (Some c, None) w'
    /\ defaultCluster.nameToNode c !! "b"
       = Some (OfWebRemote
                 (NodeWebRemoteClient.mk (Ex.flags "b" "10.0.0.2:2379")
                    (mkAgent "10.0.0.2:9027") false 0)).
Proof.
  pose proof (NewCluster_pairs_flags_with_agents "etcd"
                [Ex.flags "a" "10.0.0.1:2379"; Ex.flags "b" "10.0.0.2:2379"]
                [WithAgentEndpoints ["10.0.0.1:9027"; "10.0.0.2:9027"]] (Ex.world 1000 1)
                ltac:(discriminate) ltac:(discriminate) eq_refl eq_refl
                ltac:(apply (bool_decide_unpack _); vm_compute; exact I)
                ltac:(reflexivity)) as Hmade.
  cbv zeta in Hmade. destruct Hmade as (c & Hrun & _ & Hmembers).
  exists c. eexists. split; [exact Hrun|].
  apply (Hmembers 1%nat (Ex.flags "b" "10.0.0.2:2379")). reflexivity.
Defined.

(** ** Put, Get and Delete *)

Section Store.
Context {N : Type} `{Node.ops N}.

(** With the mutex free [Write] returns, for every name and every kind of
    node, and leaves the mutex free and the nodes as they are. *)
Lemma Write_returns (c : defaultCluster.t N) (name msg : string) (ids : list string)
    (w : World) :
  mu w = false ->
  exists r w',
    defaultCluster.Write c name msg ids w = Returns r w'
    /\ mu w' = false
    /\ defaultCluster.nameToNode r.2 = defaultCluster.nameToNode c.
Proof.
  intros Hmu. unfold defaultCluster.Write. unfold bind at 1 2. unfold Lock, Unlock.
  rewrite Hmu. rewrite unlock_lock_free by exact Hmu.
  destruct (defaultCluster.nameToNode c !! name) as [nd|]; [|now eexists _, _].
  assert (Hstreams : exists r w',
             (let* c := defaultCluster.Write_streams ids msg c in
              ret (None : option error, c)) w
             = Returns r w'
             /\ mu w' = false
             /\ defaultCluster.nameToNode r.2 = defaultCluster.nameToNode c).
  { destruct (Write_streams_run ids msg c w Hmu) as (c' & w' & Hrun & Hmu' & Hnodes & _).
    unfold bind. rewrite Hrun. now eexists _, _. }
  destruct (Node.typeOf nd) as [vt|vt|vt|].
  - unfold bind, syscall, ret. now eexists _, _.
  - destruct (length ids =? 0)%nat; [|exact Hstreams].
    unfold bind, send, ret. now eexists _, _.
  - destruct (0 <? length ids)%nat; [exact Hstreams|]. now eexists _, _.
  - now eexists _, _.
Qed.

Lemma Get_range_run (fmt : Printer) (name : string) (ids : list string)
    (kvs : list (string * string)) (vs : list string) (c : defaultCluster.t N) (w : World) :
  mu w = false ->
  exists c' w',
    defaultCluster.Get_range fmt name ids kvs vs c w = Returns ((vs ++ kvs.*2)%list, c') w'
    /\ mu w' = false
    /\ defaultCluster.nameToNode c' = defaultCluster.nameToNode c.
Proof.
  revert vs c w. induction kvs as [|ev kvs IH]; intros vs c w Hmu;
    cbn [defaultCluster.Get_range].
  - exists c, w. cbn. now rewrite app_nil_r.
  - unfold bind at 1.
    destruct (Write_returns c name
                ("[GET] " ++ print_q fmt ev.1 ++ " : " ++ print_q fmt ev.2) ids w Hmu)
      as (r & w1 & Hrun & Hmu1 & Hnodes1).
    rewrite Hrun.
    destruct (IH (vs ++ [ev.2])%list r.2 w1 Hmu1) as (c' & w' & Hrest & Hmu' & Hnodes').
    exists c', w'. rewrite Hrest. cbn [fmap list_fmap]. rewrite <- app_assoc.
    split; [reflexivity|]. split; [exact Hmu' | congruence].
Qed.

(** The first key of the range, for a map that is not empty. *)
Lemma range_first_registered {V : Type} (ks : list string) (m : gmap string V)
    (name : string) :
  RangeOrder ks m -> m <> ∅ -> is_Some (m !! range_first ks m name).
Proof.
  intros Hks Hm. apply map_choose in Hm as (k & v & Hk).
  assert (Hin : k ∈ ks) by (apply (RangeOrder_lookup _ _ _ Hks); eauto).
  clear Hks. induction ks as [|n ks IH]; [now apply elem_of_nil in Hin|].
  cbn [range_first]. case_decide as Hn; [exact Hn|].
  apply IH. apply elem_of_cons in Hin as [->|Hin]; [|exact Hin].
  exfalso. apply Hn. eauto.
Qed.

Lemma range_first_empty {V : Type} (ks : list string) (name : string) :
  range_first ks (∅ : gmap string V) name = name.
Proof.
  induction ks as [|n ks IH]; [reflexivity|]. cbn [range_first].
  rewrite decide_False; [exact IH|]. rewrite lookup_empty. now intros [? ?].
Qed.
End Store.

(** X17. Which node [Put], [Get] and [Delete] turn to, and what they do
    before they reach the store; the nodes with an endpoint answer
    [IsActive]. The node is the one named, and for an empty name the
    first node of the range, which is a registered node whenever the
    cluster has one. If no node has the name (or the name is empty and
    the cluster too), each of the three returns the error
    ["<name> does not exist"] and has done nothing, whatever the store
    would answer: the cluster and the world are as before. Otherwise the
    store is dialled with one endpoint, that of the node, whether or not
    the node runs; if dialling fails each of the three returns that
    error, again without having done anything. *)
Theorem store_calls_find_their_node_first :
  forall (N : Type) (H : Node.ops N) (fmt : Printer) (store : Store)
         (c : defaultCluster.t N) (ks ks' : list string)
         (name key value : string) (streamIDs : list string) (w : World),
    RangeOrder ks (defaultCluster.nameToNode c) ->
    (forall k nd, defaultCluster.nameToNode c !! k = Some nd ->
                  Node.Endpoint nd <> "" -> is_Some (Node.IsActive nd w)) ->
    let pick := if String.eqb name ""
                then range_first ks' (Node.Endpoint <$> defaultCluster.nameToNode c) name
                else name in
    (defaultCluster.nameToNode c !! pick = None ->
     defaultCluster.Put fmt store c ks ks' name key value streamIDs w
     = Returns (Some (ErrNotExist pick), c) w
     /\ defaultCluster.Get fmt store c ks ks' name key streamIDs w
        = Returns ([], Some (ErrNotExist pick), c) w
     /\ defaultCluster.Delete fmt store c ks ks' name key streamIDs w
        = Returns (Some (ErrNotExist pick), c) w)
    /\
    (forall nd msg,
        defaultCluster.nameToNode c !! pick = Some nd ->
        kv_dial store [Node.Endpoint nd] = Some msg ->
        defaultCluster.Put fmt store c ks ks' name key value streamIDs w
        = Returns (Some (ErrExternal msg), c) w
        /\ defaultCluster.Get fmt store c ks ks' name key streamIDs w
           = Returns ([], Some (ErrExternal msg), c) w
        /\ defaultCluster.Delete fmt store c ks ks' name key streamIDs w
           = Returns (Some (ErrExternal msg), c) w)
    /\
    (name = "" ->
     RangeOrder ks' (Node.Endpoint <$> defaultCluster.nameToNode c) ->
     (defaultCluster.nameToNode c <> ∅ -> is_Some (defaultCluster.nameToNode c !! pick))
     /\ (defaultCluster.nameToNode c = ∅ -> pick = "")).
Proof.
  intros N H fmt store c ks ks' name key value streamIDs w Hks Hans pick.
  destruct (Endpoints_run c ks w Hks Hans) as (endpoints & Hrun & _).
  split; [|split].
  - intros Hpick.
    split; [|split];
      [unfold defaultCluster.Put | unfold defaultCluster.Get | unfold defaultCluster.Delete];
      unfold bind at 1; rewrite Hrun; cbn [fst snd]; fold pick;
      rewrite lookup_fmap, Hpick; reflexivity.
  - intros nd msg Hpick Hdial.
    split; [|split];
      [unfold defaultCluster.Put | unfold defaultCluster.Get | unfold defaultCluster.Delete];
      unfold bind at 1; rewrite Hrun; cbn [fst snd]; fold pick;
      rewrite lookup_fmap, Hpick; cbn [fmap option_fmap option_map]; rewrite Hdial;
      reflexivity.
  - intros -> Hks'. subst pick. cbn [String.eqb]. split.
    + intros Hnodes.
      destruct (range_first_registered ks' (Node.Endpoint <$> defaultCluster.nameToNode c) ""
                  Hks') as [v Hv].
      { intros Hempty. apply fmap_empty_inv in Hempty. contradiction. }
      rewrite lookup_fmap in Hv.
      destruct (defaultCluster.nameToNode c !! _) as [nd|]; [eauto | discriminate].
    + intros ->. rewrite fmap_empty. apply range_first_empty.
Qed.

(** [Delete] on the three remote nodes for the name [zz]. *)
Lemma store_calls_find_their_node_first_witness :
  defaultCluster.Delete (H := NodeWebRemoteClient_ops) Ex.printer Ex.store
                        Ex.remote_cluster ["c"; "a"; "b"] ["c"; "a"; "b"] "zz" "k1" []
                        (Ex.world 1000 1)
  = Returns (Some (ErrNotExist "zz"), Ex.remote_cluster) (Ex.world 1000 1).
Proof.
  apply (proj1 (store_calls_find_their_node_first _ NodeWebRemoteClient_ops
                  Ex.printer Ex.store Ex.remote_cluster ["c"; "a"; "b"] ["c"; "a"; "b"]
                  "zz" "k1" "" [] (Ex.world 1000 1)
                  ltac:(unfold RangeOrder; vm_compute; reflexivity)
                  ltac:(intros k nd _ _; eexists; reflexivity))).
  reflexivity.
Defined.

(** X18. [Get] from a registered node (the one named, or for an empty
    name the first of the range), when the mutex is free, the nodes with
    an endpoint answer [IsActive], the store can be dialled at the
    endpoint of the node and answers the request: [Get] returns, without
    an error, the values of the response sorted as [sort.Strings] sorts
    them, which need not be the order of the keys they came with; every
    value of the response is returned, as often as it came. The nodes
    are as before and the mutex is free again. *)
Theorem Get_returns_the_values_sorted :
  forall (N : Type) (H : Node.ops N) (fmt : Printer) (store : Store)
         (c : defaultCluster.t N) (ks ks' : list string)
         (name key : string) (streamIDs : list string) (w : World)
         (nd : N) (kvs : list (string * string)),
    mu w = false ->
    RangeOrder ks (defaultCluster.nameToNode c) ->
    (forall k nd, defaultCluster.nameToNode c !! k = Some nd ->
                  Node.Endpoint nd <> "" -> is_Some (Node.IsActive nd w)) ->
    defaultCluster.nameToNode c
      !! (if String.eqb name ""
          then range_first ks' (Node.Endpoint <$> defaultCluster.nameToNode c) name
          else name) = Some nd ->
    kv_dial store [Node.Endpoint nd] = None ->
    kv_Get store [Node.Endpoint nd] key = inl kvs ->
    exists vs c' w',
      defaultCluster.Get fmt store c ks ks' name key streamIDs w = Returns (vs, None, c') w'
      /\ Sorted string_le vs
      /\ vs ≡ₚ kvs.*2
      /\ defaultCluster.nameToNode c' = defaultCluster.nameToNode c
      /\ mu w' = false.
Proof.
  intros N H fmt store c ks ks' name key streamIDs w nd kvs Hmu Hks Hans Hpick Hdial Hget.
  destruct (Endpoints_run c ks w Hks Hans) as (endpoints & Hrun & _).
  unfold defaultCluster.Get. unfold bind at 1. rewrite Hrun. cbn [fst snd].
  set (pick := if String.eqb name "" then _ else name) in *.
  rewrite lookup_fmap, Hpick. cbn [fmap option_fmap option_map]. rewrite Hdial.
  unfold bind at 1, time_Now at 1.
  set (w0 := set_ticks (S (ticks w)) w).
  assert (Hmu0 : mu w0 = false) by exact Hmu.
  unfold bind at 1.
  destruct (Write_returns c pick
              ("[GET] Started! (endpoints: " ++ print_qs fmt [Node.Endpoint nd] ++ ")")
              streamIDs w0 Hmu0) as (r1 & w1 & Hw1 & Hmu1 & Hnodes1).
  rewrite Hw1, Hget.
  (* the lines for the pairs, or the line that says there is none *)
  assert (Hpairs : exists c2 w2,
             (if (0 <? length kvs)%nat
              then defaultCluster.Get_range fmt pick streamIDs kvs [] r1.2
              else let* r := defaultCluster.Write r1.2 pick
                               ("[GET] " ++ print_q fmt key ++ " does not exist!")
                               streamIDs in
                   ret ([], r.2)) w1
             = Returns (kvs.*2, c2) w2
             /\ mu w2 = false
             /\ defaultCluster.nameToNode c2 = defaultCluster.nameToNode c).
  { destruct kvs as [|ev kvs'].
    - cbn [length Nat.ltb Nat.leb]. unfold bind.
      destruct (Write_returns r1.2 pick ("[GET] " ++ print_q fmt key ++ " does not exist!")
                  streamIDs w1 Hmu1) as (r2 & w2 & Hw2 & Hmu2 & Hnodes2).
      rewrite Hw2. exists r2.2, w2. split; [reflexivity|]. split; [exact Hmu2 | congruence].
    - cbn [length Nat.ltb Nat.leb].
      destruct (Get_range_run fmt pick streamIDs (ev :: kvs') [] r1.2 w1 Hmu1)
        as (c2 & w2 & Hrange & Hmu2 & Hnodes2).
      exists c2, w2. split; [exact Hrange|]. split; [exact Hmu2 | congruence]. }
  destruct Hpairs as (c2 & w2 & Hpairs & Hmu2 & Hnodes2).
  unfold bind at 1. rewrite Hpairs. cbn [fst snd].
  unfold bind at 1, time_Now at 1.
  set (w3 := set_ticks (S (ticks w2)) w2).
  assert (Hmu3 : mu w3 = false) by exact Hmu2.
  unfold bind.
  destruct (Write_returns c2 pick
              ("[GET] Done! Took "
               ++ print_v fmt (Sub (clock w2 (ticks w2)) (clock w (ticks w)))
               ++ " (endpoints: " ++ print_qs fmt [Node.Endpoint nd] ++ ")")
              streamIDs w3 Hmu3) as (r4 & w4 & Hw4 & Hmu4 & Hnodes4).
  rewrite Hw4. exists (sort_Strings kvs.*2), r4.2, w4.
  split; [reflexivity|]. split; [apply Sorted_merge_sort; apply _|].
  split; [apply merge_sort_Permutation|]. split; [congruence | exact Hmu4].
Qed.

(** [Get] from the first of the three remote nodes, on the streams of two
    users: the store answers [pear] for [k2] and [apple] for [k1]. *)
Lemma Get_returns_the_values_sorted_witness :
  exists vs c' w',
    defaultCluster.Get (H := NodeWebRemoteClient_ops) Ex.printer Ex.store
                       Ex.remote_cluster ["c"; "a"; "b"] ["c"; "a"; "b"] "" "k" ["u1"; "u2"]
                       (Ex.world 1000 1)
    = Returns (vs, None, c') w'
    /\ Sorted string_le vs
    /\ vs ≡ₚ ["pear"; "apple"].
Proof.
  destruct (Get_returns_the_values_sorted _ NodeWebRemoteClient_ops Ex.printer Ex.store
              Ex.remote_cluster ["c"; "a"; "b"] ["c"; "a"; "b"] "" "k" ["u1"; "u2"]
              (Ex.world 1000 1) (Ex.remote "c" "10.0.0.3:2379" true)
              [("k2", "pear"); ("k1", "apple")]
              eq_refl
              ltac:(unfold RangeOrder; vm_compute; reflexivity)
              ltac:(intros k nd _ _; eexists; reflexivity)
              ltac:(vm_compute; reflexivity) eq_refl eq_refl)
    as (vs & c' & w' & Hrun & Hsorted & Hperm & _).
  exists vs, c', w'. split; [exact Hrun|]. split; [exact Hsorted | exact Hperm].
Defined.

(** ** The request limiter of the backend *)

Section Limiter.
Context {C : Type}.

Lemma set_user_set_user (userID : string) (v1 v2 : userData.t) (s : cache.t C) :
  cache.set_user userID v2 (cache.set_user userID v1 s) = cache.set_user userID v2 s.
Proof. unfold cache.set_user. cbn. now rewrite insert_insert_eq. Qed.

Lemma set_user_same (userID : string) (v : userData.t) (s : cache.t C) :
  cache.users s !! userID = Some v -> cache.set_user userID v s = s.
Proof. intros Hv. destruct s as [cl us]. unfold cache.set_user. cbn in *. now rewrite insert_id. Qed.

Lemma set_requestCount_same (v : userData.t) :
  userData.set_requestCount (userData.requestCount v) v = v.
Proof. now destruct v. Qed.

(** A request of a user the cache does not know. *)
Lemma okToRequest_unknown (s : cache.t C) (userID : string) (w : World) :
  cache.users s !! userID = None ->
  cache.okToRequest s userID w = Returns (false, s) w.
Proof. intros Hv. unfold cache.okToRequest. now rewrite Hv. Qed.

(** The request that opens a window. *)
Lemma okToRequest_first (s : cache.t C) (userID : string) (v : userData.t) (w : World) :
  cache.users s !! userID = Some v ->
  userData.requestCount v = 0 ->
  cache.okToRequest s userID w
  = Returns (true,
             cache.set_user userID
               (userData.set_lastRequestTime (clock w (ticks w))
                  (userData.set_requestCount 1 v)) s)
            (set_ticks (S (ticks w)) w).
Proof.
  intros Hv Hcount. unfold cache.okToRequest. rewrite Hv, Hcount. reflexivity.
Qed.

(** A request within the first four of a window. *)
Lemma okToRequest_free (s : cache.t C) (userID : string) (v : userData.t) (w : World) :
  cache.users s !! userID = Some v ->
  0 < userData.requestCount v < 4 ->
  cache.okToRequest s userID w
  = Returns (true,
             cache.set_user userID
               (userData.set_requestCount (userData.requestCount v + 1) v) s) w.
Proof.
  intros Hv Hcount. unfold cache.okToRequest. rewrite Hv.
  assert (Hincr : int_incr (userData.requestCount v) = userData.requestCount v + 1).
  { unfold int_incr, maxInt.
    destruct (Z.eqb_spec (userData.requestCount v) (2 ^ 63 - 1)); [lia | reflexivity]. }
  rewrite Hincr. cbn [userData.requestCount userData.set_requestCount].
  destruct (Z.eqb_spec (userData.requestCount v + 1) 1) as [|_]; [lia|].
  unfold bind, ret. cbn [userData.requestCount userData.set_requestCount].
  destruct (Z.ltb_spec (userData.requestCount v + 1) 5); [reflexivity | lia].
Qed.

(** A request after the first four of a window: the clock decides. *)
Lemma okToRequest_limited (s : cache.t C) (userID : string) (v : userData.t) (w : World) :
  cache.users s !! userID = Some v ->
  4 <= userData.requestCount v < maxInt ->
  cache.okToRequest s userID w
  = if Sub (clock w (ticks w)) (userData.lastRequestTime v) >? Second
    then Returns (true,
                  cache.set_user userID
                    (userData.set_requestCount 0
                       (userData.set_lastRequestTime (clock w (S (ticks w))) v)) s)
                 (set_ticks (S (S (ticks w))) w)
    else Returns (false,
                  cache.set_user userID
                    (userData.set_requestCount (userData.requestCount v + 1) v) s)
                 (set_ticks (S (ticks w)) w).
Proof.
  intros Hv Hcount. unfold cache.okToRequest. rewrite Hv.
  assert (Hincr : int_incr (userData.requestCount v) = userData.requestCount v + 1).
  { unfold int_incr. destruct (Z.eqb_spec (userData.requestCount v) maxInt); [lia | reflexivity]. }
  rewrite Hincr. cbn [userData.requestCount userData.set_requestCount].
  destruct (Z.eqb_spec (userData.requestCount v + 1) 1) as [|_]; [lia|].
  unfold bind at 1, ret at 1. cbn [userData.requestCount userData.set_requestCount].
  destruct (Z.ltb_spec (userData.requestCount v + 1) 5) as [|_]; [lia|].
  unfold bind at 1, time_Now at 1.
  cbn [userData.lastRequestTime userData.set_requestCount].
  destruct (Sub (clock w (ticks w)) (userData.lastRequestTime v) >? Second); reflexivity.
Qed.

Lemma requests_S (n : nat) (s : cache.t C) (userID : string) (w : World) :
  cache.requests (S n) userID s w
  = match cache.okToRequest s userID w with
    | Returns r w1 =>
      match cache.requests n userID r.2 w1 with
      | Returns rs w2 => Returns (r.1 :: rs.1, rs.2) w2
      | Blocks => Blocks
      end
    | Blocks => Blocks
    end.
Proof. reflexivity. Qed.

(** Requests within the first four of a window that is open. *)
Lemma requests_granted (n : nat) (s : cache.t C) (userID : string) (v : userData.t)
    (w : World) :
  cache.users s !! userID = Some v ->
  0 < userData.requestCount v ->
  userData.requestCount v + Z.of_nat n <= 4 ->
  cache.requests n userID s w
  = Returns (repeat true n,
             cache.set_user userID
               (userData.set_requestCount (userData.requestCount v + Z.of_nat n) v) s) w.
Proof.
  revert s v. induction n as [|n IH]; intros s v Hv Hcount Hmax.
  - cbn [cache.requests repeat].
    now rewrite Z.add_0_r, set_requestCount_same, (set_user_same _ _ _ Hv).
  - rewrite requests_S, (okToRequest_free s userID v w Hv) by lia. cbn [fst snd].
    rewrite (IH _ (userData.set_requestCount (userData.requestCount v + 1) v)).
    + cbn [fst snd userData.requestCount userData.set_requestCount repeat].
      rewrite set_user_set_user.
      replace (userData.requestCount v + 1 + Z.of_nat n)
        with (userData.requestCount v + Z.of_nat (S n)) by lia.
      reflexivity.
    + apply lookup_insert_eq.
    + cbn. lia.
    + cbn. lia.
Qed.

(** Requests that come after the first four of a window and within a
    second of its beginning. *)
Lemma requests_refused (n : nat) (s : cache.t C) (userID : string) (v : userData.t)
    (w : World) :
  cache.users s !! userID = Some v ->
  4 <= userData.requestCount v ->
  userData.requestCount v + Z.of_nat n <= maxInt ->
  (forall i, (i < n)%nat ->
             Sub (clock w (i + ticks w)%nat) (userData.lastRequestTime v) <= Second) ->
  cache.requests n userID s w
  = Returns (repeat false n,
             cache.set_user userID
               (userData.set_requestCount (userData.requestCount v + Z.of_nat n) v) s)
            (set_ticks (n + ticks w) w).
Proof.
  revert s v w. induction n as [|n IH]; intros s v w Hv Hcount Hmax Hclock.
  - cbn [cache.requests repeat].
    rewrite Z.add_0_r, set_requestCount_same, (set_user_same _ _ _ Hv).
    unfold ret. now destruct w.
  - rewrite requests_S, (okToRequest_limited s userID v w Hv) by lia.
    assert (Hin : (Sub (clock w (ticks w)) (userData.lastRequestTime v) >? Second) = false).
    { rewrite Z.gtb_ltb. apply Z.ltb_ge. apply (Hclock 0%nat). lia. }
    rewrite Hin. cbn [fst snd].
    rewrite (IH _ (userData.set_requestCount (userData.requestCount v + 1) v)).
    + cbn [fst snd userData.requestCount userData.set_requestCount
           userData.lastRequestTime ticks set_ticks repeat].
      rewrite set_user_set_user.
      replace (n + S (ticks w))%nat with (S n + ticks w)%nat by lia.
      replace (userData.requestCount v + 1 + Z.of_nat n)
        with (userData.requestCount v + Z.of_nat (S n)) by lia.
      reflexivity.
    + unfold cache.set_user. cbn. apply lookup_insert_eq.
    + cbn. lia.
    + cbn. lia.
    + intros i Hi. cbn [ticks set_ticks clock userData.lastRequestTime
                        userData.set_requestCount].
      rewrite Nat.add_succ_r. apply (Hclock (S i)). lia.
Qed.
End Limiter.

(** X19. The window of [okToRequest]. A request of a user that the
    cache does not know is refused, and the cache is as before. For a
    user whose count is 0, the next four requests are granted whatever
    the clock reads; the first of them reads the clock once and that
    reading becomes the beginning of the window. The fifth request is
    granted if and only if, when it is made, more than a second has
    passed since that beginning. *)
Theorem okToRequest_grants_four_and_then_asks_the_clock :
  forall (C : Type) (s : cache.t C) (userID : string) (w : World),
    (cache.users s !! userID = None ->
     cache.okToRequest s userID w = Returns (false, s) w)
    /\
    (forall v,
        cache.users s !! userID = Some v ->
        userData.requestCount v = 0 ->
        let opened := userData.set_lastRequestTime (clock w (ticks w)) v in
        let s4 := cache.set_user userID (userData.set_requestCount 4 opened) s in
        let w4 := set_ticks (S (ticks w)) w in
        cache.requests 4 userID s w = Returns ([true; true; true; true], s4) w4
        /\ exists s5 w5,
            cache.okToRequest s4 userID w4
            = Returns (bool_decide (Second < Sub (clock w (S (ticks w))) (clock w (ticks w))),
                       s5) w5).
Proof.
  intros C s userID w. split; [apply okToRequest_unknown|].
  intros v Hv Hcount opened s4 w4. split.
  - rewrite requests_S, (okToRequest_first s userID v w Hv Hcount). cbn [fst snd].
    rewrite (requests_granted 3 _ userID
               (userData.set_lastRequestTime (clock w (ticks w))
                  (userData.set_requestCount 1 v)) (set_ticks (S (ticks w)) w)).
    + cbn [fst snd repeat]. rewrite set_user_set_user. reflexivity.
    + apply lookup_insert_eq.
    + cbn. lia.
    + cbn. lia.
  - rewrite (okToRequest_limited s4 userID (userData.set_requestCount 4 opened) w4).
    + cbn [userData.lastRequestTime userData.set_requestCount opened
           userData.set_lastRequestTime clock ticks w4 set_ticks].
      rewrite Z.gtb_ltb.
      destruct (Z.ltb_spec Second (Sub (clock w (S (ticks w))) (clock w (ticks w))))
        as [Hlt|Hge].
      * rewrite bool_decide_eq_true_2 by exact Hlt. eauto.
      * rewrite bool_decide_eq_false_2 by lia. eauto.
    + apply lookup_insert_eq.
    + cbn. unfold maxInt. lia.
Qed.

(** A user with count 0 in a world whose clock starts at 1000: four
    requests are granted, and the window begins at 1000. *)
Lemma okToRequest_grants_four_and_then_asks_the_clock_witness :
  cache.requests 4 "u" (Ex.cache_of 0 0) (Ex.world 1000 1)
  = Returns ([true; true; true; true],
             cache.set_user "u" (userData.mk 0 1000 4 "" "" "" "" []) (Ex.cache_of 0 0))
            (set_ticks 1 (Ex.world 1000 1)).
Proof.
  apply (proj1 (proj2 (okToRequest_grants_four_and_then_asks_the_clock
                         unit (Ex.cache_of 0 0) "u" (Ex.world 1000 1))
                      (userData.mk 0 0 0 "" "" "" "" []) eq_refl eq_refl)).
Defined.

(** X20. A refusal of [okToRequest] does not move the window. For a
    user who has had the four requests of the window, [n] further
    requests made within a second of the beginning of the window are all
    refused; they only count up, the beginning of the window stays. A
    request that comes more than a second after the beginning is then
    granted, however many were refused before it; it sets the count to 0
    and the beginning of the window to the reading of the clock that
    follows. (The count is an [int] of 64 bits and is taken not to reach
    its bound.) *)
Theorem okToRequest_refusals_do_not_extend_the_window :
  forall (C : Type) (s : cache.t C) (userID : string) (v : userData.t) (w : World)
         (n : nat),
    cache.users s !! userID = Some v ->
    4 <= userData.requestCount v ->
    userData.requestCount v + Z.of_nat n < maxInt ->
    (forall i, (i < n)%nat ->
               Sub (clock w (i + ticks w)%nat) (userData.lastRequestTime v) <= Second) ->
    let s' := cache.set_user userID
                (userData.set_requestCount (userData.requestCount v + Z.of_nat n) v) s in
    let w' := set_ticks (n + ticks w) w in
    cache.requests n userID s w = Returns (repeat false n, s') w'
    /\ (Second < Sub (clock w (n + ticks w)%nat) (userData.lastRequestTime v) ->
        cache.okToRequest s' userID w'
        = Returns (true,
                   cache.set_user userID
                     (userData.set_requestCount 0
                        (userData.set_lastRequestTime (clock w (S (n + ticks w))) v)) s)
                  (set_ticks (S (S (n + ticks w))) w)).
Proof.
  intros C s userID v w n Hv Hcount Hmax Hclock s' w'. split.
  - apply requests_refused; try assumption. lia.
  - intros Hlate.
    rewrite (okToRequest_limited s' userID
               (userData.set_requestCount (userData.requestCount v + Z.of_nat n) v) w').
    + cbn [userData.lastRequestTime userData.set_requestCount clock ticks w' set_ticks].
      rewrite Z.gtb_ltb. apply Z.ltb_lt in Hlate. rewrite Hlate.
      unfold s'. rewrite set_user_set_user. reflexivity.
    + apply lookup_insert_eq.
    + cbn. lia.
Qed.

(** A user who has had four requests since the window began at 1000:
    three requests in the nanoseconds that follow are refused. *)
Lemma okToRequest_refusals_do_not_extend_the_window_witness :
  cache.requests 3 "u" (Ex.cache_of 4 1000) (Ex.world 1000 1)
  = Returns ([false; false; false],
             cache.set_user "u" (userData.mk 0 1000 7 "" "" "" "" [])
               (Ex.cache_of 4 1000))
            (set_ticks 3 (Ex.world 1000 1)).
Proof.
  apply (proj1 (okToRequest_refusals_do_not_extend_the_window
                  unit (Ex.cache_of 4 1000) "u" (userData.mk 0 1000 4 "" "" "" "" [])
                  (Ex.world 1000 1) 3 eq_refl ltac:(cbn; lia)
                  ltac:(cbn; unfold maxInt; lia)
                  ltac:(intros i Hi; cbn; unfold Sub, Second, minDuration, maxDuration;
                        repeat match goal with
                               | |- context [?a <? ?b] => destruct (Z.ltb_spec a b)
                               end; lia))).
Defined.

(** X21. A handler behind [withCache] finds its user in the cache. For
    a user that the cache does not know, [withCache] enters the user with
    the reading of the clock as start time and a count of 0 before it
    hands the request on, so that [okToRequest] as the handler grants the
    first request of every new user; the users known before are as they
    were. For a user that the cache knows, [withCache] hands the request
    on with the cache as it is: the count and the window of the user are
    not reset. *)
Theorem withCache_enters_the_user_first :
  forall (C : Type) (s : cache.t C) (userID : string) (w : World),
    (cache.users s !! userID = None ->
     exists s',
       cache.withCache (fun u s => cache.okToRequest s u) userID s w
       = Returns (true, s') (set_ticks (S (S (ticks w))) w)
       /\ cache.users s' !! userID
          = Some (userData.mk (clock w (ticks w)) (clock w (S (ticks w))) 1 "" "" "" ""
                              ["TYPE_YOUR_KEY"; "sample_key"])
       /\ forall u, u <> userID -> cache.users s' !! u = cache.users s !! u)
    /\
    (forall (A : Type) (h : string -> cache.t C -> M (A * cache.t C)),
        is_Some (cache.users s !! userID) ->
        cache.withCache h userID s w = h userID s w).
Proof.
  intros C s userID w. split.
  - intros Hnew. unfold cache.withCache. rewrite Hnew.
    unfold bind at 1. unfold bind at 1, time_Now at 1, ret at 1.
    rewrite (okToRequest_first _ userID
               (userData.mk (clock w (ticks w)) zeroTime 0 "" "" "" ""
                            ["TYPE_YOUR_KEY"; "sample_key"])).
    + eexists. split; [reflexivity|]. split.
      * cbn. now rewrite lookup_insert_eq.
      * intros u Hu. cbn. now rewrite !lookup_insert_ne by congruence.
    + apply lookup_insert_eq.
    + reflexivity.
  - intros A h [v Hv]. unfold cache.withCache. now rewrite Hv.
Qed.

(** The first request of a user that an empty cache meets. *)
Lemma withCache_enters_the_user_first_witness :
  exists s',
    cache.withCache (fun u s => cache.okToRequest s u) "u"
                    (cache.mk (None : option unit) ∅) (Ex.world 1000 1)
    = Returns (true, s') (set_ticks 2 (Ex.world 1000 1))
    /\ cache.users s' !! "u"
       = Some (userData.mk 1000 1001 1 "" "" "" "" ["TYPE_YOUR_KEY"; "sample_key"]).
Proof.
  destruct (proj1 (withCache_enters_the_user_first unit (cache.mk None ∅) "u"
                     (Ex.world 1000 1)) (lookup_empty _)) as (s' & Hrun & Huser & _).
  exists s'. split; [exact Hrun | exact Huser].
Defined.

(** ** Terminate after Start *)

(** What a [Start] that succeeds leaves of the world, with the mutex
    free: no reading of the clock was taken, one outside call was made. *)
Lemma NodeWebLocal_Start_success_world nd w nd' w' :
  mu w = false ->
  NodeWebLocal.Start nd w = Returns (None, nd') w' ->
  mu w' = false /\ ticks w' = ticks w /\ clock w' = clock w /\ sys_err w' = sys_err w
  /\ length (trace w') = S (length (trace w))
  /\ NodeWebLocal.PID nd' = sys_pid w (length (trace w))
  /\ NodeWebLocal.limitInterval nd' = NodeWebLocal.limitInterval nd
  /\ NodeWebLocal.sharedStream nd' = NodeWebLocal.sharedStream nd
  /\ NodeWebLocal.Flags nd' = NodeWebLocal.Flags nd.
Proof.
  intros Hmu H. unfold NodeWebLocal.Start in H. open_world w.
  split_run H; injection H as <- <-.
  repeat match goal with
         | H : match ?x with _ => _ end = _ |- _ =>
           destruct x eqn:?; try discriminate H; injection H as <-
         end.
  repeat split; try reflexivity. cbn. rewrite length_app. cbn. lia.
Qed.

(** [Terminate] of a node that runs, once the cool-down has passed and
    when the signal can be sent. *)
Lemma NodeWebLocal_Terminate_run (nd : NodeWebLocal.t) (w : World) :
  mu w = false ->
  NodeWebLocal.active nd = true ->
  NodeWebLocal.limitInterval nd <= Sub (clock w (ticks w)) (NodeWebLocal.lastTerminated nd) ->
  NodeWebLocal.limitInterval nd
  <= Sub (clock w (S (ticks w))) (NodeWebLocal.lastRestarted nd) ->
  sys_err w (length (trace w)) = None ->
  exists w',
    NodeWebLocal.Terminate nd w
    = Returns (None, NodeWebLocal.terminated (clock w (S (S (ticks w)))) nd) w'
    /\ mu w' = false
    /\ trace w' = (trace w ++ [SysKill (NodeWebLocal.PID nd)])%list
    /\ sent w' = (sent w ++ [(NodeWebLocal.sharedStream nd,
                              MsgTerminate (Flags.Name (NodeWebLocal.Flags nd))
                                           (NodeWebLocal.PID nd))])%list.
Proof.
  intros Hmu Ha Hge1 Hge2 Herr. apply Z.ltb_ge in Hge1, Hge2.
  unfold NodeWebLocal.Terminate. open_world w.
  rewrite Ha. simpl. rewrite Hge1. simpl. rewrite Hge2. simpl. rewrite Herr. simpl.
  eexists. repeat split; reflexivity.
Qed.

(** X22. [Start] takes no part in the cool-down of a local node: it
    records no time. When a [Start] has succeeded, a [Terminate] called
    right after it, with no time passed, is not refused as too soon as
    long as the earlier restart and terminate of the node lie back by the
    cool-down; if the signal can be sent, the [Terminate] succeeds. It
    sends the signal to the process that the [Start] launched and to no
    other, announces it on the shared stream, and leaves the node
    inactive, with the third reading of the clock as [lastTerminated]. *)
Theorem Terminate_right_after_Start_is_not_too_soon :
  forall (nd nd1 : NodeWebLocal.t) (w w1 : World),
    mu w = false ->
    NodeWebLocal.Start nd w = Returns (None, nd1) w1 ->
    NodeWebLocal.limitInterval nd
    <= Sub (clock w (ticks w)) (NodeWebLocal.lastTerminated nd) ->
    NodeWebLocal.limitInterval nd
    <= Sub (clock w (S (ticks w))) (NodeWebLocal.lastRestarted nd) ->
    sys_err w (S (length (trace w))) = None ->
    exists nd2 w2,
      NodeWebLocal.Terminate nd1 w1 = Returns (None, nd2) w2
      /\ trace w2 = (trace w1 ++ [SysKill (sys_pid w (length (trace w)))])%list
      /\ sent w2 = (sent w1 ++ [(NodeWebLocal.sharedStream nd,
                                 MsgTerminate (Flags.Name (NodeWebLocal.Flags nd))
                                              (sys_pid w (length (trace w))))])%list
      /\ NodeWebLocal.active nd2 = false
      /\ NodeWebLocal.lastTerminated nd2 = clock w (S (S (ticks w)))
      /\ mu w2 = false.
Proof.
  intros nd nd1 w w1 Hmu Hstart Hge1 Hge2 Herr.
  destruct (NodeWebLocal_Start_success_world _ _ _ _ Hmu Hstart)
    as (Hmu1 & Hticks & Hclock & Hsys & Hlen & Hpid & Hlimit & Hstream & Hflags).
  destruct (NodeWebLocal_Start_stamps _ _ _ _ _ Hstart) as [Hre Hte].
  pose proof (NodeWebLocal_Start_success _ _ _ _ Hstart) as Hact.
  destruct (NodeWebLocal_Terminate_run nd1 w1 Hmu1 Hact) as (w2 & Hrun & Hmu2 & Htr & Hsn).
  - now rewrite Hlimit, Hte, Hclock, Hticks.
  - now rewrite Hlimit, Hre, Hclock, Hticks.
  - now rewrite Hsys, Hlen.
  - exists (NodeWebLocal.terminated (clock w1 (S (S (ticks w1)))) nd1), w2.
    split; [exact Hrun|]. rewrite Htr, Hsn, Hpid, Hstream, Hflags, Hclock, Hticks.
    now repeat split.
Qed.

(** A node that never ran is started and terminated at once, a second of
    the clock after the zero time of its stamps. *)
Lemma Terminate_right_after_Start_is_not_too_soon_witness :
  Ex.run_local [MStart; MTerminate] (Ex.local "a" "localhost:2379" false 0 0)
               (Ex.world 1000000000 1)
  = Some ([None; None],
          NodeWebLocal.terminated 1000000002
            (NodeWebLocal.started (mkCmd ["/bin/sh"; "-c"; "etcd --name a"] false) 4000
               (Ex.local "a" "localhost:2379" false 0 0))).
Proof.
  assert (Hstart : NodeWebLocal.Start (Ex.local "a" "localhost:2379" false 0 0)
                                      (Ex.world 1000000000 1)
                   = Returns (None, _) _) by (vm_compute; reflexivity).
  destruct (Terminate_right_after_Start_is_not_too_soon
              (Ex.local "a" "localhost:2379" false 0 0) _ (Ex.world 1000000000 1) _
              eq_refl Hstart
              ltac:(vm_compute; discriminate) ltac:(vm_compute; discriminate) eq_refl)
    as (nd2 & w2 & Hterm & _).
  cbn [Ex.run_local]. rewrite Hstart. cbn [fst snd]. rewrite Hterm.
  vm_compute in Hterm. injection Hterm as <- _. reflexivity.
Defined.
